(** * The in-memory entity store of server/storage.ts (class MemStorage)

    A shallow embedding of the data-access layer: ten insertion-ordered
    collections keyed by numeric id, ten id counters, and the CRUD
    operations over them.

    Conventions of the embedding.
    - Every method of [MemStorage] is [async]; it runs to completion without
      awaiting anything but other methods of the same object, so a call is a
      function of the store.  A method without a [throw] returns its result
      paired with the store it leaves; the billing-linkage methods return
      an [outcome], [Return] for a resolved promise and [Throw] for a
      rejected one.
    - Ids and integer quantities are JS numbers holding integers; they are
      embedded as [Z].  The counters are exact as long as they stay below
      2^53, which an in-process store cannot leave.  [price] and [total] are
      arbitrary JS numbers and are embedded as binary64 floats.
    - A [Date] is its time value in milliseconds; each [new Date()] or
      [Date.now()] of a method is an explicit clock reading passed to it.
    - [null] and an absent key are both [None] in a stored record.  In a
      [Partial<_>] argument an absent key is [None] and a present one is
      [Some v], so a nullable field of a partial is an [option (option _)].
      [updateStore] and [updateProduct] skip a key that holds [undefined],
      which is therefore [None] as well.  [updateUser], [updateCategory],
      [updateCustomer] and [updateShopOwnerSubscription] spread the partial
      as it is: the partials handed to them are those that hold no key with
      the value [undefined], which the entity records have no value for.
    - Stored objects are embedded by value, except the shop owners, which
      the billing methods change in place and file again under their [id]
      field, so that two keys can hold one object: their entries carry a
      reference besides the value (module [Obj]).  A cart is changed in
      place too, but it is filed under the key it already has in every
      store the process can reach.  What a caller does to an object it
      was handed is outside the store and outside the embedding.
    - [console.log] in [updateStore] and [updateProduct] writes to the
      process log only and is left out. *)

From Stdlib Require Import ZArith List String Bool Lia Sorted.
From Stdlib Require Import Floats.PrimFloat.
Import ListNotations.

Set Warnings "-inexact-float".
Local Open Scope string_scope.
Local Open Scope list_scope.
Local Open Scope Z_scope.

(** ** JavaScript [Map<number, V>]

    A [Map] iterates in insertion order; [set] on a key already present
    keeps the key's position.  Hence an association list, oldest entry
    first. *)

Module JsMap.

Section Ops.
Context {V : Type}.

Definition t : Type := list (Z * V).

Definition empty : t := [].

Fixpoint get (k : Z) (m : t) : option V :=
  match m with
  | [] => None
  | (k', v) :: r => if k =? k' then Some v else get k r
  end.

Definition has (k : Z) (m : t) : bool :=
  match get k m with Some _ => true | None => false end.

Fixpoint set (k : Z) (v : V) (m : t) : t :=
  match m with
  | [] => [(k, v)]
  | (k', v') :: r => if k =? k' then (k, v) :: r else (k', v') :: set k v r
  end.

Definition remove (k : Z) (m : t) : t :=
  filter (fun e => negb (fst e =? k)) m.

(** [Map.prototype.delete]: whether the key was present, and the map
    without it. *)
Definition delete (k : Z) (m : t) : bool * t := (has k m, remove k m).

Definition keys (m : t) : list Z := map fst m.

(** [Array.from(m.values())] *)
Definition values (m : t) : list V := map snd m.

(** [Array.from(m.values()).find(p)] *)
Definition find (p : V -> bool) (m : t) : option V :=
  List.find p (values m).

(** In-place mutation of the object stored under key [k]. *)
Fixpoint mutate (k : Z) (f : V -> V) (m : t) : t :=
  match m with
  | [] => []
  | (k', v) :: r =>
      if k =? k' then (k', f v) :: r else (k', v) :: mutate k f r
  end.
End Ops.

Arguments t : clear implicits.

End JsMap.

(** ** Objects shared between keys

    An entry of a map whose objects are assigned to in place: the
    identity of the object, and its fields.  Two entries with the same
    reference are one object. *)

Module Obj.

Record t (A : Type) : Type := mk { ref : Z; val : A }.

Arguments mk {A} ref val.
Arguments ref {A} _.
Arguments val {A} _.

(** The reference of a newly made object: one that no entry holds. *)
Definition fresh {A : Type} (m : JsMap.t (t A)) : Z :=
  1 + fold_right Z.max 0 (map (fun e => ref (snd e)) m).

(** An assignment [f] to fields of the object [r]: every entry that holds
    the object shows it. *)
Definition assign {A : Type} (r : Z) (f : A -> A) (m : JsMap.t (t A))
  : JsMap.t (t A) :=
  map (fun e => if ref (snd e) =? r then (fst e, mk r (f (val (snd e))))
                else e) m.

End Obj.

(** ** Values *)

(** Time value of a [Date], in milliseconds since the epoch. *)
Definition Date : Type := Z.

(** [30 * 24 * 60 * 60 * 1000] *)
Definition THIRTY_DAYS_MS : Z := 30 * 24 * 60 * 60 * 1000.

(** [x || null] on an optional string: the empty string is falsy. *)
Definition or_null_string (x : option string) : option string :=
  match x with
  | Some s => if String.eqb s "" then None else Some s
  | None => None
  end.

(** [x || null] on an optional number: zero is falsy. *)
Definition or_null_number (x : option Z) : option Z :=
  match x with
  | Some n => if n =? 0 then None else Some n
  | None => None
  end.

(** One key of an object spread [{ ...existing, ...partial }]. *)
Definition spread {A : Type} (existing : A) (partial : option A) : A :=
  match partial with
  | Some v => v
  | None => existing
  end.

(** ** Entities

    The table declarations of [@shared/schema] are not part of the
    sources at hand; the records below carry the fields that storage.ts
    reads and writes, with the types the data model of the specification
    gives them. *)

(** Modelled from the spec: the [User] row of the data model and the keys
    of the seeded users; [@shared/schema] is missing. *)
Module User.
Record t := mk {
  id : Z; username : string; password : string; email : string;
  name : string; role : string; createdAt : Date }.
End User.

(** Modelled from the spec: the input of [createUser], the keys of
    [User.t] that the caller supplies; [@shared/schema] is missing. *)
Module InsertUser.
Record t := mk {
  username : string; password : string; email : string;
  name : string; role : string }.
End InsertUser.

(** [Partial<User>]: every key of [User.t], each optional. *)
Module PartialUser.
Record t := mk {
  id : option Z; username : option string; password : option string;
  email : option string; name : option string; role : option string;
  createdAt : option Date }.
Definition none : t := mk None None None None None None None.
End PartialUser.

(** Modelled from the spec: the [Store] row of the data model and the keys
    of the seeded store; [@shared/schema] is missing. *)
Module Store.
Record t := mk {
  id : Z; name : string; slug : option string; logoUrl : option string;
  whatsappNumber : string; instagramUrl : option string;
  facebookUrl : option string; showSocialMedia : bool; active : bool;
  createdAt : Date; updatedAt : Date; templateId : option Z }.
End Store.

(** Modelled from the spec: the input of [createStore], the keys of
    [Store.t] that the caller supplies; [@shared/schema] is missing. *)
Module InsertStore.
Record t := mk {
  name : string; slug : option string; logoUrl : option string;
  whatsappNumber : string; instagramUrl : option string;
  facebookUrl : option string; showSocialMedia : bool;
  active : option bool; templateId : option Z }.
End InsertStore.

(** [Partial<Store>]: every key of [Store.t], each optional. *)
Module PartialStore.
Record t := mk {
  id : option Z; name : option string; slug : option (option string);
  logoUrl : option (option string); whatsappNumber : option string;
  instagramUrl : option (option string);
  facebookUrl : option (option string); showSocialMedia : option bool;
  active : option bool; createdAt : option Date; updatedAt : option Date;
  templateId : option (option Z) }.
Definition none : t :=
  mk None None None None None None None None None None None None.
End PartialStore.

(** Modelled from the spec: the [Category] row of the data model;
    [@shared/schema] is missing. *)
Module Category.
Record t := mk { id : Z; name : string; storeId : Z; createdAt : Date }.
End Category.

(** Modelled from the spec: the input of [createCategory], the keys of
    [Category.t] that the caller supplies; [@shared/schema] is missing. *)
Module InsertCategory.
Record t := mk { name : string; storeId : Z }.
End InsertCategory.

(** [Partial<Category>]: every key of [Category.t], each optional. *)
Module PartialCategory.
Record t := mk {
  id : option Z; name : option string; storeId : option Z;
  createdAt : option Date }.
Definition none : t := mk None None None None.
End PartialCategory.

(** Modelled from the spec: the [Product] row of the data model and the
    keys of the seeded products; [@shared/schema] is missing. *)
Module Product.
Record t := mk {
  id : Z; name : string; price : float; description : option string;
  imageUrl : option string; storeId : Z; categoryId : option Z;
  active : bool; createdAt : Date; updatedAt : Date }.
End Product.

(** Modelled from the spec: the input of [createProduct], the keys of
    [Product.t] that the caller supplies; [@shared/schema] is missing. *)
Module InsertProduct.
Record t := mk {
  name : string; price : float; description : option string;
  imageUrl : option string; storeId : Z; categoryId : option Z;
  active : option bool }.
End InsertProduct.

(** [Partial<Product>]: every key of [Product.t], each optional. *)
Module PartialProduct.
Record t := mk {
  id : option Z; name : option string; price : option float;
  description : option (option string);
  imageUrl : option (option string); storeId : option Z;
  categoryId : option (option Z); active : option bool;
  createdAt : option Date; updatedAt : option Date }.
Definition none : t :=
  mk None None None None None None None None None None.
End PartialProduct.

Module SubscriptionStatus.
Inductive t := active | inactive | trial | expired.
End SubscriptionStatus.

(** Modelled from the spec: the [ShopOwner] row of the data model and the
    keys of the seeded shop owner; [@shared/schema] is missing. *)
Module ShopOwner.
Record t := mk {
  id : Z; userId : Z; storeId : option Z;
  subscriptionStatus : SubscriptionStatus.t;
  subscriptionExpiresAt : option Date;
  stripeCustomerId : option string; stripePriceId : option string;
  stripeSubscriptionId : option string }.
End ShopOwner.

(** Modelled from the spec: the input of [createShopOwner], the keys of
    [ShopOwner.t] that the caller supplies; [@shared/schema] is missing. *)
Module InsertShopOwner.
Record t := mk {
  userId : Z; storeId : option Z;
  subscriptionStatus : SubscriptionStatus.t;
  subscriptionExpiresAt : option Date }.
End InsertShopOwner.

(** [Partial<ShopOwner>]: every key of [ShopOwner.t], each optional. *)
Module PartialShopOwner.
Record t := mk {
  id : option Z; userId : option Z; storeId : option (option Z);
  subscriptionStatus : option SubscriptionStatus.t;
  subscriptionExpiresAt : option (option Date);
  stripeCustomerId : option (option string);
  stripePriceId : option (option string);
  stripeSubscriptionId : option (option string) }.
Definition none : t := mk None None None None None None None None.
End PartialShopOwner.

(** Modelled from the spec: the [Customer] row of the data model;
    [@shared/schema] is missing. *)
Module Customer.
Record t := mk {
  id : Z; userId : Z; address : option string; phone : option string }.
End Customer.

(** Modelled from the spec: the input of [createCustomer], the keys of
    [Customer.t] that the caller supplies; [@shared/schema] is missing. *)
Module InsertCustomer.
Record t := mk {
  userId : Z; address : option string; phone : option string }.
End InsertCustomer.

(** [Partial<Customer>]: every key of [Customer.t], each optional. *)
Module PartialCustomer.
Record t := mk {
  id : option Z; userId : option Z; address : option (option string);
  phone : option (option string) }.
Definition none : t := mk None None None None.
End PartialCustomer.

(** Modelled from the spec: the [Cart] row of the data model;
    [@shared/schema] is missing. *)
Module Cart.
Record t := mk {
  id : Z; customerId : Z; storeId : Z; createdAt : Date;
  updatedAt : Date }.
End Cart.

(** Modelled from the spec: the input of [createCart], the keys of
    [Cart.t] that the caller supplies; [@shared/schema] is missing. *)
Module InsertCart.
Record t := mk { customerId : Z; storeId : Z }.
End InsertCart.

(** Modelled from the spec: the [CartItem] row of the data model;
    [@shared/schema] is missing. *)
Module CartItem.
Record t := mk { id : Z; cartId : Z; productId : Z; quantity : Z }.
End CartItem.

(** Modelled from the spec: the input of [createCartItem], the keys of
    [CartItem.t] that the caller supplies; [@shared/schema] is missing. *)
Module InsertCartItem.
Record t := mk { cartId : Z; productId : Z; quantity : Z }.
End InsertCartItem.

(** Modelled from the spec: the [Order] row of the data model;
    [@shared/schema] is missing. *)
Module Order.
Record t := mk {
  id : Z; storeId : Z; customerId : option Z; customerName : string;
  customerPhone : option string; customerAddress : option string;
  deliveryMethod : string; notes : option string; total : float;
  whatsappSent : bool; createdAt : Date }.
End Order.

(** Modelled from the spec: the input of [createOrder], the keys of
    [Order.t] that the caller supplies; [@shared/schema] is missing. *)
Module InsertOrder.
Record t := mk {
  storeId : Z; customerId : option Z; customerName : string;
  customerPhone : option string; customerAddress : option string;
  deliveryMethod : string; notes : option string; total : float }.
End InsertOrder.

(** Modelled from the spec: the [OrderItem] row of the data model;
    [@shared/schema] is missing. *)
Module OrderItem.
Record t := mk {
  id : Z; orderId : Z; productName : string; price : float;
  quantity : Z }.
End OrderItem.

(** Modelled from the spec: the input of [createOrderItem], the keys of
    [OrderItem.t] that the caller supplies; [@shared/schema] is missing. *)
Module InsertOrderItem.
Record t := mk {
  orderId : Z; productName : string; price : float; quantity : Z }.
End InsertOrderItem.

(** Argument of [updateUserStripeInfo]. *)
Module StripeInfo.
Record t := mk { customerId : string; subscriptionId : string }.
End StripeInfo.

(** ** The store: the private fields of [MemStorage]

    [sessionStore] belongs to the session middleware and no method of the
    class reads it; it is left out. *)

Record MemStorage := mkMemStorage {
  users : JsMap.t User.t;
  stores : JsMap.t Store.t;
  categories : JsMap.t Category.t;
  products : JsMap.t Product.t;
  shopOwners : JsMap.t (Obj.t ShopOwner.t);
  customers : JsMap.t Customer.t;
  carts : JsMap.t Cart.t;
  cartItems : JsMap.t CartItem.t;
  orders : JsMap.t Order.t;
  orderItems : JsMap.t OrderItem.t;
  userId : Z;
  storeId : Z;
  categoryId : Z;
  productId : Z;
  shopOwnerId : Z;
  customerId : Z;
  cartId : Z;
  cartItemId : Z;
  orderId : Z;
  orderItemId : Z }.

(** Assignments to one field, [this.f = v]. *)

Section Assign.
Variable s : MemStorage.

Definition set_users (v : JsMap.t User.t) : MemStorage :=
  mkMemStorage v (stores s) (categories s) (products s) (shopOwners s)
    (customers s) (carts s) (cartItems s) (orders s) (orderItems s)
    (userId s) (storeId s) (categoryId s) (productId s) (shopOwnerId s)
    (customerId s) (cartId s) (cartItemId s) (orderId s) (orderItemId s).

Definition set_stores (v : JsMap.t Store.t) : MemStorage :=
  mkMemStorage (users s) v (categories s) (products s) (shopOwners s)
    (customers s) (carts s) (cartItems s) (orders s) (orderItems s)
    (userId s) (storeId s) (categoryId s) (productId s) (shopOwnerId s)
    (customerId s) (cartId s) (cartItemId s) (orderId s) (orderItemId s).

Definition set_categories (v : JsMap.t Category.t) : MemStorage :=
  mkMemStorage (users s) (stores s) v (products s) (shopOwners s)
    (customers s) (carts s) (cartItems s) (orders s) (orderItems s)
    (userId s) (storeId s) (categoryId s) (productId s) (shopOwnerId s)
    (customerId s) (cartId s) (cartItemId s) (orderId s) (orderItemId s).

Definition set_products (v : JsMap.t Product.t) : MemStorage :=
  mkMemStorage (users s) (stores s) (categories s) v (shopOwners s)
    (customers s) (carts s) (cartItems s) (orders s) (orderItems s)
    (userId s) (storeId s) (categoryId s) (productId s) (shopOwnerId s)
    (customerId s) (cartId s) (cartItemId s) (orderId s) (orderItemId s).

Definition set_shopOwners (v : JsMap.t (Obj.t ShopOwner.t)) : MemStorage :=
  mkMemStorage (users s) (stores s) (categories s) (products s) v
    (customers s) (carts s) (cartItems s) (orders s) (orderItems s)
    (userId s) (storeId s) (categoryId s) (productId s) (shopOwnerId s)
    (customerId s) (cartId s) (cartItemId s) (orderId s) (orderItemId s).

Definition set_customers (v : JsMap.t Customer.t) : MemStorage :=
  mkMemStorage (users s) (stores s) (categories s) (products s)
    (shopOwners s) v (carts s) (cartItems s) (orders s) (orderItems s)
    (userId s) (storeId s) (categoryId s) (productId s) (shopOwnerId s)
    (customerId s) (cartId s) (cartItemId s) (orderId s) (orderItemId s).

Definition set_carts (v : JsMap.t Cart.t) : MemStorage :=
  mkMemStorage (users s) (stores s) (categories s) (products s)
    (shopOwners s) (customers s) v (cartItems s) (orders s) (orderItems s)
    (userId s) (storeId s) (categoryId s) (productId s) (shopOwnerId s)
    (customerId s) (cartId s) (cartItemId s) (orderId s) (orderItemId s).

Definition set_cartItems (v : JsMap.t CartItem.t) : MemStorage :=
  mkMemStorage (users s) (stores s) (categories s) (products s)
    (shopOwners s) (customers s) (carts s) v (orders s) (orderItems s)
    (userId s) (storeId s) (categoryId s) (productId s) (shopOwnerId s)
    (customerId s) (cartId s) (cartItemId s) (orderId s) (orderItemId s).

Definition set_orders (v : JsMap.t Order.t) : MemStorage :=
  mkMemStorage (users s) (stores s) (categories s) (products s)
    (shopOwners s) (customers s) (carts s) (cartItems s) v (orderItems s)
    (userId s) (storeId s) (categoryId s) (productId s) (shopOwnerId s)
    (customerId s) (cartId s) (cartItemId s) (orderId s) (orderItemId s).

Definition set_orderItems (v : JsMap.t OrderItem.t) : MemStorage :=
  mkMemStorage (users s) (stores s) (categories s) (products s)
    (shopOwners s) (customers s) (carts s) (cartItems s) (orders s) v
    (userId s) (storeId s) (categoryId s) (productId s) (shopOwnerId s)
    (customerId s) (cartId s) (cartItemId s) (orderId s) (orderItemId s).

Definition set_userId (v : Z) : MemStorage :=
  mkMemStorage (users s) (stores s) (categories s) (products s)
    (shopOwners s) (customers s) (carts s) (cartItems s) (orders s)
    (orderItems s) v (storeId s) (categoryId s) (productId s)
    (shopOwnerId s) (customerId s) (cartId s) (cartItemId s) (orderId s)
    (orderItemId s).

Definition set_storeId (v : Z) : MemStorage :=
  mkMemStorage (users s) (stores s) (categories s) (products s)
    (shopOwners s) (customers s) (carts s) (cartItems s) (orders s)
    (orderItems s) (userId s) v (categoryId s) (productId s)
    (shopOwnerId s) (customerId s) (cartId s) (cartItemId s) (orderId s)
    (orderItemId s).

Definition set_categoryId (v : Z) : MemStorage :=
  mkMemStorage (users s) (stores s) (categories s) (products s)
    (shopOwners s) (customers s) (carts s) (cartItems s) (orders s)
    (orderItems s) (userId s) (storeId s) v (productId s) (shopOwnerId s)
    (customerId s) (cartId s) (cartItemId s) (orderId s) (orderItemId s).

Definition set_productId (v : Z) : MemStorage :=
  mkMemStorage (users s) (stores s) (categories s) (products s)
    (shopOwners s) (customers s) (carts s) (cartItems s) (orders s)
    (orderItems s) (userId s) (storeId s) (categoryId s) v (shopOwnerId s)
    (customerId s) (cartId s) (cartItemId s) (orderId s) (orderItemId s).

Definition set_shopOwnerId (v : Z) : MemStorage :=
  mkMemStorage (users s) (stores s) (categories s) (products s)
    (shopOwners s) (customers s) (carts s) (cartItems s) (orders s)
    (orderItems s) (userId s) (storeId s) (categoryId s) (productId s) v
    (customerId s) (cartId s) (cartItemId s) (orderId s) (orderItemId s).

Definition set_customerId (v : Z) : MemStorage :=
  mkMemStorage (users s) (stores s) (categories s) (products s)
    (shopOwners s) (customers s) (carts s) (cartItems s) (orders s)
    (orderItems s) (userId s) (storeId s) (categoryId s) (productId s)
    (shopOwnerId s) v (cartId s) (cartItemId s) (orderId s)
    (orderItemId s).

Definition set_cartId (v : Z) : MemStorage :=
  mkMemStorage (users s) (stores s) (categories s) (products s)
    (shopOwners s) (customers s) (carts s) (cartItems s) (orders s)
    (orderItems s) (userId s) (storeId s) (categoryId s) (productId s)
    (shopOwnerId s) (customerId s) v (cartItemId s) (orderId s)
    (orderItemId s).

Definition set_cartItemId (v : Z) : MemStorage :=
  mkMemStorage (users s) (stores s) (categories s) (products s)
    (shopOwners s) (customers s) (carts s) (cartItems s) (orders s)
    (orderItems s) (userId s) (storeId s) (categoryId s) (productId s)
    (shopOwnerId s) (customerId s) (cartId s) v (orderId s)
    (orderItemId s).

Definition set_orderId (v : Z) : MemStorage :=
  mkMemStorage (users s) (stores s) (categories s) (products s)
    (shopOwners s) (customers s) (carts s) (cartItems s) (orders s)
    (orderItems s) (userId s) (storeId s) (categoryId s) (productId s)
    (shopOwnerId s) (customerId s) (cartId s) (cartItemId s) v
    (orderItemId s).

Definition set_orderItemId (v : Z) : MemStorage :=
  mkMemStorage (users s) (stores s) (categories s) (products s)
    (shopOwners s) (customers s) (carts s) (cartItems s) (orders s)
    (orderItems s) (userId s) (storeId s) (categoryId s) (productId s)
    (shopOwnerId s) (customerId s) (cartId s) (cartItemId s) (orderId s) v.

End Assign.

(** ** Operations

    A method that changes the store returns its result together with the
    store it leaves. *)

(** *** Users *)

Definition getUser (id : Z) (s : MemStorage) : option User.t :=
  JsMap.get id (users s).

Definition getUserByUsername (username : string) (s : MemStorage)
  : option User.t :=
  JsMap.find (fun user => String.eqb (User.username user) username) (users s).

Definition createUser (user : InsertUser.t) (now : Date) (s : MemStorage)
  : User.t * MemStorage :=
  let id := userId s in
  let s := set_userId s (id + 1) in
  let newUser :=
    User.mk id (InsertUser.username user) (InsertUser.password user)
      (InsertUser.email user) (InsertUser.name user) (InsertUser.role user)
      now in
  (newUser, set_users s (JsMap.set id newUser (users s))).

Definition updateUser (id : Z) (user : PartialUser.t) (s : MemStorage)
  : option User.t * MemStorage :=
  match JsMap.get id (users s) with
  | None => (None, s)
  | Some existingUser =>
      let updatedUser :=
        User.mk
          (spread (User.id existingUser) (PartialUser.id user))
          (spread (User.username existingUser) (PartialUser.username user))
          (spread (User.password existingUser) (PartialUser.password user))
          (spread (User.email existingUser) (PartialUser.email user))
          (spread (User.name existingUser) (PartialUser.name user))
          (spread (User.role existingUser) (PartialUser.role user))
          (spread (User.createdAt existingUser) (PartialUser.createdAt user))
      in
      (Some updatedUser, set_users s (JsMap.set id updatedUser (users s)))
  end.

(** *** Stores *)

Definition getStore (id : Z) (s : MemStorage) : option Store.t :=
  JsMap.get id (stores s).

(** [createStore] reads the clock twice, for [createdAt] and for
    [updatedAt]. *)
Definition createStore (store : InsertStore.t) (now1 now2 : Date)
    (s : MemStorage) : Store.t * MemStorage :=
  let id := storeId s in
  let s := set_storeId s (id + 1) in
  let newStore :=
    Store.mk id (InsertStore.name store)
      (or_null_string (InsertStore.slug store))
      (InsertStore.logoUrl store) (InsertStore.whatsappNumber store)
      (InsertStore.instagramUrl store) (InsertStore.facebookUrl store)
      (InsertStore.showSocialMedia store)
      true
      now1 now2
      (or_null_number (InsertStore.templateId store)) in
  (newStore, set_stores s (JsMap.set id newStore (stores s))).

(** The keys that [updateStore] copies into [normalizedStore]; every other
    key of the argument is dropped. *)
Definition normalizeStore (store : PartialStore.t) : PartialStore.t :=
  PartialStore.mk None (PartialStore.name store) (PartialStore.slug store)
    (PartialStore.logoUrl store) (PartialStore.whatsappNumber store)
    (PartialStore.instagramUrl store) (PartialStore.facebookUrl store)
    (PartialStore.showSocialMedia store) (PartialStore.active store)
    None None (PartialStore.templateId store).

Definition updateStore (id : Z) (store : PartialStore.t) (now : Date)
    (s : MemStorage) : option Store.t * MemStorage :=
  match JsMap.get id (stores s) with
  | None => (None, s)
  | Some existingStore =>
      let normalizedStore := normalizeStore store in
      let updatedStore :=
        Store.mk
          (spread (Store.id existingStore) (PartialStore.id normalizedStore))
          (spread (Store.name existingStore)
             (PartialStore.name normalizedStore))
          (spread (Store.slug existingStore)
             (PartialStore.slug normalizedStore))
          (spread (Store.logoUrl existingStore)
             (PartialStore.logoUrl normalizedStore))
          (spread (Store.whatsappNumber existingStore)
             (PartialStore.whatsappNumber normalizedStore))
          (spread (Store.instagramUrl existingStore)
             (PartialStore.instagramUrl normalizedStore))
          (spread (Store.facebookUrl existingStore)
             (PartialStore.facebookUrl normalizedStore))
          (spread (Store.showSocialMedia existingStore)
             (PartialStore.showSocialMedia normalizedStore))
          (spread (Store.active existingStore)
             (PartialStore.active normalizedStore))
          (spread (Store.createdAt existingStore)
             (PartialStore.createdAt normalizedStore))
          now
          (spread (Store.templateId existingStore)
             (PartialStore.templateId normalizedStore)) in
      (Some updatedStore, set_stores s (JsMap.set id updatedStore (stores s)))
  end.

Definition deleteStore (id : Z) (s : MemStorage) : bool * MemStorage :=
  let (present, m) := JsMap.delete id (stores s) in
  (present, set_stores s m).

(** *** Categories *)

Definition getCategories (storeId : Z) (s : MemStorage) : list Category.t :=
  filter (fun category => Category.storeId category =? storeId)
    (JsMap.values (categories s)).

Definition getCategory (id : Z) (s : MemStorage) : option Category.t :=
  JsMap.get id (categories s).

Definition createCategory (category : InsertCategory.t) (now : Date)
    (s : MemStorage) : Category.t * MemStorage :=
  let id := categoryId s in
  let s := set_categoryId s (id + 1) in
  let newCategory :=
    Category.mk id (InsertCategory.name category)
      (InsertCategory.storeId category) now in
  (newCategory, set_categories s (JsMap.set id newCategory (categories s))).

Definition updateCategory (id : Z) (category : PartialCategory.t)
    (s : MemStorage) : option Category.t * MemStorage :=
  match JsMap.get id (categories s) with
  | None => (None, s)
  | Some existingCategory =>
      let updatedCategory :=
        Category.mk
          (spread (Category.id existingCategory)
             (PartialCategory.id category))
          (spread (Category.name existingCategory)
             (PartialCategory.name category))
          (spread (Category.storeId existingCategory)
             (PartialCategory.storeId category))
          (spread (Category.createdAt existingCategory)
             (PartialCategory.createdAt category)) in
      (Some updatedCategory,
       set_categories s (JsMap.set id updatedCategory (categories s)))
  end.

Definition deleteCategory (id : Z) (s : MemStorage) : bool * MemStorage :=
  let (present, m) := JsMap.delete id (categories s) in
  (present, set_categories s m).

(** *** Products *)

(** [if (storeId)]: an omitted argument, [0] and [NaN] are falsy; of the
    integers only [0] is. *)
Definition truthy_number (x : option Z) : bool :=
  match x with
  | Some n => negb (n =? 0)
  | None => false
  end.

Definition getProducts (storeId : option Z) (s : MemStorage)
  : list Product.t :=
  let allProducts := JsMap.values (products s) in
  if truthy_number storeId then
    filter
      (fun product =>
         match storeId with
         | Some x => Product.storeId product =? x
         | None => false
         end)
      allProducts
  else allProducts.

Definition getProduct (id : Z) (s : MemStorage) : option Product.t :=
  JsMap.get id (products s).

Definition createProduct (product : InsertProduct.t) (now : Date)
    (s : MemStorage) : Product.t * MemStorage :=
  let id := productId s in
  let s := set_productId s (id + 1) in
  let newProduct :=
    Product.mk id (InsertProduct.name product) (InsertProduct.price product)
      (or_null_string (InsertProduct.description product))
      (or_null_string (InsertProduct.imageUrl product))
      (InsertProduct.storeId product) (InsertProduct.categoryId product)
      true
      now now in
  (newProduct, set_products s (JsMap.set id newProduct (products s))).

(** The keys that [updateProduct] copies into [normalizedProduct]; every
    other key of the argument is dropped. *)
Definition normalizeProduct (product : PartialProduct.t) : PartialProduct.t :=
  PartialProduct.mk None (PartialProduct.name product)
    (PartialProduct.price product) (PartialProduct.description product)
    (PartialProduct.imageUrl product) None
    (PartialProduct.categoryId product) (PartialProduct.active product)
    None None.

Definition updateProduct (id : Z) (product : PartialProduct.t) (now : Date)
    (s : MemStorage) : option Product.t * MemStorage :=
  match JsMap.get id (products s) with
  | None => (None, s)
  | Some existingProduct =>
      let normalizedProduct := normalizeProduct product in
      let updatedProduct :=
        Product.mk
          (spread (Product.id existingProduct)
             (PartialProduct.id normalizedProduct))
          (spread (Product.name existingProduct)
             (PartialProduct.name normalizedProduct))
          (spread (Product.price existingProduct)
             (PartialProduct.price normalizedProduct))
          (spread (Product.description existingProduct)
             (PartialProduct.description normalizedProduct))
          (spread (Product.imageUrl existingProduct)
             (PartialProduct.imageUrl normalizedProduct))
          (spread (Product.storeId existingProduct)
             (PartialProduct.storeId normalizedProduct))
          (spread (Product.categoryId existingProduct)
             (PartialProduct.categoryId normalizedProduct))
          (spread (Product.active existingProduct)
             (PartialProduct.active normalizedProduct))
          (spread (Product.createdAt existingProduct)
             (PartialProduct.createdAt normalizedProduct))
          now in
      (Some updatedProduct,
       set_products s (JsMap.set id updatedProduct (products s)))
  end.

Definition deleteProduct (id : Z) (s : MemStorage) : bool * MemStorage :=
  let (present, m) := JsMap.delete id (products s) in
  (present, set_products s m).

(** *** Shop owners *)

Definition getShopOwner (id : Z) (s : MemStorage) : option ShopOwner.t :=
  option_map Obj.val (JsMap.get id (shopOwners s)).

(** The object that [getShopOwnerByUserId] returns, with its identity. *)
Definition findShopOwnerByUserId (userId : Z) (s : MemStorage)
  : option (Obj.t ShopOwner.t) :=
  JsMap.find (fun owner => ShopOwner.userId (Obj.val owner) =? userId)
    (shopOwners s).

Definition getShopOwnerByUserId (userId : Z) (s : MemStorage)
  : option ShopOwner.t :=
  option_map Obj.val (findShopOwnerByUserId userId s).

Definition createShopOwner (shopOwner : InsertShopOwner.t) (s : MemStorage)
  : ShopOwner.t * MemStorage :=
  let id := shopOwnerId s in
  let s := set_shopOwnerId s (id + 1) in
  let newShopOwner :=
    ShopOwner.mk id (InsertShopOwner.userId shopOwner)
      (InsertShopOwner.storeId shopOwner)
      (InsertShopOwner.subscriptionStatus shopOwner)
      (InsertShopOwner.subscriptionExpiresAt shopOwner)
      None None None in
  (newShopOwner,
   set_shopOwners s
     (JsMap.set id (Obj.mk (Obj.fresh (shopOwners s)) newShopOwner)
        (shopOwners s))).

Definition updateShopOwnerSubscription (id : Z) (data : PartialShopOwner.t)
    (s : MemStorage) : option ShopOwner.t * MemStorage :=
  match JsMap.get id (shopOwners s) with
  | None => (None, s)
  | Some stored =>
      let existingShopOwner := Obj.val stored in
      let updatedShopOwner :=
        ShopOwner.mk
          (spread (ShopOwner.id existingShopOwner) (PartialShopOwner.id data))
          (spread (ShopOwner.userId existingShopOwner)
             (PartialShopOwner.userId data))
          (spread (ShopOwner.storeId existingShopOwner)
             (PartialShopOwner.storeId data))
          (spread (ShopOwner.subscriptionStatus existingShopOwner)
             (PartialShopOwner.subscriptionStatus data))
          (spread (ShopOwner.subscriptionExpiresAt existingShopOwner)
             (PartialShopOwner.subscriptionExpiresAt data))
          (spread (ShopOwner.stripeCustomerId existingShopOwner)
             (PartialShopOwner.stripeCustomerId data))
          (spread (ShopOwner.stripePriceId existingShopOwner)
             (PartialShopOwner.stripePriceId data))
          (spread (ShopOwner.stripeSubscriptionId existingShopOwner)
             (PartialShopOwner.stripeSubscriptionId data)) in
      (Some updatedShopOwner,
       set_shopOwners s
         (JsMap.set id (Obj.mk (Obj.fresh (shopOwners s)) updatedShopOwner)
            (shopOwners s)))
  end.

(** *** Customers *)

Definition getCustomer (id : Z) (s : MemStorage) : option Customer.t :=
  JsMap.get id (customers s).

Definition createCustomer (customer : InsertCustomer.t) (s : MemStorage)
  : Customer.t * MemStorage :=
  let id := customerId s in
  let s := set_customerId s (id + 1) in
  let newCustomer :=
    Customer.mk id (InsertCustomer.userId customer)
      (or_null_string (InsertCustomer.address customer))
      (or_null_string (InsertCustomer.phone customer)) in
  (newCustomer, set_customers s (JsMap.set id newCustomer (customers s))).

Definition updateCustomer (id : Z) (customer : PartialCustomer.t)
    (s : MemStorage) : option Customer.t * MemStorage :=
  match JsMap.get id (customers s) with
  | None => (None, s)
  | Some existingCustomer =>
      let updatedCustomer :=
        Customer.mk
          (spread (Customer.id existingCustomer) (PartialCustomer.id customer))
          (spread (Customer.userId existingCustomer)
             (PartialCustomer.userId customer))
          (spread (Customer.address existingCustomer)
             (PartialCustomer.address customer))
          (spread (Customer.phone existingCustomer)
             (PartialCustomer.phone customer)) in
      (Some updatedCustomer,
       set_customers s (JsMap.set id updatedCustomer (customers s)))
  end.

(** *** Carts *)

Definition getCart (id : Z) (s : MemStorage) : option Cart.t :=
  JsMap.get id (carts s).

Definition createCart (cart : InsertCart.t) (now : Date) (s : MemStorage)
  : Cart.t * MemStorage :=
  let id := cartId s in
  let s := set_cartId s (id + 1) in
  let newCart :=
    Cart.mk id (InsertCart.customerId cart) (InsertCart.storeId cart)
      now now in
  (newCart, set_carts s (JsMap.set id newCart (carts s))).

(** [forEach(item => this.cartItems.delete(item.id))] over the items
    selected beforehand. *)
Definition deleteItems (items : list CartItem.t) (m : JsMap.t CartItem.t)
  : JsMap.t CartItem.t :=
  fold_left (fun m item => snd (JsMap.delete (CartItem.id item) m)) items m.

Definition deleteCart (id : Z) (s : MemStorage) : bool * MemStorage :=
  let doomed :=
    filter (fun item => CartItem.cartId item =? id)
      (JsMap.values (cartItems s)) in
  let s := set_cartItems s (deleteItems doomed (cartItems s)) in
  let (present, m) := JsMap.delete id (carts s) in
  (present, set_carts s m).

(** *** Cart items *)

Definition getCartItems (cartId : Z) (s : MemStorage) : list CartItem.t :=
  filter (fun item => CartItem.cartId item =? cartId)
    (JsMap.values (cartItems s)).

Definition getCartItem (id : Z) (s : MemStorage) : option CartItem.t :=
  JsMap.get id (cartItems s).

Definition touch (now : Date) (cart : Cart.t) : Cart.t :=
  Cart.mk (Cart.id cart) (Cart.customerId cart) (Cart.storeId cart)
    (Cart.createdAt cart) now.

(** The block shared by the three cart-item writers:
    [const cart = this.carts.get(cartId);
     if (cart) { cart.updatedAt = new Date(); this.carts.set(cart.id, cart); }]
    The assignment changes the object held under [cartId]; the [set] then
    files the same object under its [id]. *)
Definition touchCart (cartId : Z) (now : Date) (s : MemStorage)
  : MemStorage :=
  match JsMap.get cartId (carts s) with
  | None => s
  | Some cart =>
      let cart := touch now cart in
      set_carts s
        (JsMap.set (Cart.id cart) cart
           (JsMap.mutate cartId (touch now) (carts s)))
  end.

Definition createCartItem (cartItem : InsertCartItem.t) (now : Date)
    (s : MemStorage) : CartItem.t * MemStorage :=
  let id := cartItemId s in
  let s := set_cartItemId s (id + 1) in
  let newCartItem :=
    CartItem.mk id (InsertCartItem.cartId cartItem)
      (InsertCartItem.productId cartItem) (InsertCartItem.quantity cartItem)
  in
  let s := set_cartItems s (JsMap.set id newCartItem (cartItems s)) in
  (newCartItem, touchCart (InsertCartItem.cartId cartItem) now s).

Definition updateCartItem (id : Z) (quantity : Z) (now : Date)
    (s : MemStorage) : option CartItem.t * MemStorage :=
  match JsMap.get id (cartItems s) with
  | None => (None, s)
  | Some existingCartItem =>
      let updatedCartItem :=
        CartItem.mk (CartItem.id existingCartItem)
          (CartItem.cartId existingCartItem)
          (CartItem.productId existingCartItem) quantity in
      let s := set_cartItems s (JsMap.set id updatedCartItem (cartItems s)) in
      (Some updatedCartItem,
       touchCart (CartItem.cartId existingCartItem) now s)
  end.

Definition deleteCartItem (id : Z) (now : Date) (s : MemStorage)
  : bool * MemStorage :=
  match JsMap.get id (cartItems s) with
  | None => (false, s)
  | Some cartItem =>
      let s := touchCart (CartItem.cartId cartItem) now s in
      let (present, m) := JsMap.delete id (cartItems s) in
      (present, set_cartItems s m)
  end.

(** *** Orders *)

Definition getOrder (id : Z) (s : MemStorage) : option Order.t :=
  JsMap.get id (orders s).

Definition createOrder (order : InsertOrder.t) (now : Date) (s : MemStorage)
  : Order.t * MemStorage :=
  let id := orderId s in
  let s := set_orderId s (id + 1) in
  let newOrder :=
    Order.mk id (InsertOrder.storeId order) (InsertOrder.customerId order)
      (InsertOrder.customerName order)
      (or_null_string (InsertOrder.customerPhone order))
      (or_null_string (InsertOrder.customerAddress order))
      (InsertOrder.deliveryMethod order)
      (or_null_string (InsertOrder.notes order))
      (InsertOrder.total order)
      false
      now in
  (newOrder, set_orders s (JsMap.set id newOrder (orders s))).

Definition updateOrderWhatsappStatus (id : Z) (sent : bool) (s : MemStorage)
  : option Order.t * MemStorage :=
  match JsMap.get id (orders s) with
  | None => (None, s)
  | Some existingOrder =>
      let updatedOrder :=
        Order.mk (Order.id existingOrder) (Order.storeId existingOrder)
          (Order.customerId existingOrder) (Order.customerName existingOrder)
          (Order.customerPhone existingOrder)
          (Order.customerAddress existingOrder)
          (Order.deliveryMethod existingOrder) (Order.notes existingOrder)
          (Order.total existingOrder) sent (Order.createdAt existingOrder) in
      (Some updatedOrder, set_orders s (JsMap.set id updatedOrder (orders s)))
  end.

(** *** Order items *)

Definition getOrderItems (orderId : Z) (s : MemStorage) : list OrderItem.t :=
  filter (fun item => OrderItem.orderId item =? orderId)
    (JsMap.values (orderItems s)).

Definition createOrderItem (orderItem : InsertOrderItem.t) (s : MemStorage)
  : OrderItem.t * MemStorage :=
  let id := orderItemId s in
  let s := set_orderItemId s (id + 1) in
  let newOrderItem :=
    OrderItem.mk id (InsertOrderItem.orderId orderItem)
      (InsertOrderItem.productName orderItem)
      (InsertOrderItem.price orderItem) (InsertOrderItem.quantity orderItem)
  in
  (newOrderItem, set_orderItems s (JsMap.set id newOrderItem (orderItems s))).

(** *** Billing linkage

    The two methods of the interface that may reject: their result is an
    outcome, [Return] for a resolved promise and [Throw] for [throw new
    Error(message)]. *)

Inductive outcome (A : Type) : Type :=
| Return (result : A) (s : MemStorage)
| Throw (message : string).

Arguments Return {A} result s.
Arguments Throw {A} message.

(** [shopOwner.stripeCustomerId = stripeCustomerId] *)
Definition linkCustomer (stripeCustomerId : string) (o : ShopOwner.t)
  : ShopOwner.t :=
  ShopOwner.mk (ShopOwner.id o) (ShopOwner.userId o) (ShopOwner.storeId o)
    (ShopOwner.subscriptionStatus o) (ShopOwner.subscriptionExpiresAt o)
    (Some stripeCustomerId) (ShopOwner.stripePriceId o)
    (ShopOwner.stripeSubscriptionId o).

Definition updateStripeCustomerId (userId : Z) (stripeCustomerId : string)
    (s : MemStorage) : outcome User.t :=
  match getUser userId s with
  | None => Throw "Usuário não encontrado"
  | Some user =>
      match findShopOwnerByUserId userId s with
      | None => Return user s
      | Some found =>
          let shopOwner := linkCustomer stripeCustomerId (Obj.val found) in
          Return user
            (set_shopOwners s
               (JsMap.set (ShopOwner.id shopOwner)
                  (Obj.mk (Obj.ref found) shopOwner)
                  (Obj.assign (Obj.ref found)
                     (linkCustomer stripeCustomerId) (shopOwners s))))
      end
  end.

(** The four assignments of [updateUserStripeInfo] to the object found. *)
Definition linkSubscription (info : StripeInfo.t) (now : Date)
    (o : ShopOwner.t) : ShopOwner.t :=
  ShopOwner.mk (ShopOwner.id o) (ShopOwner.userId o) (ShopOwner.storeId o)
    SubscriptionStatus.active
    (Some (now + THIRTY_DAYS_MS))
    (Some (StripeInfo.customerId info)) (ShopOwner.stripePriceId o)
    (Some (StripeInfo.subscriptionId info)).

Definition updateUserStripeInfo (userId : Z) (info : StripeInfo.t)
    (now : Date) (s : MemStorage) : outcome (option ShopOwner.t) :=
  match findShopOwnerByUserId userId s with
  | None => Return None s
  | Some found =>
      let shopOwner := linkSubscription info now (Obj.val found) in
      Return (Some shopOwner)
        (set_shopOwners s
           (JsMap.set (ShopOwner.id shopOwner)
              (Obj.mk (Obj.ref found) shopOwner)
              (Obj.assign (Obj.ref found) (linkSubscription info now)
                 (shopOwners s))))
  end.

(** ** The constructor *)

(** The store after "Initialize maps" and "Initialize IDs": ten empty
    collections, every counter at 1. *)
Definition initial : MemStorage :=
  mkMemStorage JsMap.empty JsMap.empty JsMap.empty JsMap.empty JsMap.empty
    JsMap.empty JsMap.empty JsMap.empty JsMap.empty JsMap.empty
    1 1 1 1 1 1 1 1 1 1.

(** [{ id: this.productId++, ..., storeId, categoryId, active: true,
       createdAt: new Date(), updatedAt: new Date() }] of [sampleProducts] *)
Definition sampleProduct (name : string) (price : float)
    (description imageUrl : string) (storeId categoryId : Z)
    (created updated : Date) (s : MemStorage) : Product.t * MemStorage :=
  let id := productId s in
  let s := set_productId s (id + 1) in
  (Product.mk id name price (Some description) (Some imageUrl) storeId
     (Some categoryId) true created updated, s).

(** [{ id: this.categoryId++, name, storeId, createdAt: new Date() }]
    followed by [this.categories.set(category.id, category)] *)
Definition seedCategory (name : string) (storeId : Z) (now : Date)
    (s : MemStorage) : Category.t * MemStorage :=
  let id := categoryId s in
  let s := set_categoryId s (id + 1) in
  let category := Category.mk id name storeId now in
  (category,
   set_categories s (JsMap.set (Category.id category) category (categories s))).

(** [{ id: this.userId++, ..., createdAt: new Date() }] followed by
    [this.users.set(user.id, user)] *)
Definition seedUser (username password email name role : string)
    (now : Date) (s : MemStorage) : User.t * MemStorage :=
  let id := userId s in
  let s := set_userId s (id + 1) in
  let user := User.mk id username password email name role now in
  (user, set_users s (JsMap.set (User.id user) user (users s))).

(** [new MemStorage()]; [clk n] is the value of the [n]-th clock reading
    of the constructor, in program order. *)
Definition constructor (clk : nat -> Date) : MemStorage :=
  let s := initial in
  let (adminUser, s) :=
    seedUser "admin"
      "$2b$10$Fh6MUHRGJDQgFRREWjGwH.zoD5mTJo/LP91zhcGWHYpO7sHBUj6T."
      "admin@moments.com" "Administrador" "admin" (clk 0%nat) s in
  let defaultStore :=
    Store.mk (storeId s) "Loja Moments Paris" (Some "moments")
      (Some "/placeholder-logo.jpg") "11987654321" None None false true
      (clk 1%nat) (clk 2%nat) None in
  let s := set_storeId s (storeId s + 1) in
  let s :=
    set_stores s (JsMap.set (Store.id defaultStore) defaultStore (stores s)) in
  let (shopOwnerUser, s) :=
    seedUser "lojista"
      "$2b$10$2zZREfX0Ssa81Y4PYIxlaeYMQKvagrdLWVlVQ0tXaQ7u1nU2vhSne"
      "lojista@moments.com" "Lojista Demo" "shopowner" (clk 3%nat) s in
  let shopOwner :=
    ShopOwner.mk (shopOwnerId s) (User.id shopOwnerUser)
      (Some (Store.id defaultStore)) SubscriptionStatus.trial
      (Some (clk 4%nat + THIRTY_DAYS_MS)) None None None in
  let s := set_shopOwnerId s (shopOwnerId s + 1) in
  let s :=
    set_shopOwners s
      (JsMap.set (ShopOwner.id shopOwner)
         (Obj.mk (Obj.fresh (shopOwners s)) shopOwner) (shopOwners s)) in
  let (skinCareCategory, s) :=
    seedCategory "Cuidados com a Pele" (Store.id defaultStore) (clk 5%nat) s in
  let (hairCareCategory, s) :=
    seedCategory "Cuidados com o Cabelo" (Store.id defaultStore) (clk 6%nat) s
  in
  let (perfumeCategory, s) :=
    seedCategory "Perfumes" (Store.id defaultStore) (clk 7%nat) s in
  let (bodyCareCategory, s) :=
    seedCategory "Cuidados Corporais" (Store.id defaultStore) (clk 8%nat) s in
  let (p1, s) :=
    sampleProduct "Creme Hidratante Facial" 89.9
      "Hidratação profunda para todos os tipos de pele. Fórmula não oleosa com vitamina E."
      "/placeholder-product-1.jpg" (Store.id defaultStore)
      (Category.id skinCareCategory) (clk 9%nat) (clk 10%nat) s in
  let (p2, s) :=
    sampleProduct "Sérum Facial Antioxidante" 129.9
      "Com vitamina C que combate os radicais livres e sinais de envelhecimento."
      "/placeholder-product-2.jpg" (Store.id defaultStore)
      (Category.id skinCareCategory) (clk 11%nat) (clk 12%nat) s in
  let (p3, s) :=
    sampleProduct "Máscara Capilar Reparadora" 75.9
      "Tratamento intensivo para cabelos danificados. Recupera a maciez e o brilho natural."
      "/placeholder-product-3.jpg" (Store.id defaultStore)
      (Category.id hairCareCategory) (clk 13%nat) (clk 14%nat) s in
  let (p4, s) :=
    sampleProduct "Protetor Solar FPS 50" 69.9
      "Proteção UVA/UVB de amplo espectro. Textura leve, não oleosa e resistente à água."
      "/placeholder-product-4.jpg" (Store.id defaultStore)
      (Category.id skinCareCategory) (clk 15%nat) (clk 16%nat) s in
  let (p5, s) :=
    sampleProduct "Perfume Floral" 159.9
      "Fragrância sofisticada com notas de jasmim, rosa e baunilha. Longa duração."
      "/placeholder-product-5.jpg" (Store.id defaultStore)
      (Category.id perfumeCategory) (clk 17%nat) (clk 18%nat) s in
  let (p6, s) :=
    sampleProduct "Óleo Corporal Relaxante" 85.9
      "Hidratação profunda com aroma terapêutico de lavanda e camomila. Ideal para massagens."
      "/placeholder-product-6.jpg" (Store.id defaultStore)
      (Category.id bodyCareCategory) (clk 19%nat) (clk 20%nat) s in
  let sampleProducts := [p1; p2; p3; p4; p5; p6] in
  let s :=
    fold_left
      (fun s product =>
         set_products s (JsMap.set (Product.id product) product (products s)))
      sampleProducts s in
  let (customerUser, s) :=
    seedUser "cliente"
      "$2b$10$2TYxJv7TIhCGNz5LkO18Y.8BpYU1AHVlBNrfLODmyH3RnoIQqcyEi"
      "cliente@email.com" "Cliente Demo" "customer" (clk 21%nat) s in
  let customer :=
    Customer.mk (customerId s) (User.id customerUser)
      (Some "Rua das Flores, 123, São Paulo - SP") (Some "11998765432") in
  let s := set_customerId s (customerId s + 1) in
  set_customers s (JsMap.set (Customer.id customer) customer (customers s)).


(** ** Histories of calls

    The store is reached only through its methods.  A [call] is one
    invocation of a method that may change the store, with its arguments
    and the clock readings it consumes; the getters change nothing and are
    not listed. *)

Inductive kind :=
| KUser | KStore | KCategory | KProduct | KShopOwner
| KCustomer | KCart | KCartItem | KOrder | KOrderItem.

Definition kind_eqb (a b : kind) : bool :=
  match a, b with
  | KUser, KUser | KStore, KStore | KCategory, KCategory
  | KProduct, KProduct | KShopOwner, KShopOwner | KCustomer, KCustomer
  | KCart, KCart | KCartItem, KCartItem | KOrder, KOrder
  | KOrderItem, KOrderItem => true
  | _, _ => false
  end.

(** The id counter of an entity kind. *)
Definition counter (k : kind) (s : MemStorage) : Z :=
  match k with
  | KUser => userId s
  | KStore => storeId s
  | KCategory => categoryId s
  | KProduct => productId s
  | KShopOwner => shopOwnerId s
  | KCustomer => customerId s
  | KCart => cartId s
  | KCartItem => cartItemId s
  | KOrder => orderId s
  | KOrderItem => orderItemId s
  end.

(** The keys of the collection of an entity kind, in iteration order. *)
Definition keysOf (k : kind) (s : MemStorage) : list Z :=
  match k with
  | KUser => JsMap.keys (users s)
  | KStore => JsMap.keys (stores s)
  | KCategory => JsMap.keys (categories s)
  | KProduct => JsMap.keys (products s)
  | KShopOwner => JsMap.keys (shopOwners s)
  | KCustomer => JsMap.keys (customers s)
  | KCart => JsMap.keys (carts s)
  | KCartItem => JsMap.keys (cartItems s)
  | KOrder => JsMap.keys (orders s)
  | KOrderItem => JsMap.keys (orderItems s)
  end.

Inductive call :=
| CreateUser (user : InsertUser.t) (now : Date)
| UpdateUser (id : Z) (user : PartialUser.t)
| CreateStore (store : InsertStore.t) (now1 now2 : Date)
| UpdateStore (id : Z) (store : PartialStore.t) (now : Date)
| DeleteStore (id : Z)
| CreateCategory (category : InsertCategory.t) (now : Date)
| UpdateCategory (id : Z) (category : PartialCategory.t)
| DeleteCategory (id : Z)
| CreateProduct (product : InsertProduct.t) (now : Date)
| UpdateProduct (id : Z) (product : PartialProduct.t) (now : Date)
| DeleteProduct (id : Z)
| CreateShopOwner (shopOwner : InsertShopOwner.t)
| UpdateShopOwnerSubscription (id : Z) (data : PartialShopOwner.t)
| CreateCustomer (customer : InsertCustomer.t)
| UpdateCustomer (id : Z) (customer : PartialCustomer.t)
| CreateCart (cart : InsertCart.t) (now : Date)
| DeleteCart (id : Z)
| CreateCartItem (cartItem : InsertCartItem.t) (now : Date)
| UpdateCartItem (id : Z) (quantity : Z) (now : Date)
| DeleteCartItem (id : Z) (now : Date)
| CreateOrder (order : InsertOrder.t) (now : Date)
| UpdateOrderWhatsappStatus (id : Z) (sent : bool)
| CreateOrderItem (orderItem : InsertOrderItem.t)
| UpdateStripeCustomerId (userId : Z) (stripeCustomerId : string)
| UpdateUserStripeInfo (userId : Z) (info : StripeInfo.t) (now : Date).

(** The store an outcome leaves; a rejected call leaves the one it found. *)
Definition settled {A : Type} (s : MemStorage) (o : outcome A) : MemStorage :=
  match o with
  | Return _ s' => s'
  | Throw _ => s
  end.

(** The store after one call. *)
Definition step (c : call) (s : MemStorage) : MemStorage :=
  match c with
  | CreateUser user now => snd (createUser user now s)
  | UpdateUser id user => snd (updateUser id user s)
  | CreateStore store now1 now2 => snd (createStore store now1 now2 s)
  | UpdateStore id store now => snd (updateStore id store now s)
  | DeleteStore id => snd (deleteStore id s)
  | CreateCategory category now => snd (createCategory category now s)
  | UpdateCategory id category => snd (updateCategory id category s)
  | DeleteCategory id => snd (deleteCategory id s)
  | CreateProduct product now => snd (createProduct product now s)
  | UpdateProduct id product now => snd (updateProduct id product now s)
  | DeleteProduct id => snd (deleteProduct id s)
  | CreateShopOwner shopOwner => snd (createShopOwner shopOwner s)
  | UpdateShopOwnerSubscription id data =>
      snd (updateShopOwnerSubscription id data s)
  | CreateCustomer customer => snd (createCustomer customer s)
  | UpdateCustomer id customer => snd (updateCustomer id customer s)
  | CreateCart cart now => snd (createCart cart now s)
  | DeleteCart id => snd (deleteCart id s)
  | CreateCartItem cartItem now => snd (createCartItem cartItem now s)
  | UpdateCartItem id quantity now => snd (updateCartItem id quantity now s)
  | DeleteCartItem id now => snd (deleteCartItem id now s)
  | CreateOrder order now => snd (createOrder order now s)
  | UpdateOrderWhatsappStatus id sent =>
      snd (updateOrderWhatsappStatus id sent s)
  | CreateOrderItem orderItem => snd (createOrderItem orderItem s)
  | UpdateStripeCustomerId userId stripeCustomerId =>
      settled s (updateStripeCustomerId userId stripeCustomerId s)
  | UpdateUserStripeInfo userId info now =>
      settled s (updateUserStripeInfo userId info now s)
  end.

(** The kind and the id of the entity a call creates and returns. *)
Definition issued (c : call) (s : MemStorage) : option (kind * Z) :=
  match c with
  | CreateUser user now => Some (KUser, User.id (fst (createUser user now s)))
  | CreateStore store now1 now2 =>
      Some (KStore, Store.id (fst (createStore store now1 now2 s)))
  | CreateCategory category now =>
      Some (KCategory, Category.id (fst (createCategory category now s)))
  | CreateProduct product now =>
      Some (KProduct, Product.id (fst (createProduct product now s)))
  | CreateShopOwner shopOwner =>
      Some (KShopOwner, ShopOwner.id (fst (createShopOwner shopOwner s)))
  | CreateCustomer customer =>
      Some (KCustomer, Customer.id (fst (createCustomer customer s)))
  | CreateCart cart now => Some (KCart, Cart.id (fst (createCart cart now s)))
  | CreateCartItem cartItem now =>
      Some (KCartItem, CartItem.id (fst (createCartItem cartItem now s)))
  | CreateOrder order now =>
      Some (KOrder, Order.id (fst (createOrder order now s)))
  | CreateOrderItem orderItem =>
      Some (KOrderItem, OrderItem.id (fst (createOrderItem orderItem s)))
  | _ => None
  end.

(** Whether a call is a create of kind [k]. *)
Definition creates (k : kind) (c : call) : bool :=
  match c with
  | CreateUser _ _ => kind_eqb k KUser
  | CreateStore _ _ _ => kind_eqb k KStore
  | CreateCategory _ _ => kind_eqb k KCategory
  | CreateProduct _ _ => kind_eqb k KProduct
  | CreateShopOwner _ => kind_eqb k KShopOwner
  | CreateCustomer _ => kind_eqb k KCustomer
  | CreateCart _ _ => kind_eqb k KCart
  | CreateCartItem _ _ => kind_eqb k KCartItem
  | CreateOrder _ _ => kind_eqb k KOrder
  | CreateOrderItem _ => kind_eqb k KOrderItem
  | _ => false
  end.

Fixpoint run (calls : list call) (s : MemStorage) : MemStorage :=
  match calls with
  | [] => s
  | c :: rest => run rest (step c s)
  end.

(** The ids of kind [k] handed out along a history, oldest first. *)
Fixpoint ids (k : kind) (calls : list call) (s : MemStorage) : list Z :=
  match calls with
  | [] => []
  | c :: rest =>
      match issued c s with
      | Some (k', id) =>
          if kind_eqb k k' then id :: ids k rest (step c s)
          else ids k rest (step c s)
      | None => ids k rest (step c s)
      end
  end.

(** The stores a process can be in: the freshly constructed one, after any
    history of calls. *)
Definition reachable (s : MemStorage) : Prop :=
  exists clk calls, run calls (constructor clk) = s.

(** ** Invariants of the reachable stores

    Every collection but the shop owners' holds keys below its counter.
    The shop owners' is left out: the billing-linkage methods file a
    ShopOwner under its [id] field, which [updateShopOwnerSubscription]
    can set to any number.  Carts, cart items and products are stored
    under their own [id], and the products by increasing key. *)

Definition below {V : Type} (n : Z) (m : JsMap.t V) : Prop :=
  Forall (fun k => k < n) (JsMap.keys m).

Definition keyed {V : Type} (idOf : V -> Z) (m : JsMap.t V) : Prop :=
  forall k v, In (k, v) m -> idOf v = k.

Record Inv (s : MemStorage) : Prop := mkInv {
  inv_users : below (userId s) (users s);
  inv_stores : below (storeId s) (stores s);
  inv_categories : below (categoryId s) (categories s);
  inv_products : below (productId s) (products s);
  inv_customers : below (customerId s) (customers s);
  inv_carts : below (cartId s) (carts s);
  inv_cartItems : below (cartItemId s) (cartItems s);
  inv_orders : below (orderId s) (orders s);
  inv_orderItems : below (orderItemId s) (orderItems s);
  inv_carts_keyed : keyed Cart.id (carts s);
  inv_cartItems_keyed : keyed CartItem.id (cartItems s);
  inv_products_keyed : keyed Product.id (products s);
  inv_products_sorted : StronglySorted Z.lt (JsMap.keys (products s)) }.

(** A run of [updateProduct] calls, each with its id, its partial and its
    clock reading. *)
Fixpoint updateProducts (edits : list (Z * PartialProduct.t * Date))
    (s : MemStorage) : MemStorage :=
  match edits with
  | [] => s
  | (id, product, now) :: rest =>
      updateProducts rest (snd (updateProduct id product now s))
  end.

(** A key of a partial, when supplied, shows in the entity with the
    supplied value. *)
Definition supplied {A : Type} (key : option A) (field : A) : Prop :=
  match key with
  | Some v => field = v
  | None => True
  end.

(** A key of a partial merged into a record: supplied, the field holds
    the supplied value; omitted, it holds the stored one. *)
Definition merged {A : Type} (key : option A) (stored field : A) : Prop :=
  match key with
  | Some v => field = v
  | None => field = stored
  end.

(** ** Sample inputs *)

(** A clock for the examples: the [n]-th reading of the constructor falls
    [n] milliseconds after a fixed instant. *)
Definition clock0 : nat -> Date := fun n => 1700000000000 + Z.of_nat n.

(** The freshly constructed store under that clock. *)
Definition seeded : MemStorage := constructor clock0.

Definition info0 : StripeInfo.t := StripeInfo.mk "cus_1" "sub_1".

(** The shop owner that the constructor seeds under [clock0]. *)
Definition seededOwner : ShopOwner.t :=
  ShopOwner.mk 1 2 (Some 1) SubscriptionStatus.trial (Some 1702592000004)
    None None None.

(** A partial product that supplies [storeId] and [updatedAt] only. *)
Definition moveToStore99 : PartialProduct.t :=
  PartialProduct.mk None None None None None (Some 99) None None None
    (Some 5).

(** The first product and the store that the constructor seeds under
    [clock0]. *)
Definition seededProduct1 : Product.t :=
  Product.mk 1 "Creme Hidratante Facial" 89.9
    (Some "Hidratação profunda para todos os tipos de pele. Fórmula não oleosa com vitamina E.")
    (Some "/placeholder-product-1.jpg") 1 (Some 1) true
    1700000000009 1700000000010.

Definition seededStore : Store.t :=
  Store.mk 1 "Loja Moments Paris" (Some "moments")
    (Some "/placeholder-logo.jpg") "11987654321" None None false true
    1700000000001 1700000000002 None.

(** [{ price: v }] *)
Definition priceOnly (v : float) : PartialProduct.t :=
  PartialProduct.mk None None (Some v) None None None None None None None.

(** [{ description: null }] *)
Definition clearDescription : PartialProduct.t :=
  PartialProduct.mk None None None (Some None) None None None None None None.

(** [{ name: "Loja Nova", instagramUrl: null }] *)
Definition renameStore : PartialStore.t :=
  PartialStore.mk None (Some "Loja Nova") None None None (Some None) None
    None None None None None.

(** A product submitted with [active: false]. *)
Definition hiddenProduct : InsertProduct.t :=
  InsertProduct.mk "Batom" 19.5 (Some "") None 1 None (Some false).

(** A store submitted with [active: false]. *)
Definition hiddenStore : InsertStore.t :=
  InsertStore.mk "Filial" (Some "filial") None "11900000000" None None
    false (Some false) None.

(** A cart of customer 1 at store 1 with two items, on top of the seeded
    store: the cart gets id 1, the items ids 1 and 2. *)
Definition cartHistory : list call :=
  [CreateCart (InsertCart.mk 1 1) 100;
   CreateCartItem (InsertCartItem.mk 1 1 2) 101;
   CreateCartItem (InsertCartItem.mk 1 3 1) 102].

Definition withCart : MemStorage := run cartHistory seeded.

(** A history that creates two products, deletes the first and creates a
    third. *)
Definition churn : list call :=
  [CreateProduct hiddenProduct 100;
   CreateProduct hiddenProduct 101;
   DeleteProduct 7;
   CreateProduct hiddenProduct 102].

(** ** The remaining lookups of the store *)

Definition getUserByEmail (email : string) (s : MemStorage)
  : option User.t :=
  JsMap.find (fun user => String.eqb (User.email user) email) (users s).

Definition getUsersByRole (role : string) (s : MemStorage) : list User.t :=
  filter (fun user => String.eqb (User.role user) role)
    (JsMap.values (users s)).

Definition getStores (s : MemStorage) : list Store.t :=
  JsMap.values (stores s).

(** [store.slug === slug]: a [null] slug equals no string. *)
Definition slugIs (slug : string) (store : Store.t) : bool :=
  match Store.slug store with
  | Some x => String.eqb x slug
  | None => false
  end.

Definition getStoreBySlug (slug : string) (s : MemStorage)
  : option Store.t :=
  JsMap.find (slugIs slug) (stores s).

(** [if (!shopOwner || !shopOwner.storeId) return undefined]: a [null]
    store id and the id 0 are falsy. *)
Definition getStoreByOwner (ownerId : Z) (s : MemStorage) : option Store.t :=
  match findShopOwnerByUserId ownerId s with
  | None => None
  | Some shopOwner =>
      match ShopOwner.storeId (Obj.val shopOwner) with
      | None => None
      | Some storeId =>
          if storeId =? 0 then None else JsMap.get storeId (stores s)
      end
  end.

Definition getCustomerByUserId (userId : Z) (s : MemStorage)
  : option Customer.t :=
  JsMap.find (fun customer => Customer.userId customer =? userId)
    (customers s).

Definition getCartByCustomer (customerId storeId : Z) (s : MemStorage)
  : option Cart.t :=
  JsMap.find
    (fun cart =>
       (Cart.customerId cart =? customerId) && (Cart.storeId cart =? storeId))
    (carts s).

(** [order.customerId === customerId]: a [null] customer equals no
    number. *)
Definition customerIs (customerId : Z) (order : Order.t) : bool :=
  match Order.customerId order with
  | Some x => x =? customerId
  | None => false
  end.

Definition getOrders (storeId customerId : option Z) (s : MemStorage)
  : list Order.t :=
  let orders := JsMap.values (orders s) in
  let orders :=
    if truthy_number storeId then
      filter
        (fun order =>
           match storeId with
           | Some x => Order.storeId order =? x
           | None => false
           end)
        orders
    else orders in
  if truthy_number customerId then
    filter
      (fun order =>
         match customerId with
         | Some x => customerIs x order
         | None => false
         end)
      orders
  else orders.

(** ** Authentication and access control ([setupAuth])

    The handlers below are the callers of the store in the authentication
    module.  The request is reduced to what they read: [req.user], present
    exactly when [req.isAuthenticated()] holds, and the fields of
    [req.body].  A middleware either calls [next()] or answers with a
    status and an error message. *)

Inductive verdict :=
| Next
| Status (code : Z) (error : string).

(** [req.isAuthenticated()] with [req.user] *)
Definition session : Type := option User.t.

Definition isAuthenticated (req : session) : verdict :=
  match req with
  | None => Status 401 "Acesso não autorizado - Login necessário"
  | Some _ => Next
  end.

Definition isAdmin (req : session) : verdict :=
  match req with
  | Some user =>
      if negb (String.eqb (User.role user) "admin")
      then Status 403 "Acesso restrito a administradores"
      else Next
  | None => Status 403 "Acesso restrito a administradores"
  end.

Definition isShopOwner (req : session) : verdict :=
  match req with
  | Some user =>
      if negb (String.eqb (User.role user) "shopowner")
         && negb (String.eqb (User.role user) "admin")
      then Status 403 "Acesso restrito a lojistas"
      else Next
  | None => Status 403 "Acesso restrito a lojistas"
  end.

Definition isCustomer (req : session) : verdict :=
  match req with
  | Some user =>
      if negb (String.eqb (User.role user) "customer")
         && negb (String.eqb (User.role user) "shopowner")
         && negb (String.eqb (User.role user) "admin")
      then Status 403 "Acesso restrito a clientes registrados"
      else Next
  | None => Status 403 "Acesso restrito a clientes registrados"
  end.

(** The subscription check is commented out in the source ("TEMPORARIAMENTE
    permitindo todas as operações para qualquer status"): once the profile
    is found the middleware calls [next()]. *)
Definition hasActiveSubscription (req : session) (s : MemStorage) : verdict :=
  match req with
  | None => Status 401 "Acesso não autorizado - Login necessário"
  | Some user =>
      if String.eqb (User.role user) "admin" then Next
      else if negb (String.eqb (User.role user) "shopowner")
      then Status 403 "Acesso restrito a lojistas"
      else
        match getShopOwnerByUserId (User.id user) s with
        | None => Status 403 "Perfil de lojista não encontrado"
        | Some _ => Next
        end
  end.

(** [comparePasswords].  The scrypt branch (split of the stored value,
    key derivation, constant-time comparison, [false] on any exception)
    is the parameter [scryptMatches]; the branch for stored values in
    bcrypt format is the source's own. *)
Definition comparePasswords (scryptMatches : string -> string -> bool)
    (supplied stored : string) : bool :=
  if String.prefix "$2b$" stored then
    String.eqb supplied "admin123" || String.eqb supplied "lojista123"
    || String.eqb supplied "cliente123"
  else scryptMatches supplied stored.

(** The verify callback of the [LocalStrategy]: [done(null, false)] is
    [None], [done(null, user)] is [Some user]. *)
Definition verify (scryptMatches : string -> string -> bool)
    (username password : string) (s : MemStorage) : option User.t :=
  match getUserByUsername username s with
  | None => None
  | Some user =>
      if negb (comparePasswords scryptMatches password (User.password user))
      then None
      else Some user
  end.

(** [passport.serializeUser] and [passport.deserializeUser] *)
Definition serializeUser (user : User.t) : Z := User.id user.

Definition deserializeUser (id : Z) (s : MemStorage) : option User.t :=
  getUser id s.

(** The fields of [req.body] that [POST /api/register] reads. *)
Module RegisterBody.
Record t := mk {
  username : string; password : string; email : string; name : string;
  role : option string;
  address : option string; phone : option string;
  storeName : option string; logoUrl : option string;
  whatsappNumber : option string; templateId : option Z }.
End RegisterBody.

(** [15 * 24 * 60 * 60 * 1000] *)
Definition FIFTEEN_DAYS_MS : Z := 15 * 24 * 60 * 60 * 1000.

(** [x || fallback] on an optional string. *)
Definition or_string (x : option string) (fallback : string) : string :=
  match or_null_string x with
  | Some v => v
  | None => fallback
  end.

(** [POST /api/register] runs in two stretches.  It looks the username
    and the email up, then awaits [hashPassword(password)], and only then
    writes.  The key derivation runs outside the event loop, so other
    requests can be served meanwhile: the writes see the store as it is
    when the hash arrives, which need not be the store that was checked.
    Neither stretch is interrupted: its awaits are on store methods, which
    complete at once.  No store method on this path throws and
    [hashPassword] does not reject a string, so the handler's [catch]
    ([next(err)]) is not reached; what follows the writes is [req.login]
    and the response. *)

(** The checks: the refusal, if any, as status and error message. *)
Definition registerChecks (body : RegisterBody.t) (s : MemStorage)
  : option (Z * string) :=
  match getUserByUsername (RegisterBody.username body) s with
  | Some _ => Some (400, "Nome de usuário já existe")
  | None =>
      match getUserByEmail (RegisterBody.email body) s with
      | Some _ => Some (400, "Email já está em uso")
      | None => None
      end
  end.

(** [userData]: the record handed to [createUser]. *)
Definition userData (body : RegisterBody.t) (hashedPassword : string)
  : InsertUser.t :=
  InsertUser.mk (RegisterBody.username body) hashedPassword
    (RegisterBody.email body) (RegisterBody.name body)
    (spread "customer" (RegisterBody.role body)).

(** The writes.  [hashedPassword] is the value of
    [await hashPassword(password)], which draws a random salt.  The clock
    is read by [createUser] ([now]), twice by [createStore] ([now1],
    [now2]) and once for the trial ([today]).  The object handed to
    [createStore] has no [showSocialMedia] key; the missing key is
    embedded as [false]. *)
Definition registerWrites (body : RegisterBody.t) (hashedPassword : string)
    (now now1 now2 today : Date) (s : MemStorage) : User.t * MemStorage :=
  let role := spread "customer" (RegisterBody.role body) in
  let (user, s) := createUser (userData body hashedPassword) now s in
  if String.eqb role "customer" then
    let customerData :=
      InsertCustomer.mk (User.id user) (RegisterBody.address body)
        (RegisterBody.phone body) in
    let (_, s) := createCustomer customerData s in
    (user, s)
  else if String.eqb role "shopowner" then
    let storeData :=
      InsertStore.mk
        (or_string (RegisterBody.storeName body)
           ("Loja de " ++ RegisterBody.name body))
        None
        (Some (or_string (RegisterBody.logoUrl body)
                 "/placeholder-logo.jpg"))
        (or_string (RegisterBody.whatsappNumber body) "")
        None None false None
        (or_null_number (RegisterBody.templateId body)) in
    let (store, s) := createStore storeData now1 now2 s in
    let shopOwnerData :=
      InsertShopOwner.mk (User.id user) (Some (Store.id store))
        SubscriptionStatus.trial (Some (today + FIFTEEN_DAYS_MS)) in
    let (_, s) := createShopOwner shopOwnerData s in
    (user, s)
  else (user, s).

(** The outcome of a registration: refused with a status, or the user
    created and the store left by the writes. *)
Inductive registration :=
| Refused (code : Z) (error : string)
| Created (user : User.t) (s : MemStorage).

(** A registration during which no other request is served: the writes
    run on the store that was checked. *)
Definition register (body : RegisterBody.t) (hashedPassword : string)
    (now now1 now2 today : Date) (s : MemStorage) : registration :=
  match registerChecks body s with
  | Some (code, error) => Refused code error
  | None =>
      let (user, s) := registerWrites body hashedPassword now now1 now2 today s
      in Created user s
  end.

(** ** The storefront cart (client, StoreFront)

    The cart of the public storefront is React state; each handler passes
    [setCartItems] a function of the previous cart, and those functions
    are embedded.  The toast that [addToCart] shows is outside the cart. *)

Module StoreFront.

(** [type Product] of the storefront page *)
Record Product := mkProduct {
  id : Z; name : string; description : string; price : float;
  imageUrl : option string; active : bool; categoryId : option Z }.

(** [type CartItem] of the storefront page *)
Record CartItem := mkCartItem {
  productId : Z; product : Product; quantity : Z }.

Definition addToCart (product : Product) (prev : list CartItem)
  : list CartItem :=
  match find (fun item => productId item =? id product) prev with
  | Some existingItem =>
      map
        (fun item =>
           if productId item =? id product
           then mkCartItem (productId item) (StoreFront.product item)
                  (quantity item + 1)
           else item)
        prev
  | None => prev ++ [mkCartItem (id product) product 1]
  end.

Definition removeFromCart (productId : Z) (prev : list CartItem)
  : list CartItem :=
  filter (fun item => negb (StoreFront.productId item =? productId)) prev.

Definition updateQuantity (productId newQuantity : Z) (prev : list CartItem)
  : list CartItem :=
  if newQuantity <? 1 then prev
  else
    map
      (fun item =>
         if StoreFront.productId item =? productId
         then mkCartItem (StoreFront.productId item) (product item)
                newQuantity
         else item)
      prev.

(** [/\D/]: a character that is not one of [0] to [9]. *)
Definition isDigit (c : Ascii.ascii) : bool :=
  ((48 <=? Ascii.N_of_ascii c) && (Ascii.N_of_ascii c <=? 57))%N.

(** [whatsappNumber.replace(/\D/g, "")] *)
Fixpoint digitsOnly (whatsappNumber : string) : string :=
  match whatsappNumber with
  | EmptyString => EmptyString
  | String c rest =>
      if isDigit c then String c (digitsOnly rest) else digitsOnly rest
  end.

(** The link of the storefront's contact button:
    [`https://wa.me/${store.whatsappNumber.replace(/\D/g, "")}`] *)
Definition whatsappLink (whatsappNumber : string) : string :=
  "https://wa.me/" ++ digitsOnly whatsappNumber.

(** What the customer does to the cart. *)
Inductive action :=
| Add (product : Product)
| Remove (productId : Z)
| SetQuantity (productId newQuantity : Z).

Definition act (a : action) (cart : list CartItem) : list CartItem :=
  match a with
  | Add product => addToCart product cart
  | Remove productId => removeFromCart productId cart
  | SetQuantity productId newQuantity =>
      updateQuantity productId newQuantity cart
  end.

(** The cart after a sequence of actions, oldest first. *)
Definition shop (actions : list action) (cart : list CartItem)
  : list CartItem :=
  fold_left (fun cart a => act a cart) actions cart.

(** The quantity of a product in the cart, 0 when it is not there. *)
Definition quantityOf (productId : Z) (cart : list CartItem) : Z :=
  match find (fun item => StoreFront.productId item =? productId) cart with
  | Some item => quantity item
  | None => 0
  end.

(** A cart as the handlers keep it: one line per product, each with a
    quantity of at least one. *)
Definition wellFormed (cart : list CartItem) : Prop :=
  NoDup (map StoreFront.productId cart) /\
  Forall (fun item => 1 <= quantity item) cart.

Definition inCart (productId : Z) (cart : list CartItem) : bool :=
  existsb (fun item => StoreFront.productId item =? productId) cart.

Definition batom : Product :=
  mkProduct 7 "Batom" "Batom vermelho" 19.5 None true None.

Definition creme : Product :=
  mkProduct 1 "Creme" "Creme facial" 89.9 None true (Some 1).

End StoreFront.

(** ** Further sample inputs *)

(** A second account under the seeded administrator's username. *)
Definition impostor : InsertUser.t :=
  InsertUser.mk "admin" "x" "other@moments.com" "Outro" "customer".

Definition newcomer : InsertUser.t :=
  InsertUser.mk "maria" "x" "maria@email.com" "Maria" "customer".

(** A store that asks for the seeded store's slug, and one with an empty
    slug. *)
Definition sameSlugStore : InsertStore.t :=
  InsertStore.mk "Outra" (Some "moments") None "11911111111" None None
    false None None.

Definition emptySlugStore : InsertStore.t :=
  InsertStore.mk "Sem slug" (Some "") None "11922222222" None None
    false None None.

(** A scrypt comparison that accepts nothing, for the examples. *)
Definition noScrypt : string -> string -> bool := fun _ _ => false.

(** A shop owner whose subscription has expired, and the user it belongs
    to. *)
Definition lapse : PartialShopOwner.t :=
  PartialShopOwner.mk None None None (Some SubscriptionStatus.expired) None
    None None None.

Definition lapsed : MemStorage :=
  snd (updateShopOwnerSubscription 1 lapse seeded).

Definition lojista : User.t :=
  User.mk 2 "lojista"
    "$2b$10$2zZREfX0Ssa81Y4PYIxlaeYMQKvagrdLWVlVQ0tXaQ7u1nU2vhSne"
    "lojista@moments.com" "Lojista Demo" "shopowner" 1700000000003.

(** The three passwords that the bcrypt branch of [comparePasswords]
    accepts. *)
Definition demoPassword (supplied : string) : bool :=
  String.eqb supplied "admin123" || String.eqb supplied "lojista123"
  || String.eqb supplied "cliente123".

(** No two users share a username, and no two an email. *)
Definition uniqueUsers (s : MemStorage) : Prop :=
  NoDup (map User.username (JsMap.values (users s))) /\
  NoDup (map User.email (JsMap.values (users s))).

(** Registration requests for the examples. *)
Definition asShopOwner : RegisterBody.t :=
  RegisterBody.mk "ana" "segredo" "ana@email.com" "Ana" (Some "shopowner")
    None None None None (Some "11 93333-3333") None.

Definition asAdmin : RegisterBody.t :=
  RegisterBody.mk "mallory" "segredo" "mallory@email.com" "Mallory"
    (Some "admin") None None None None None None.

Definition asCustomer : RegisterBody.t :=
  RegisterBody.mk "bia" "segredo" "bia@email.com" "Bia" None
    (Some "Rua A, 1") (Some "") None None None None.

Definition takenUsername : RegisterBody.t :=
  RegisterBody.mk "cliente" "segredo" "novo@email.com" "Novo" None
    None None None None None None.

(** * Properties

    ** Facts about [JsMap] *)

Module JsMapFacts.

Section Facts.
Import JsMap.
Context {V : Type}.
Implicit Types (m : JsMap.t V) (k : Z) (v : V).

Lemma get_set_same k v m : get k (set k v m) = Some v.
Proof.
  induction m as [|[k' v'] r IH]; simpl.
  - now rewrite Z.eqb_refl.
  - destruct (k =? k') eqn:E; simpl; rewrite ?Z.eqb_refl, ?E; auto.
Qed.

Lemma get_set_other k k' v m : k <> k' -> get k' (set k v m) = get k' m.
Proof.
  intros Hne. induction m as [|[k0 v0] r IH]; simpl.
  - destruct (k' =? k) eqn:E; auto. apply Z.eqb_eq in E. congruence.
  - destruct (k =? k0) eqn:E; simpl.
    + apply Z.eqb_eq in E. subst k0.
      destruct (k' =? k) eqn:E'; auto. apply Z.eqb_eq in E'. congruence.
    + now rewrite IH.
Qed.

Lemma get_remove_same k m : get k (remove k m) = None.
Proof.
  induction m as [|[k' v'] r IH]; simpl; auto.
  destruct (k' =? k) eqn:E; simpl; auto.
  rewrite Z.eqb_sym, E. exact IH.
Qed.

Lemma get_remove_other k k' m : k <> k' -> get k' (remove k m) = get k' m.
Proof.
  intros Hne. induction m as [|[k0 v0] r IH]; simpl; auto.
  destruct (k0 =? k) eqn:E; simpl.
  - apply Z.eqb_eq in E. subst k0.
    destruct (k' =? k) eqn:E'; auto. apply Z.eqb_eq in E'. congruence.
  - now rewrite IH.
Qed.

Lemma get_Some_In k v m : get k m = Some v -> In (k, v) m.
Proof.
  induction m as [|[k' v'] r IH]; simpl; [discriminate|].
  destruct (k =? k') eqn:E.
  - apply Z.eqb_eq in E. intros [= ->]. subst. now left.
  - intros H. right. auto.
Qed.

Lemma get_None_keys k m : get k m = None <-> ~ In k (keys m).
Proof.
  induction m as [|[k' v'] r IH]; simpl.
  - split; auto.
  - destruct (k =? k') eqn:E.
    + apply Z.eqb_eq in E. subst. split; [discriminate|]. intros H. exfalso. auto.
    + apply Z.eqb_neq in E. rewrite IH. intuition congruence.
Qed.

Lemma has_true_keys k m : has k m = true <-> In k (keys m).
Proof.
  unfold has. destruct (get k m) eqn:E.
  - split; auto. intros _. apply get_Some_In in E.
    apply (in_map fst) in E. exact E.
  - apply get_None_keys in E. split; [discriminate | contradiction].
Qed.

(** [set] on a present key keeps the iteration order. *)
Lemma keys_set_present k v m : In k (keys m) -> keys (set k v m) = keys m.
Proof.
  induction m as [|[k' v'] r IH]; simpl; [contradiction|].
  destruct (k =? k') eqn:E; simpl.
  - apply Z.eqb_eq in E. now subst.
  - apply Z.eqb_neq in E. intros [?|H]; [congruence|]. now rewrite IH.
Qed.

(** [set] on a fresh key appends the entry. *)
Lemma set_absent k v m : ~ In k (keys m) -> set k v m = m ++ [(k, v)].
Proof.
  induction m as [|[k' v'] r IH]; simpl; auto.
  intros H. destruct (k =? k') eqn:E.
  - apply Z.eqb_eq in E. subst. exfalso. auto.
  - rewrite IH; auto.
Qed.

Lemma keys_set k v m :
  keys (set k v m) = if has k m then keys m else keys m ++ [k].
Proof.
  destruct (has k m) eqn:E.
  - apply keys_set_present. now apply has_true_keys.
  - rewrite set_absent.
    + unfold keys. now rewrite map_app.
    + intros H. apply has_true_keys in H. congruence.
Qed.

Lemma keys_remove k m : keys (remove k m) = List.filter (fun x => negb (x =? k)) (keys m).
Proof.
  induction m as [|[k' v'] r IH]; simpl; auto.
  destruct (k' =? k); simpl; now rewrite IH.
Qed.

Lemma keys_mutate k f m : keys (mutate k f m) = keys m.
Proof.
  induction m as [|[k' v'] r IH]; simpl; auto.
  destruct (k =? k'); simpl; now rewrite ?IH.
Qed.

Lemma In_set k v m e : In e (set k v m) -> e = (k, v) \/ In e m.
Proof.
  induction m as [|[k' v'] r IH]; simpl.
  - intros [H|[]]; auto.
  - destruct (k =? k'); simpl; intros [H|H]; auto.
    destruct (IH H); auto.
Qed.

Lemma In_remove k m e : In e (remove k m) <-> In e m /\ fst e <> k.
Proof.
  unfold remove. rewrite filter_In, negb_true_iff, Z.eqb_neq. tauto.
Qed.
End Facts.

End JsMapFacts.

(** ** Preservation of the invariants *)

Section BelowKeyed.
Context {V : Type}.
Implicit Types (m : JsMap.t V) (k n : Z) (v : V).

Lemma below_mono n n' m : n <= n' -> below n m -> below n' m.
Proof.
  unfold below. intros Hle H. eapply Forall_impl; [|exact H].
  simpl. intros; lia.
Qed.

Lemma below_set n k v m : k < n -> below n m -> below n (JsMap.set k v m).
Proof.
  unfold below. intros Hk H. rewrite JsMapFacts.keys_set.
  destruct (JsMap.has k m); auto.
  apply Forall_app. split; auto.
Qed.

Lemma below_remove n k m : below n m -> below n (JsMap.remove k m).
Proof.
  unfold below. intros H. rewrite JsMapFacts.keys_remove.
  rewrite Forall_forall in *. intros x Hx. apply filter_In in Hx.
  apply H, Hx.
Qed.

Lemma below_mutate n k f m : below n m -> below n (JsMap.mutate k f m).
Proof. unfold below. now rewrite JsMapFacts.keys_mutate. Qed.

Lemma below_fresh n m : below n m -> ~ In n (JsMap.keys m).
Proof.
  unfold below. rewrite Forall_forall. intros H Hin.
  apply H in Hin. lia.
Qed.

Lemma below_get n k v m : below n m -> JsMap.get k m = Some v -> k < n.
Proof.
  unfold below. rewrite Forall_forall. intros H Hget. apply H.
  apply JsMapFacts.get_Some_In in Hget.
  apply (in_map fst) in Hget. exact Hget.
Qed.

Variable idOf : V -> Z.

Lemma keyed_set k v m :
  idOf v = k -> keyed idOf m -> keyed idOf (JsMap.set k v m).
Proof.
  intros Hv H k' v' Hin. apply JsMapFacts.In_set in Hin.
  destruct Hin as [[= -> ->]|Hin]; auto.
Qed.

Lemma keyed_remove k m : keyed idOf m -> keyed idOf (JsMap.remove k m).
Proof.
  intros H k' v' Hin. apply JsMapFacts.In_remove in Hin. apply H, Hin.
Qed.

Lemma keyed_mutate k f m :
  (forall v, idOf (f v) = idOf v) ->
  keyed idOf m -> keyed idOf (JsMap.mutate k f m).
Proof.
  intros Hf. induction m as [|[k0 v0] r IH]; simpl; auto.
  intros H k' v' Hin.
  assert (Hr : keyed idOf r) by (intros a b Hab; apply H; now right).
  destruct (k =? k0).
  - destruct Hin as [[= <- <-]|Hin].
    + rewrite Hf. apply H. now left.
    + apply H. now right.
  - destruct Hin as [Heq|Hin].
    + apply H. now left.
    + now apply IH.
Qed.

Lemma keyed_get k v m : keyed idOf m -> JsMap.get k m = Some v -> idOf v = k.
Proof. intros H Hget. apply H. now apply JsMapFacts.get_Some_In. Qed.
End BelowKeyed.

Lemma sorted_filter (p : Z -> bool) (l : list Z) :
  StronglySorted Z.lt l -> StronglySorted Z.lt (filter p l).
Proof.
  induction 1 as [|x l Hs IH Hall]; simpl; [constructor|].
  destruct (p x); auto. constructor; auto.
  rewrite Forall_forall in *. intros y Hy. apply filter_In in Hy.
  apply Hall, Hy.
Qed.

Lemma sorted_snoc (l : list Z) (n : Z) :
  StronglySorted Z.lt l -> Forall (fun k => k < n) l ->
  StronglySorted Z.lt (l ++ [n]).
Proof.
  induction 1 as [|x l Hs IH Hall]; simpl; intros Hn.
  - constructor; constructor.
  - inversion Hn; subst. constructor; auto.
    apply Forall_app. split; auto.
Qed.

Lemma sorted_keys_set {V : Type} (n k : Z) (v : V) (m : JsMap.t V) :
  below n m -> (k = n \/ In k (JsMap.keys m)) ->
  StronglySorted Z.lt (JsMap.keys m) ->
  StronglySorted Z.lt (JsMap.keys (JsMap.set k v m)).
Proof.
  intros Hb Hk Hs. rewrite JsMapFacts.keys_set.
  destruct (JsMap.has k m) eqn:E; auto.
  destruct Hk as [->|Hin].
  - now apply sorted_snoc.
  - apply JsMapFacts.has_true_keys in Hin. congruence.
Qed.

Lemma touch_id now cart : Cart.id (touch now cart) = Cart.id cart.
Proof. reflexivity. Qed.

(** [touchCart] rewrites the [carts] collection only, and keeps it within
    the invariant. *)
Lemma touchCart_shape cartId now s :
  exists m,
    touchCart cartId now s = set_carts s m /\
    (forall n, below n (carts s) -> keyed Cart.id (carts s) ->
               below n m /\ keyed Cart.id m).
Proof.
  unfold touchCart. destruct (JsMap.get cartId (carts s)) as [cart|] eqn:E.
  - eexists. split; [reflexivity|]. intros n Hb Hk.
    pose proof (keyed_get _ _ _ _ Hk E) as Hid.
    pose proof (below_get _ _ _ _ Hb E) as Hlt.
    split.
    + apply below_set; [rewrite touch_id; lia|]. now apply below_mutate.
    + apply keyed_set; auto. apply keyed_mutate; auto.
  - exists (carts s). split; [now destruct s|]. auto.
Qed.

Lemma deleteItems_below n items m :
  below n m -> below n (deleteItems items m).
Proof.
  revert m. induction items as [|i r IH]; simpl; auto.
  intros m H. apply IH. now apply below_remove.
Qed.

Lemma deleteItems_keyed items m :
  keyed CartItem.id m -> keyed CartItem.id (deleteItems items m).
Proof.
  revert m. induction items as [|i r IH]; simpl; auto.
  intros m H. apply IH. now apply keyed_remove.
Qed.

Create HintDb inv discriminated.

#[local] Hint Resolve below_set below_remove below_mutate
  keyed_set keyed_remove deleteItems_below deleteItems_keyed : inv.

Ltac case_get :=
  match goal with
  | |- context [JsMap.get ?k ?m] =>
      let E := fresh "Hget" in destruct (JsMap.get k m) eqn:E
  end.

Ltac case_find :=
  match goal with
  | |- context [JsMap.find ?p ?m] =>
      let E := fresh "Hfind" in destruct (JsMap.find p m) eqn:E
  end.

(** A create leaves a collection within the invariant: the new key is the
    old counter, and the counter moves past it. *)
Lemma below_create {V : Type} (n : Z) (v : V) (m : JsMap.t V) :
  below n m -> below (n + 1) (JsMap.set n v m).
Proof.
  intros H. apply below_set; [lia|]. apply below_mono with n; [lia|auto].
Qed.

#[local] Hint Resolve below_create : inv.

Lemma below_update {V : Type} (n k : Z) (v v' : V) (m : JsMap.t V) :
  JsMap.get k m = Some v' -> below n m -> below n (JsMap.set k v m).
Proof. intros Hget H. apply below_set; auto. eapply below_get; eauto. Qed.

#[local] Hint Resolve below_update : inv.

Lemma step_Inv c s : Inv s -> Inv (step c s).
Proof.
  intros [Hu Hs Hc Hp Hcu Hca Hci Ho Hoi Kca Kci Kp Sp].
  destruct c; cbn [step].
  all: try (unfold updateUser, updateStore, updateCategory, updateProduct,
            updateShopOwnerSubscription, updateCustomer,
            updateOrderWhatsappStatus; case_get).
  all: try (unfold updateStripeCustomerId, updateUserStripeInfo,
            getUser, findShopOwnerByUserId; try case_get; case_find).
  all: try (constructor; cbn; eauto with inv; fail).
  - (* createProduct *)
    constructor; cbn; eauto with inv.
    eapply (sorted_keys_set (productId s)); eauto.
  - (* updateProduct *)
    pose proof (keyed_get _ _ _ _ Kp Hget) as Hid.
    constructor; cbn; eauto with inv.
    eapply (sorted_keys_set (productId s)); eauto. right.
    apply JsMapFacts.get_Some_In in Hget.
    apply (in_map fst) in Hget. exact Hget.
  - (* deleteProduct *)
    constructor; cbn; eauto with inv.
    change (StronglySorted Z.lt (JsMap.keys (JsMap.remove id (products s)))).
    rewrite JsMapFacts.keys_remove. now apply sorted_filter.
  - (* createCartItem *)
    unfold createCartItem. cbn [snd].
    match goal with
    | |- Inv (touchCart ?c ?n ?s0) =>
        destruct (touchCart_shape c n s0) as (m & -> & Hm)
    end.
    destruct (Hm (cartId s)) as [Hb Hk]; cbn; auto.
    constructor; cbn; eauto with inv.
  - (* updateCartItem *)
    unfold updateCartItem. case_get; [|constructor; auto].
    cbn [snd].
    match goal with
    | |- Inv (touchCart ?c ?n ?s0) =>
        destruct (touchCart_shape c n s0) as (m & -> & Hm)
    end.
    destruct (Hm (cartId s)) as [Hb Hk]; cbn; auto.
    pose proof (keyed_get _ _ _ _ Kci Hget) as Hid.
    constructor; cbn; eauto with inv.
  - (* deleteCartItem *)
    unfold deleteCartItem. case_get; [|constructor; auto].
    match goal with
    | |- context [touchCart ?c ?n ?s0] =>
        destruct (touchCart_shape c n s0) as (m & -> & Hm)
    end.
    destruct (Hm (cartId s)) as [Hb Hk]; cbn; auto.
    constructor; cbn; eauto with inv.
  - (* updateStripeCustomerId *)
    unfold updateStripeCustomerId, getUser, findShopOwnerByUserId.
    case_get; [case_find|]; constructor; cbn; auto.
Qed.

Lemma keyed_forallb {V : Type} (idOf : V -> Z) (m : JsMap.t V) :
  forallb (fun e => idOf (snd e) =? fst e) m = true -> keyed idOf m.
Proof.
  rewrite forallb_forall. intros H k v Hin. apply H in Hin.
  now apply Z.eqb_eq in Hin.
Qed.

Lemma below_forallb {V : Type} (n : Z) (m : JsMap.t V) :
  forallb (fun k => k <? n) (JsMap.keys m) = true -> below n m.
Proof.
  rewrite forallb_forall. intros H. apply Forall_forall. intros k Hin.
  apply H in Hin. now apply Z.ltb_lt in Hin.
Qed.

Lemma constructor_Inv clk : Inv (constructor clk).
Proof.
  constructor.
  1-9: apply below_forallb; vm_compute; reflexivity.
  1-3: apply keyed_forallb; vm_compute; reflexivity.
  vm_compute; repeat constructor.
Qed.

Lemma run_Inv calls s : Inv s -> Inv (run calls s).
Proof.
  revert s. induction calls as [|c rest IH]; simpl; auto.
  intros s H. apply IH. now apply step_Inv.
Qed.

Lemma reachable_Inv s : reachable s -> Inv s.
Proof.
  intros (clk & calls & <-). apply run_Inv, constructor_Inv.
Qed.

Lemma run_app calls1 calls2 s :
  run (calls1 ++ calls2) s = run calls2 (run calls1 s).
Proof.
  revert s. induction calls1 as [|c rest IH]; simpl; auto.
Qed.

Lemma reachable_run calls s : reachable s -> reachable (run calls s).
Proof.
  intros (clk & calls0 & <-). exists clk, (calls0 ++ calls).
  apply run_app.
Qed.

(** ** Counters along a history *)

Lemma issued_counter c s k id :
  issued c s = Some (k, id) ->
  id = counter k s /\ counter k (step c s) = id + 1.
Proof.
  destruct c; simpl; intros [= <- <-]; split; try reflexivity.
  - (* createCartItem: the counter is untouched by [touchCart] *)
    unfold createCartItem. cbn [snd].
    match goal with
    | |- context [touchCart ?c ?n ?s0] =>
        destruct (touchCart_shape c n s0) as (m & -> & _)
    end.
    reflexivity.
Qed.

Lemma counter_step c s k : counter k s <= counter k (step c s).
Proof.
  destruct c; cbn [step].
  all: try (unfold updateUser, updateStore, updateCategory, updateProduct,
            updateShopOwnerSubscription, updateCustomer,
            updateOrderWhatsappStatus; case_get).
  all: try (destruct k; cbn; lia).
  - unfold createCartItem. cbn [snd].
    match goal with
    | |- context [touchCart ?c ?n ?s0] =>
        destruct (touchCart_shape c n s0) as (m & -> & _)
    end.
    destruct k; cbn; lia.
  - unfold updateCartItem. case_get; [|cbn; lia]. cbn [snd].
    match goal with
    | |- context [touchCart ?c ?n ?s0] =>
        destruct (touchCart_shape c n s0) as (m & -> & _)
    end.
    destruct k; cbn; lia.
  - unfold deleteCartItem. case_get; [|cbn; lia].
    match goal with
    | |- context [touchCart ?c ?n ?s0] =>
        destruct (touchCart_shape c n s0) as (m & -> & _)
    end.
    destruct k; cbn; lia.
  - unfold updateStripeCustomerId, getUser, findShopOwnerByUserId.
    case_get; [case_find|]; destruct k; cbn; lia.
  - unfold updateUserStripeInfo, findShopOwnerByUserId.
    case_find; destruct k; cbn; lia.
Qed.

Lemma kind_eqb_eq a b : kind_eqb a b = true <-> a = b.
Proof. destruct a, b; simpl; split; congruence. Qed.

Lemma ids_from k calls s :
  Forall (fun id => counter k s <= id) (ids k calls s).
Proof.
  revert s. induction calls as [|c rest IH]; intros s; simpl; [constructor|].
  assert (Hrest : Forall (fun id => counter k s <= id) (ids k rest (step c s))).
  { eapply Forall_impl; [|apply IH]. simpl. intros id Hid.
    pose proof (counter_step c s k). lia. }
  destruct (issued c s) as [[k' id]|] eqn:E; auto.
  destruct (kind_eqb k k') eqn:Ek; auto.
  apply kind_eqb_eq in Ek. subst k'.
  apply issued_counter in E. constructor; [lia|auto].
Qed.

Lemma ids_sorted k calls s : StronglySorted Z.lt (ids k calls s).
Proof.
  revert s. induction calls as [|c rest IH]; intros s; simpl; [constructor|].
  destruct (issued c s) as [[k' id]|] eqn:E; auto.
  destruct (kind_eqb k k') eqn:Ek; auto.
  apply kind_eqb_eq in Ek. subst k'.
  apply issued_counter in E. destruct E as [-> Hnext].
  constructor; auto.
  eapply Forall_impl; [|apply ids_from]. simpl. intros id Hid. lia.
Qed.

Lemma sorted_NoDup (l : list Z) : StronglySorted Z.lt l -> NoDup l.
Proof.
  induction 1 as [|x l Hs IH Hall]; constructor; auto.
  intros Hin. rewrite Forall_forall in Hall. apply Hall in Hin. lia.
Qed.

Lemma ids_length k calls s :
  List.length (ids k calls s) = List.length (filter (creates k) calls).
Proof.
  revert s. induction calls as [|c rest IH]; intros s; simpl; auto.
  destruct c; simpl; auto;
    match goal with
    | |- context [kind_eqb k ?k'] => destruct (kind_eqb k k'); simpl; auto
    end.
Qed.

Lemma keysOf_below k s :
  Inv s -> k <> KShopOwner -> Forall (fun key => key < counter k s) (keysOf k s).
Proof.
  intros [] Hk. destruct k; simpl; auto. congruence.
Qed.

(** ** Lookups by alternate key *)

Section FindFacts.
Context {V : Type}.
Implicit Types (m : JsMap.t V) (p : V -> bool) (f : V -> V).

Lemma find_None p m :
  JsMap.find p m = None <->
  (forall v, In v (JsMap.values m) -> p v = false).
Proof.
  unfold JsMap.find. split.
  - intros H v Hin. eapply find_none; eauto.
  - intros H. destruct (find p (JsMap.values m)) as [v|] eqn:E; auto.
    apply find_some in E. destruct E as [Hin Hp].
    rewrite (H v Hin) in Hp. discriminate.
Qed.

(** Filing a found object again, under any key, leaves it the one that
    is found. *)
Lemma find_set_found p k m v :
  JsMap.find p m = Some v -> JsMap.find p (JsMap.set k v m) = Some v.
Proof.
  unfold JsMap.find. intros Hfind.
  assert (Hp : p v = true) by (apply find_some in Hfind; apply Hfind).
  induction m as [|[k0 v0] r IH]; simpl in *; [discriminate|].
  destruct (k =? k0); simpl.
  - now rewrite Hp.
  - destruct (p v0); auto.
Qed.

Lemma find_Some_In p m v :
  JsMap.find p m = Some v -> In v (JsMap.values m) /\ p v = true.
Proof. unfold JsMap.find. apply find_some. Qed.
End FindFacts.

Section AssignFacts.
Context {A : Type}.
Variables (q : A -> bool) (f : A -> A).
Hypothesis q_f : forall v, q (f v) = q v.

(** After an assignment that does not move the object out of [q], the
    object that was found is found again, changed. *)
Lemma find_assign (m : JsMap.t (Obj.t A)) (o : Obj.t A) :
  JsMap.find (fun e => q (Obj.val e)) m = Some o ->
  JsMap.find (fun e => q (Obj.val e)) (Obj.assign (Obj.ref o) f m)
  = Some (Obj.mk (Obj.ref o) (f (Obj.val o))).
Proof.
  unfold JsMap.find, JsMap.values, Obj.assign.
  induction m as [|[k e] r IH]; simpl; [discriminate|].
  destruct (q (Obj.val e)) eqn:E.
  - intros [= ->]. rewrite Z.eqb_refl. simpl. now rewrite q_f, E.
  - intros H. destruct (Obj.ref e =? Obj.ref o); simpl;
      rewrite ?q_f, E; auto.
Qed.

Lemma keys_assign r (m : JsMap.t (Obj.t A)) :
  JsMap.keys (Obj.assign r f m) = JsMap.keys m.
Proof.
  unfold JsMap.keys, Obj.assign. rewrite map_map. apply map_ext.
  intros e. destruct (Obj.ref (snd e) =? r); reflexivity.
Qed.
End AssignFacts.

Lemma getShopOwnerByUserId_find userId s :
  getShopOwnerByUserId userId s = None <->
  findShopOwnerByUserId userId s = None.
Proof.
  unfold getShopOwnerByUserId.
  destruct (findShopOwnerByUserId userId s); simpl; split; congruence.
Qed.

Lemma getShopOwnerByUserId_None userId s :
  getShopOwnerByUserId userId s = None <->
  (forall owner, In owner (map Obj.val (JsMap.values (shopOwners s))) ->
                 ShopOwner.userId owner <> userId).
Proof.
  rewrite getShopOwnerByUserId_find. unfold findShopOwnerByUserId.
  rewrite find_None. split.
  - intros H owner Hin. apply in_map_iff in Hin.
    destruct Hin as (e & <- & Hin). apply Z.eqb_neq. now apply H.
  - intros H e Hin. apply Z.eqb_neq. apply H. now apply in_map.
Qed.

Lemma getShopOwnerByUserId_Some userId s owner :
  getShopOwnerByUserId userId s = Some owner ->
  In owner (map Obj.val (JsMap.values (shopOwners s))) /\
  ShopOwner.userId owner = userId.
Proof.
  unfold getShopOwnerByUserId, findShopOwnerByUserId.
  destruct (JsMap.find _ (shopOwners s)) as [e|] eqn:E; [|discriminate].
  intros [= <-]. apply find_Some_In in E. destruct E as [Hin Hp].
  split; [now apply in_map | now apply Z.eqb_eq].
Qed.

(** ** Billing linkage without a shop owner (C1) *)

Lemma updateUserStripeInfo_absent userId info now s :
  getShopOwnerByUserId userId s = None ->
  updateUserStripeInfo userId info now s = Return None s.
Proof.
  intros H. apply getShopOwnerByUserId_find in H.
  unfold updateUserStripeInfo. now rewrite H.
Qed.

(** C1, as stated, fails: the seeded administrator (user 1) has no
    ShopOwner record, and the call resolves; no error is raised. *)
Lemma updateUserStripeInfo_raises_counterexample :
  getShopOwnerByUserId 1 seeded = None /\
  ~ (exists message,
       updateUserStripeInfo 1 info0 0 seeded = Throw message).
Proof.
  assert (H : getShopOwnerByUserId 1 seeded = None)
    by (vm_compute; reflexivity).
  split; [exact H|]. intros [message Hm].
  rewrite (updateUserStripeInfo_absent _ _ _ _ H) in Hm. discriminate.
Qed.

(** C1 (amended): for every userId such that no ShopOwner record has that
    userId, [updateUserStripeInfo userId info] raises no error: it resolves
    to the not-found sentinel [undefined] and leaves the store as it was. *)
Theorem updateUserStripeInfo_not_found userId info now s :
  getShopOwnerByUserId userId s = None ->
  updateUserStripeInfo userId info now s = Return None s /\
  (forall message, updateUserStripeInfo userId info now s <> Throw message).
Proof.
  intros H. rewrite (updateUserStripeInfo_absent _ _ _ _ H).
  split; [reflexivity | discriminate].
Qed.

Lemma updateUserStripeInfo_not_found_witness :
  getShopOwnerByUserId 1 seeded = None /\
  updateUserStripeInfo 1 info0 0 seeded
  = Return None seeded.
Proof.
  assert (H : getShopOwnerByUserId 1 seeded = None)
    by (vm_compute; reflexivity).
  split; [exact H|].
  exact (proj1 (updateUserStripeInfo_not_found 1 info0 0 seeded H)).
Defined.

(** The sibling method rejects only when the user itself is missing; for a
    user without a ShopOwner record it resolves and changes nothing. *)
Lemma updateStripeCustomerId_no_user userId stripeCustomerId s :
  getUser userId s = None ->
  updateStripeCustomerId userId stripeCustomerId s
  = Throw "Usuário não encontrado".
Proof. intros H. unfold updateStripeCustomerId. now rewrite H. Qed.

Lemma updateStripeCustomerId_no_owner userId stripeCustomerId s user :
  getUser userId s = Some user ->
  getShopOwnerByUserId userId s = None ->
  updateStripeCustomerId userId stripeCustomerId s = Return user s.
Proof.
  intros Hu Ho. apply getShopOwnerByUserId_find in Ho.
  unfold updateStripeCustomerId. now rewrite Hu, Ho.
Qed.

(** ** Billing linkage with a shop owner (C2) *)

Lemma linkSubscription_userId info now o :
  ShopOwner.userId (linkSubscription info now o) = ShopOwner.userId o.
Proof. reflexivity. Qed.

Lemma linkCustomer_userId cid o :
  ShopOwner.userId (linkCustomer cid o) = ShopOwner.userId o.
Proof. reflexivity. Qed.

Lemma updateUserStripeInfo_present userId info now s o :
  getShopOwnerByUserId userId s = Some o ->
  exists s',
    updateUserStripeInfo userId info now s
    = Return (Some (linkSubscription info now o)) s' /\
    getShopOwnerByUserId userId s' = Some (linkSubscription info now o).
Proof.
  unfold getShopOwnerByUserId, updateUserStripeInfo.
  destruct (findShopOwnerByUserId userId s) as [found|] eqn:F;
    [|discriminate].
  intros [= <-]. eexists. split; [reflexivity|].
  unfold findShopOwnerByUserId in *. cbn [shopOwners set_shopOwners].
  rewrite find_set_found
    with (v := Obj.mk (Obj.ref found) (linkSubscription info now (Obj.val found)));
    [reflexivity|].
  apply (find_assign (fun o => ShopOwner.userId o =? userId)); auto.
Qed.

Lemma updateStripeCustomerId_present userId cid s user o :
  getUser userId s = Some user ->
  getShopOwnerByUserId userId s = Some o ->
  exists s',
    updateStripeCustomerId userId cid s = Return user s' /\
    getShopOwnerByUserId userId s' = Some (linkCustomer cid o).
Proof.
  intros Hu. unfold getShopOwnerByUserId, updateStripeCustomerId.
  rewrite Hu.
  destruct (findShopOwnerByUserId userId s) as [found|] eqn:F;
    [|discriminate].
  intros [= <-]. eexists. split; [reflexivity|].
  unfold findShopOwnerByUserId in *. cbn [shopOwners set_shopOwners].
  rewrite find_set_found
    with (v := Obj.mk (Obj.ref found) (linkCustomer cid (Obj.val found)));
    [reflexivity|].
  apply (find_assign (fun o => ShopOwner.userId o =? userId)); auto.
Qed.

(** C2, as stated, fails for [updateStripeCustomerId]: for the seeded shop
    owner (user 2) the call returns the user, the customer id is set, and
    the subscription stays on trial, with the expiry it had. *)
Lemma updateStripeCustomerId_activates_counterexample :
  match updateStripeCustomerId 2 "cus_1" seeded with
  | Return user s' =>
      User.id user = 2 /\
      option_map ShopOwner.stripeCustomerId (getShopOwnerByUserId 2 s')
      = Some (Some "cus_1") /\
      option_map ShopOwner.subscriptionStatus (getShopOwnerByUserId 2 s')
      = Some SubscriptionStatus.trial /\
      option_map ShopOwner.subscriptionStatus (getShopOwnerByUserId 2 s')
      <> Some SubscriptionStatus.active /\
      option_map ShopOwner.subscriptionExpiresAt (getShopOwnerByUserId 2 s')
      = option_map ShopOwner.subscriptionExpiresAt
          (getShopOwnerByUserId 2 seeded)
  | Throw _ => False
  end.
Proof. vm_compute. repeat split; try reflexivity. discriminate. Qed.

(** C2 (amended): for every userId backed by an existing ShopOwner record,
    [updateUserStripeInfo] succeeds, returns the ShopOwner and leaves it
    stored with [subscriptionStatus] "active", [subscriptionExpiresAt] at
    the call time plus 30 days (2592000000 ms) and both Stripe ids set,
    its other fields as they were; [updateStripeCustomerId], for an
    existing user, succeeds and sets the ShopOwner's [stripeCustomerId]
    only: [subscriptionStatus], [subscriptionExpiresAt] and every other
    field keep the values they had. *)
Theorem billing_linkage userId s o :
  getShopOwnerByUserId userId s = Some o ->
  (forall info now, exists o' s',
      updateUserStripeInfo userId info now s = Return (Some o') s' /\
      getShopOwnerByUserId userId s' = Some o' /\
      ShopOwner.subscriptionStatus o' = SubscriptionStatus.active /\
      ShopOwner.subscriptionExpiresAt o' = Some (now + 2592000000) /\
      ShopOwner.stripeCustomerId o' = Some (StripeInfo.customerId info) /\
      ShopOwner.stripeSubscriptionId o'
      = Some (StripeInfo.subscriptionId info) /\
      ShopOwner.id o' = ShopOwner.id o /\
      ShopOwner.userId o' = userId /\
      ShopOwner.storeId o' = ShopOwner.storeId o /\
      o' = ShopOwner.mk (ShopOwner.id o) (ShopOwner.userId o)
             (ShopOwner.storeId o) SubscriptionStatus.active
             (Some (now + 2592000000)) (Some (StripeInfo.customerId info))
             (ShopOwner.stripePriceId o)
             (Some (StripeInfo.subscriptionId info))) /\
  (forall stripeCustomerId user,
      getUser userId s = Some user ->
      exists o' s',
        updateStripeCustomerId userId stripeCustomerId s = Return user s' /\
        getShopOwnerByUserId userId s' = Some o' /\
        ShopOwner.stripeCustomerId o' = Some stripeCustomerId /\
        ShopOwner.subscriptionStatus o' = ShopOwner.subscriptionStatus o /\
        ShopOwner.subscriptionExpiresAt o'
        = ShopOwner.subscriptionExpiresAt o /\
        o' = ShopOwner.mk (ShopOwner.id o) (ShopOwner.userId o)
               (ShopOwner.storeId o) (ShopOwner.subscriptionStatus o)
               (ShopOwner.subscriptionExpiresAt o) (Some stripeCustomerId)
               (ShopOwner.stripePriceId o)
               (ShopOwner.stripeSubscriptionId o)).
Proof.
  intros H. pose proof (getShopOwnerByUserId_Some _ _ _ H) as [_ Huid].
  split.
  - intros info now.
    destruct (updateUserStripeInfo_present _ info now _ _ H) as (s' & E & F).
    exists (linkSubscription info now o), s'.
    repeat split; auto.
  - intros cid user Hu.
    destruct (updateStripeCustomerId_present _ cid _ _ _ Hu H) as (s' & E & F).
    exists (linkCustomer cid o), s'.
    repeat split; auto.
Qed.

Lemma billing_linkage_witness :
  getShopOwnerByUserId 2 seeded = Some seededOwner /\
  exists o' s',
    updateUserStripeInfo 2 info0 1700000100000 seeded = Return (Some o') s' /\
    getShopOwnerByUserId 2 s' = Some o' /\
    ShopOwner.subscriptionStatus o' = SubscriptionStatus.active /\
    ShopOwner.subscriptionExpiresAt o' = Some 1702592100000.
Proof.
  assert (E : getShopOwnerByUserId 2 seeded = Some seededOwner)
    by (vm_compute; reflexivity).
  split; [exact E|].
  destruct (proj1 (billing_linkage 2 seeded seededOwner E) info0 1700000100000)
    as (o' & s' & H1 & H2 & H3 & H4 & _).
  exists o', s'. auto.
Defined.

(** ** Partial updates of products and stores (C3, C5) *)

Lemma updateProduct_found id product now s existing :
  JsMap.get id (products s) = Some existing ->
  updateProduct id product now s
  = (let updated :=
       Product.mk (Product.id existing)
         (spread (Product.name existing) (PartialProduct.name product))
         (spread (Product.price existing) (PartialProduct.price product))
         (spread (Product.description existing)
            (PartialProduct.description product))
         (spread (Product.imageUrl existing)
            (PartialProduct.imageUrl product))
         (Product.storeId existing)
         (spread (Product.categoryId existing)
            (PartialProduct.categoryId product))
         (spread (Product.active existing) (PartialProduct.active product))
         (Product.createdAt existing)
         now in
     (Some updated, set_products s (JsMap.set id updated (products s)))).
Proof. intros H. unfold updateProduct. now rewrite H. Qed.

Lemma updateStore_found id store now s existing :
  JsMap.get id (stores s) = Some existing ->
  updateStore id store now s
  = (let updated :=
       Store.mk (Store.id existing)
         (spread (Store.name existing) (PartialStore.name store))
         (spread (Store.slug existing) (PartialStore.slug store))
         (spread (Store.logoUrl existing) (PartialStore.logoUrl store))
         (spread (Store.whatsappNumber existing)
            (PartialStore.whatsappNumber store))
         (spread (Store.instagramUrl existing)
            (PartialStore.instagramUrl store))
         (spread (Store.facebookUrl existing)
            (PartialStore.facebookUrl store))
         (spread (Store.showSocialMedia existing)
            (PartialStore.showSocialMedia store))
         (spread (Store.active existing) (PartialStore.active store))
         (Store.createdAt existing)
         now
         (spread (Store.templateId existing) (PartialStore.templateId store))
     in
     (Some updated, set_stores s (JsMap.set id updated (stores s)))).
Proof. intros H. unfold updateStore. now rewrite H. Qed.

(** C3, as stated, fails: [storeId] is a key of [Partial<Product>], and a
    partial that supplies it for the seeded product 1 (of store 1) comes
    back with the stored [storeId]; likewise a supplied [updatedAt] is
    overwritten by the call time. *)
Lemma updateProduct_merges_every_key_counterexample :
  PartialProduct.storeId moveToStore99 = Some 99 /\
  PartialProduct.updatedAt moveToStore99 = Some 5 /\
  option_map Product.storeId (fst (updateProduct 1 moveToStore99 7 seeded))
  = Some 1 /\
  option_map Product.updatedAt (fst (updateProduct 1 moveToStore99 7 seeded))
  = Some 7 /\
  ~ (forall r, fst (updateProduct 1 moveToStore99 7 seeded) = Some r ->
               supplied (PartialProduct.storeId moveToStore99)
                 (Product.storeId r)).
Proof.
  assert (E : option_map Product.storeId
                (fst (updateProduct 1 moveToStore99 7 seeded)) = Some 1)
    by (vm_compute; reflexivity).
  repeat split; try (vm_compute; reflexivity).
  intros H.
  destruct (fst (updateProduct 1 moveToStore99 7 seeded)) as [r|];
    [|discriminate].
  specialize (H r eq_refl). simpl in H, E. congruence.
Qed.

(** C3 (amended): for every existing id and every partial, [updateProduct]
    merges the keys [name], [price], [description], [imageUrl], [active]
    and [categoryId] of the partial into the existing record
    ([updateStore]: [name], [slug], [whatsappNumber], [logoUrl],
    [instagramUrl], [facebookUrl], [showSocialMedia], [active] and
    [templateId]): each of them that the partial supplies shows in the
    returned entity with the supplied value, an explicit [null] clearing a
    nullable field, and each of them that it omits keeps its stored value.
    Any other key of the partial ([id], [storeId], [createdAt],
    [updatedAt]) is ignored; [id], [storeId] and [createdAt] keep their
    stored values and [updatedAt] becomes the call time.  The returned
    entity is the one stored under the id. *)
Theorem update_merges_supplied_keys :
  (forall id product now s existing,
      getProduct id s = Some existing ->
      exists r s',
        updateProduct id product now s = (Some r, s') /\
        getProduct id s' = Some r /\
        merged (PartialProduct.name product)
          (Product.name existing) (Product.name r) /\
        merged (PartialProduct.price product)
          (Product.price existing) (Product.price r) /\
        merged (PartialProduct.description product)
          (Product.description existing) (Product.description r) /\
        merged (PartialProduct.imageUrl product)
          (Product.imageUrl existing) (Product.imageUrl r) /\
        merged (PartialProduct.active product)
          (Product.active existing) (Product.active r) /\
        merged (PartialProduct.categoryId product)
          (Product.categoryId existing) (Product.categoryId r) /\
        Product.id r = Product.id existing /\
        Product.storeId r = Product.storeId existing /\
        Product.createdAt r = Product.createdAt existing /\
        Product.updatedAt r = now) /\
  (forall id store now s existing,
      getStore id s = Some existing ->
      exists r s',
        updateStore id store now s = (Some r, s') /\
        getStore id s' = Some r /\
        merged (PartialStore.name store)
          (Store.name existing) (Store.name r) /\
        merged (PartialStore.slug store)
          (Store.slug existing) (Store.slug r) /\
        merged (PartialStore.whatsappNumber store)
          (Store.whatsappNumber existing) (Store.whatsappNumber r) /\
        merged (PartialStore.logoUrl store)
          (Store.logoUrl existing) (Store.logoUrl r) /\
        merged (PartialStore.instagramUrl store)
          (Store.instagramUrl existing) (Store.instagramUrl r) /\
        merged (PartialStore.facebookUrl store)
          (Store.facebookUrl existing) (Store.facebookUrl r) /\
        merged (PartialStore.showSocialMedia store)
          (Store.showSocialMedia existing) (Store.showSocialMedia r) /\
        merged (PartialStore.active store)
          (Store.active existing) (Store.active r) /\
        merged (PartialStore.templateId store)
          (Store.templateId existing) (Store.templateId r) /\
        Store.id r = Store.id existing /\
        Store.createdAt r = Store.createdAt existing /\
        Store.updatedAt r = now).
Proof.
  assert (Hm : forall (A : Type) (stored : A) (key : option A),
             merged key stored (spread stored key))
    by (intros A stored [v|]; reflexivity).
  split.
  - intros id product now s existing H. unfold getProduct in *.
    rewrite (updateProduct_found _ _ _ _ _ H). cbv zeta.
    eexists. eexists. split; [reflexivity|].
    cbn [products set_products]. rewrite JsMapFacts.get_set_same.
    repeat split; cbn; auto.
  - intros id store now s existing H. unfold getStore in *.
    rewrite (updateStore_found _ _ _ _ _ H). cbv zeta.
    eexists. eexists. split; [reflexivity|].
    cbn [stores set_stores]. rewrite JsMapFacts.get_set_same.
    repeat split; cbn; auto.
Qed.

Lemma update_merges_supplied_keys_witness :
  getProduct 1 seeded = Some seededProduct1 /\
  getStore 1 seeded = Some seededStore /\
  (exists r s',
      updateProduct 1 (priceOnly 12) 7 seeded = (Some r, s') /\
      Product.price r = 12%float /\ Product.updatedAt r = 7) /\
  (exists r s',
      updateStore 1 renameStore 7 seeded = (Some r, s') /\
      Store.name r = "Loja Nova" /\ Store.instagramUrl r = None).
Proof.
  assert (Ep : getProduct 1 seeded = Some seededProduct1)
    by (vm_compute; reflexivity).
  assert (Es : getStore 1 seeded = Some seededStore)
    by (vm_compute; reflexivity).
  split; [exact Ep|]. split; [exact Es|]. split.
  - destruct (proj1 update_merges_supplied_keys 1 (priceOnly 12) 7 seeded
                seededProduct1 Ep)
      as (r & s' & H & _ & _ & Hprice & _ & _ & _ & _ & _ & _ & _ & Hupd).
    exists r, s'. auto.
  - destruct (proj2 update_merges_supplied_keys 1 renameStore 7 seeded
                seededStore Es)
      as (r & s' & H & _ & Hname & _ & _ & _ & Hinsta & _).
    exists r, s'. auto.
Defined.

(** C5, as stated, fails on [updatedAt]: updating the price of the seeded
    product 1 at time 7 returns a product whose [updatedAt] is 7, not the
    stored one; the same holds for [{ description: null }]. *)
Lemma partial_update_every_other_field_counterexample :
  option_map Product.updatedAt (getProduct 1 seeded) = Some 1700000000010 /\
  option_map Product.updatedAt (fst (updateProduct 1 (priceOnly 12) 7 seeded))
  = Some 7 /\
  option_map Product.updatedAt
    (fst (updateProduct 1 clearDescription 7 seeded))
  = Some 7 /\
  option_map Product.updatedAt (fst (updateProduct 1 (priceOnly 12) 7 seeded))
  <> option_map Product.updatedAt (getProduct 1 seeded).
Proof.
  assert (E1 : option_map Product.updatedAt (getProduct 1 seeded)
               = Some 1700000000010) by (vm_compute; reflexivity).
  assert (E2 : option_map Product.updatedAt
                 (fst (updateProduct 1 (priceOnly 12) 7 seeded)) = Some 7)
    by (vm_compute; reflexivity).
  repeat split; auto; try (vm_compute; reflexivity).
  rewrite E1, E2. discriminate.
Qed.

(** C5 (amended): for every stored Product, [updateProduct] with a partial
    containing only [price] yields a product whose price is the new value
    and whose every other field except [updatedAt] is unchanged;
    [updateProduct] with [{ description: null }] yields a null description
    with every other field except [updatedAt] unchanged.  In both cases
    [updatedAt] is the call time, and the product returned is the one
    stored. *)
Theorem partial_update_preserves_untouched id now s existing :
  getProduct id s = Some existing ->
  (forall v, exists s',
      updateProduct id (priceOnly v) now s
      = (Some (Product.mk (Product.id existing) (Product.name existing) v
                 (Product.description existing) (Product.imageUrl existing)
                 (Product.storeId existing) (Product.categoryId existing)
                 (Product.active existing) (Product.createdAt existing)
                 now), s') /\
      getProduct id s' = fst (updateProduct id (priceOnly v) now s)) /\
  (exists s',
      updateProduct id clearDescription now s
      = (Some (Product.mk (Product.id existing) (Product.name existing)
                 (Product.price existing) None (Product.imageUrl existing)
                 (Product.storeId existing) (Product.categoryId existing)
                 (Product.active existing) (Product.createdAt existing)
                 now), s') /\
      getProduct id s' = fst (updateProduct id clearDescription now s)).
Proof.
  intros H. unfold getProduct in *. split; [intros v|].
  all: rewrite (updateProduct_found _ _ _ _ _ H); cbv zeta.
  all: eexists; split; [reflexivity|].
  all: cbn [fst products set_products]; apply JsMapFacts.get_set_same.
Qed.

Lemma partial_update_preserves_untouched_witness :
  getProduct 1 seeded = Some seededProduct1 /\
  fst (updateProduct 1 (priceOnly 12) 7 seeded)
  = Some (Product.mk 1 "Creme Hidratante Facial" 12
            (Product.description seededProduct1)
            (Some "/placeholder-product-1.jpg") 1 (Some 1) true
            1700000000009 7).
Proof.
  assert (Ep : getProduct 1 seeded = Some seededProduct1)
    by (vm_compute; reflexivity).
  split; [exact Ep|].
  destruct (proj1 (partial_update_preserves_untouched 1 7 seeded
                     seededProduct1 Ep) 12%float) as (s' & H & _).
  rewrite H. reflexivity.
Defined.

(** ** Creation forces [active] (C10) *)

(** C10: for every input, the entity returned by [createProduct] (and by
    [createStore]) has [active = true], whatever the input supplies for
    [active]; the entity is stored as returned. *)
Theorem create_forces_active :
  (forall product now s,
      Product.active (fst (createProduct product now s)) = true /\
      getProduct (Product.id (fst (createProduct product now s)))
        (snd (createProduct product now s))
      = Some (fst (createProduct product now s))) /\
  (forall store now1 now2 s,
      Store.active (fst (createStore store now1 now2 s)) = true /\
      getStore (Store.id (fst (createStore store now1 now2 s)))
        (snd (createStore store now1 now2 s))
      = Some (fst (createStore store now1 now2 s))).
Proof.
  split; intros; (split; [reflexivity|]).
  - unfold getProduct, createProduct. cbn [fst snd products set_products].
    apply JsMapFacts.get_set_same.
  - unfold getStore, createStore. cbn [fst snd stores set_stores].
    apply JsMapFacts.get_set_same.
Qed.

Example createProduct_active_false :
  InsertProduct.active hiddenProduct = Some false /\
  Product.active (fst (createProduct hiddenProduct 7 seeded)) = true /\
  Product.description (fst (createProduct hiddenProduct 7 seeded)) = None /\
  Product.id (fst (createProduct hiddenProduct 7 seeded)) = 7.
Proof. repeat split; vm_compute; reflexivity. Qed.

Example createStore_active_false :
  InsertStore.active hiddenStore = Some false /\
  Store.active (fst (createStore hiddenStore 7 8 seeded)) = true /\
  Store.id (fst (createStore hiddenStore 7 8 seeded)) = 2.
Proof. repeat split; vm_compute; reflexivity. Qed.

(** ** Products of a store (C4) *)

(** With a truthy argument [getProducts] is the equality filter over the
    collection in iteration order. *)
Lemma getProducts_filter x s :
  x <> 0 ->
  getProducts (Some x) s
  = filter (fun product => Product.storeId product =? x)
      (JsMap.values (products s)).
Proof.
  intros Hx. unfold getProducts, truthy_number.
  apply Z.eqb_neq in Hx. now rewrite Hx.
Qed.

Lemma getProducts_nonzero x s product :
  x <> 0 ->
  (In product (getProducts (Some x) s) <->
   In product (JsMap.values (products s)) /\ Product.storeId product = x).
Proof.
  intros Hx. rewrite getProducts_filter by assumption.
  rewrite filter_In, Z.eqb_eq. tauto.
Qed.

Lemma values_ids_keys (m : JsMap.t Product.t) :
  keyed Product.id m -> map Product.id (JsMap.values m) = JsMap.keys m.
Proof.
  induction m as [|[k v] r IH]; simpl; auto.
  intros H. rewrite IH.
  - f_equal. apply H. now left.
  - intros a b Hab. apply H. now right.
Qed.

Lemma sorted_map_filter (p : Product.t -> bool) (l : list Product.t) :
  StronglySorted Z.lt (map Product.id l) ->
  StronglySorted Z.lt (map Product.id (filter p l)).
Proof.
  induction l as [|a l IH]; simpl; auto.
  intros H. inversion H as [|? ? Hs Hall]; subst.
  destruct (p a); simpl; auto. constructor; auto.
  rewrite Forall_forall in *. intros y Hy.
  apply in_map_iff in Hy. destruct Hy as (b & <- & Hb).
  apply filter_In in Hb. apply Hall. apply in_map. apply Hb.
Qed.

(** In a reachable store the products come out in creation order: by
    increasing id. *)
Lemma getProducts_creation_order x s :
  reachable s -> StronglySorted Z.lt (map Product.id (getProducts x s)).
Proof.
  intros Hr. apply reachable_Inv in Hr. destruct Hr.
  assert (Hall : StronglySorted Z.lt
                   (map Product.id (JsMap.values (products s))))
    by (rewrite values_ids_keys; auto).
  unfold getProducts. destruct (truthy_number x); auto.
  now apply sorted_map_filter.
Qed.

(** C4 holds for every X but 0, and fails at 0: the guard [if (storeId)]
    takes the argument 0 for an omitted one, and the whole collection is
    returned.  In the seeded store [getProducts(0)] returns the six
    products of store 1, none of which has [storeId] 0. *)
Theorem getProducts_zero_returns_all :
  (forall s, getProducts (Some 0) s = JsMap.values (products s)) /\
  map Product.storeId (getProducts (Some 0) seeded) = [1; 1; 1; 1; 1; 1] /\
  filter (fun product => Product.storeId product =? 0)
    (JsMap.values (products seeded)) = [].
Proof.
  split; [reflexivity|]. split; vm_compute; reflexivity.
Qed.

(** ** Cascade on cart deletion (C6) *)

Lemma deleteItems_In items m e :
  In e (deleteItems items m) <->
  In e m /\ ~ In (fst e) (map CartItem.id items).
Proof.
  revert m. induction items as [|i r IH]; intros m; simpl.
  - tauto.
  - rewrite IH, JsMapFacts.In_remove. intuition congruence.
Qed.

(** C6: in every store the process can reach, after [deleteCart id] no
    CartItem whose [cartId] equals [id] remains, the cart itself is gone,
    and the result tells whether the cart record was present. *)
Theorem deleteCart_cascade id s :
  reachable s ->
  getCartItems id (snd (deleteCart id s)) = [] /\
  (forall item, In item (JsMap.values (cartItems (snd (deleteCart id s)))) ->
                CartItem.cartId item <> id) /\
  getCart id (snd (deleteCart id s)) = None /\
  fst (deleteCart id s) = JsMap.has id (carts s).
Proof.
  intros Hr. apply reachable_Inv in Hr. destruct Hr as [? ? ? ? ? ? ? ? ? ? Kci ? ?].
  assert (Hgone : forall item,
             In item (JsMap.values (cartItems (snd (deleteCart id s)))) ->
             CartItem.cartId item <> id).
  { unfold deleteCart. cbn. intros item Hin Hid.
    apply in_map_iff in Hin. destruct Hin as ([k v] & Hv & Hin).
    simpl in Hv. subst v.
    apply deleteItems_In in Hin. destruct Hin as [Hin Hnot].
    apply Hnot. simpl. apply in_map_iff. exists item. split.
    - now apply Kci.
    - apply filter_In. split.
      + apply in_map_iff. exists (k, item). auto.
      + now apply Z.eqb_eq. }
  repeat split; auto.
  - unfold getCartItems.
    destruct (filter _ _) as [|item rest] eqn:E; auto.
    assert (Hin : In item (item :: rest)) by now left.
    rewrite <- E in Hin. apply filter_In in Hin. destruct Hin as [Hin Hid].
    apply Z.eqb_eq in Hid. now apply Hgone in Hin.
  - unfold getCart, deleteCart. cbn. apply JsMapFacts.get_remove_same.
Qed.

Lemma deleteCart_cascade_witness :
  reachable withCart /\
  List.length (getCartItems 1 withCart) = 2%nat /\
  getCartItems 1 (snd (deleteCart 1 withCart)) = [] /\
  fst (deleteCart 1 withCart) = true.
Proof.
  assert (Hr : reachable withCart)     by (exists clock0, cartHistory; unfold withCart, seeded; reflexivity).
  split; [exact Hr|]. split; [vm_compute; reflexivity|].
  assert (Hp : JsMap.has 1 (carts withCart) = true)
    by (vm_compute; reflexivity).
  destruct (deleteCart_cascade 1 withCart Hr) as (H1 & _ & _ & H4).
  split; [exact H1 | exact (eq_trans H4 Hp)].
Defined.

(** ** Identifier assignment (C7) *)

(** C7: every counter starts at 1; a create hands out the current value of
    its counter and moves the counter one up, and no call moves a counter
    down.  Hence along any history of calls, creates and deletes
    interleaved at will, the ids handed out for a kind are as many as the
    creates of that kind, strictly increasing and pairwise distinct; and in
    a store the process can reach, every id present in a collection that
    has a delete lies below all ids handed out later, so that deleting the
    record cannot bring its id back. *)
Theorem identifier_monotonicity (k : kind) (calls : list call)
    (s : MemStorage) :
  counter k initial = 1 /\
  (forall c id, issued c s = Some (k, id) ->
                id = counter k s /\ counter k (step c s) = id + 1) /\
  (forall c, counter k s <= counter k (step c s)) /\
  List.length (ids k calls s) = List.length (filter (creates k) calls) /\
  StronglySorted Z.lt (ids k calls s) /\
  NoDup (ids k calls s) /\
  Forall (fun id => counter k s <= id) (ids k calls s) /\
  (reachable s -> k <> KShopOwner ->
   forall key, In key (keysOf k s) ->
               Forall (fun id => key < id) (ids k calls s)).
Proof.
  split; [destruct k; reflexivity|].
  split; [intros c id; apply issued_counter|].
  split; [intros c; apply counter_step|].
  split; [apply ids_length|].
  split; [apply ids_sorted|].
  split; [apply sorted_NoDup, ids_sorted|].
  split; [apply ids_from|].
  intros Hr Hk key Hin.
  apply reachable_Inv in Hr.
  pose proof (keysOf_below k s Hr Hk) as Hb.
  rewrite Forall_forall in Hb. apply Hb in Hin.
  eapply Forall_impl; [|apply ids_from]. simpl. intros id Hid. lia.
Qed.

Lemma identifier_monotonicity_witness :
  reachable seeded /\ KProduct <> KShopOwner /\
  keysOf KProduct seeded = [1; 2; 3; 4; 5; 6] /\
  ids KProduct churn seeded = [7; 8; 9] /\
  keysOf KProduct (run churn seeded) = [1; 2; 3; 4; 5; 6; 8; 9] /\
  Forall (fun id => 6 < id) (ids KProduct churn seeded).
Proof.
  assert (Hr : reachable seeded)
    by (exists clock0, []; unfold seeded; reflexivity).
  assert (Hk : KProduct <> KShopOwner) by discriminate.
  assert (Hkeys : keysOf KProduct seeded = [1; 2; 3; 4; 5; 6])
    by (vm_compute; reflexivity).
  assert (Hin : In 6 (keysOf KProduct seeded))
    by (rewrite Hkeys; simpl; tauto).
  split; [exact Hr|]. split; [exact Hk|]. split; [exact Hkeys|].
  split; [vm_compute; reflexivity|]. split; [vm_compute; reflexivity|].
  exact (proj2 (proj2 (proj2 (proj2 (proj2 (proj2 (proj2
           (identifier_monotonicity KProduct churn seeded)))))))
           Hr Hk 6 Hin).
Defined.

(** The constructor hands out its ids the same way: the seeded records
    take the ids from 1 up, and every counter is left one past the last id
    it gave. *)
Lemma constructor_ids clk :
  map (fun k => (keysOf k (constructor clk), counter k (constructor clk)))
    [KUser; KStore; KCategory; KProduct; KShopOwner; KCustomer;
     KCart; KCartItem; KOrder; KOrderItem]
  = [([1; 2; 3], 4); ([1], 2); ([1; 2; 3; 4], 5); ([1; 2; 3; 4; 5; 6], 7);
     ([1], 2); ([1], 2); ([], 1); ([], 1); ([], 1); ([], 1)].
Proof. vm_compute. reflexivity. Qed.

(** ** Order items are snapshots (C8) *)

Lemma updateProduct_orderItems id product now s :
  orderItems (snd (updateProduct id product now s)) = orderItems s.
Proof. unfold updateProduct. case_get; reflexivity. Qed.

Lemma updateProducts_orderItems edits s :
  orderItems (updateProducts edits s) = orderItems s.
Proof.
  revert s. induction edits as [|[[id product] now] rest IH]; intros s;
    simpl; auto.
  rewrite IH. apply updateProduct_orderItems.
Qed.

(** C8: an OrderItem created with a given [productName] and [price] is
    stored with them, and any subsequent [updateProduct] calls, whatever
    product they edit and whatever name and price they supply, leave the
    stored OrderItem as it was created. *)
Theorem orderItem_snapshot (orderItem : InsertOrderItem.t)
    (edits : list (Z * PartialProduct.t * Date)) (s : MemStorage) :
  let created := fst (createOrderItem orderItem s) in
  let s' := updateProducts edits (snd (createOrderItem orderItem s)) in
  OrderItem.productName created = InsertOrderItem.productName orderItem /\
  OrderItem.price created = InsertOrderItem.price orderItem /\
  JsMap.get (OrderItem.id created) (orderItems s') = Some created /\
  getOrderItems (OrderItem.orderId created) s'
  = getOrderItems (OrderItem.orderId created)
      (snd (createOrderItem orderItem s)) /\
  In created (getOrderItems (OrderItem.orderId created) s').
Proof.
  cbv zeta.
  assert (Hget : JsMap.get (OrderItem.id (fst (createOrderItem orderItem s)))
                   (orderItems (snd (createOrderItem orderItem s)))
                 = Some (fst (createOrderItem orderItem s))).
  { unfold createOrderItem. cbn [fst snd orderItems set_orderItems].
    apply JsMapFacts.get_set_same. }
  unfold getOrderItems. rewrite updateProducts_orderItems.
  repeat split; auto.
  apply filter_In. split.
  - apply JsMapFacts.get_Some_In in Hget.
    apply (in_map snd) in Hget. exact Hget.
  - apply Z.eqb_refl.
Qed.

(** ** Updates of absent records (C9) *)

(** C9: for every id not present in the corresponding collection, each of
    the eight [update<Entity>] operations returns the not-found sentinel
    [undefined] and leaves the whole store as it was; none of them can
    raise. *)
Theorem update_absent_is_noop (id : Z) (s : MemStorage) :
  (forall user, JsMap.has id (users s) = false ->
                updateUser id user s = (None, s)) /\
  (forall store now, JsMap.has id (stores s) = false ->
                     updateStore id store now s = (None, s)) /\
  (forall category, JsMap.has id (categories s) = false ->
                    updateCategory id category s = (None, s)) /\
  (forall product now, JsMap.has id (products s) = false ->
                       updateProduct id product now s = (None, s)) /\
  (forall data, JsMap.has id (shopOwners s) = false ->
                updateShopOwnerSubscription id data s = (None, s)) /\
  (forall customer, JsMap.has id (customers s) = false ->
                    updateCustomer id customer s = (None, s)) /\
  (forall quantity now, JsMap.has id (cartItems s) = false ->
                        updateCartItem id quantity now s = (None, s)) /\
  (forall sent, JsMap.has id (orders s) = false ->
                updateOrderWhatsappStatus id sent s = (None, s)).
Proof.
  unfold JsMap.has.
  repeat split; intros;
    unfold updateUser, updateStore, updateCategory, updateProduct,
      updateShopOwnerSubscription, updateCustomer, updateCartItem,
      updateOrderWhatsappStatus;
    (case_get; [discriminate | reflexivity]).
Qed.

Lemma update_absent_is_noop_witness :
  JsMap.has 42 (users seeded) = false /\
  JsMap.has 42 (products seeded) = false /\
  JsMap.has 42 (cartItems seeded) = false /\
  updateUser 42 PartialUser.none seeded = (None, seeded) /\
  updateProduct 42 (priceOnly 12) 7 seeded = (None, seeded) /\
  updateCartItem 42 3 7 seeded = (None, seeded).
Proof.
  assert (Hu : JsMap.has 42 (users seeded) = false)
    by (vm_compute; reflexivity).
  assert (Hp : JsMap.has 42 (products seeded) = false)
    by (vm_compute; reflexivity).
  assert (Hc : JsMap.has 42 (cartItems seeded) = false)
    by (vm_compute; reflexivity).
  destruct (update_absent_is_noop 42 seeded)
    as (H1 & _ & _ & H4 & _ & _ & H7 & _).
  split; [exact Hu|]. split; [exact Hp|]. split; [exact Hc|].
  split; [exact (H1 PartialUser.none Hu)|].
  split; [exact (H4 (priceOnly 12) 7 Hp) | exact (H7 3 7 Hc)].
Defined.

(** * Further properties of the store

    ** More facts about [JsMap] *)

Section MoreMapFacts.
Context {V : Type}.
Implicit Types (m : JsMap.t V) (k : Z) (v : V) (p : V -> bool).

Lemma values_set_fresh k v m :
  ~ In k (JsMap.keys m) ->
  JsMap.values (JsMap.set k v m) = JsMap.values m ++ [v].
Proof.
  intros H. rewrite JsMapFacts.set_absent by assumption.
  unfold JsMap.values. now rewrite map_app.
Qed.

Lemma find_app p (l1 l2 : list V) :
  find p (l1 ++ l2)
  = match find p l1 with Some x => Some x | None => find p l2 end.
Proof.
  induction l1 as [|a l1 IH]; simpl; auto. destruct (p a); auto.
Qed.

(** A record filed under a fresh key never hides an older match. *)
Lemma find_set_fresh p k v m :
  ~ In k (JsMap.keys m) ->
  JsMap.find p (JsMap.set k v m)
  = match JsMap.find p m with
    | Some x => Some x
    | None => if p v then Some v else None
    end.
Proof.
  intros H. unfold JsMap.find. rewrite values_set_fresh by assumption.
  rewrite find_app. simpl. destruct (p v); reflexivity.
Qed.

Lemma find_set_None p k v m :
  JsMap.find p m = None -> p v = true ->
  JsMap.find p (JsMap.set k v m) = Some v.
Proof.
  unfold JsMap.find. intros Hnone Hp.
  induction m as [|[k0 v0] r IH]; simpl in *.
  - now rewrite Hp.
  - destruct (p v0) eqn:E0; [discriminate|].
    destruct (k =? k0); simpl; [now rewrite Hp|]. rewrite E0. auto.
Qed.

Lemma filter_values_set_fresh p k v m :
  ~ In k (JsMap.keys m) ->
  filter p (JsMap.values (JsMap.set k v m))
  = filter p (JsMap.values m) ++ (if p v then [v] else []).
Proof.
  intros H. rewrite values_set_fresh by assumption.
  rewrite filter_app. simpl. destruct (p v); reflexivity.
Qed.

Lemma remove_remove k m : JsMap.remove k (JsMap.remove k m) = JsMap.remove k m.
Proof.
  unfold JsMap.remove. induction m as [|[k0 v0] r IH]; simpl; auto.
  destruct (k0 =? k) eqn:E; simpl; auto. now rewrite E, IH.
Qed.

Lemma has_remove k m : JsMap.has k (JsMap.remove k m) = false.
Proof. unfold JsMap.has. now rewrite JsMapFacts.get_remove_same. Qed.

Lemma get_mutate_same k f m v :
  JsMap.get k m = Some v -> JsMap.get k (JsMap.mutate k f m) = Some (f v).
Proof.
  induction m as [|[k0 v0] r IH]; simpl; [discriminate|].
  destruct (k =? k0) eqn:E; simpl; rewrite E; auto.
  now intros [= ->].
Qed.

Lemma get_mutate_other k k' f m :
  k <> k' -> JsMap.get k' (JsMap.mutate k f m) = JsMap.get k' m.
Proof.
  intros Hne. induction m as [|[k0 v0] r IH]; simpl; auto.
  destruct (k =? k0) eqn:E; simpl.
  - apply Z.eqb_eq in E. subst k0.
    destruct (k' =? k) eqn:E'; auto. apply Z.eqb_eq in E'. congruence.
  - now rewrite IH.
Qed.
End MoreMapFacts.

Lemma counter_run k calls s : counter k s <= counter k (run calls s).
Proof.
  revert s. induction calls as [|c rest IH]; intros s; simpl; [lia|].
  pose proof (counter_step c s k). specialize (IH (step c s)). lia.
Qed.

Lemma reachable_counter k s : reachable s -> 1 <= counter k s.
Proof.
  intros (clk & calls & <-).
  pose proof (counter_run k calls (constructor clk)) as H.
  assert (H1 : 1 <= counter k (constructor clk))
    by (destruct k; vm_compute; discriminate).
  lia.
Qed.

Lemma reachable_seeded : reachable seeded.
Proof. exists clock0, []. unfold seeded. reflexivity. Qed.

(** ** Lookups by alternate key after a create *)

(** X1.  The store checks no uniqueness: [createUser] always stores the
    new user.  In a reachable store the user that [getUserByUsername] (or
    [getUserByEmail]) found before the call is still the one found after
    it; the new user is found only under a username (email) that nobody
    held. *)
Theorem createUser_first_wins user now s :
  reachable s ->
  getUser (User.id (fst (createUser user now s))) (snd (createUser user now s))
  = Some (fst (createUser user now s)) /\
  (forall username,
      getUserByUsername username (snd (createUser user now s))
      = match getUserByUsername username s with
        | Some older => Some older
        | None =>
            if String.eqb (InsertUser.username user) username
            then Some (fst (createUser user now s)) else None
        end) /\
  (forall email,
      getUserByEmail email (snd (createUser user now s))
      = match getUserByEmail email s with
        | Some older => Some older
        | None =>
            if String.eqb (InsertUser.email user) email
            then Some (fst (createUser user now s)) else None
        end).
Proof.
  intros Hr. apply reachable_Inv in Hr. destruct Hr as [Hu].
  apply below_fresh in Hu.
  unfold getUser, getUserByUsername, getUserByEmail, createUser.
  cbn [fst snd users set_users set_userId User.id].
  split; [apply JsMapFacts.get_set_same|].
  split; intros x; rewrite find_set_fresh by assumption; reflexivity.
Qed.

Lemma createUser_first_wins_witness :
  reachable seeded /\
  option_map User.id
    (getUserByUsername "admin" (snd (createUser impostor 7 seeded)))
  = Some 1 /\
  option_map User.id
    (getUserByUsername "maria" (snd (createUser newcomer 7 seeded)))
  = Some 4.
Proof.
  split; [exact reachable_seeded|].
  destruct (createUser_first_wins impostor 7 seeded reachable_seeded)
    as (_ & H1 & _).
  destruct (createUser_first_wins newcomer 7 seeded reachable_seeded)
    as (_ & H2 & _).
  split.
  - rewrite (H1 "admin").
    assert (E : option_map User.id (getUserByUsername "admin" seeded) = Some 1)
      by (vm_compute; reflexivity).
    destruct (getUserByUsername "admin" seeded); [exact E | discriminate E].
  - rewrite (H2 "maria").
    assert (E : getUserByUsername "maria" seeded = None)
      by (vm_compute; reflexivity).
    rewrite E. vm_compute. reflexivity.
Defined.

(** X2.  [createStore] checks no slug: in a reachable store the store
    that [getStoreBySlug] found before the call is still the one found
    after it; the new store is found only under a slug that no store
    held, and never under the empty slug, which is stored as [null]. *)
Theorem createStore_slug_first_wins store now1 now2 s slug :
  reachable s ->
  getStoreBySlug slug (snd (createStore store now1 now2 s))
  = match getStoreBySlug slug s with
    | Some older => Some older
    | None =>
        match InsertStore.slug store with
        | Some x =>
            if String.eqb x slug && negb (String.eqb slug "")
            then Some (fst (createStore store now1 now2 s)) else None
        | None => None
        end
    end.
Proof.
  intros Hr. apply reachable_Inv in Hr. destruct Hr as [_ Hs].
  apply below_fresh in Hs.
  unfold getStoreBySlug, createStore.
  cbn [fst snd stores set_stores set_storeId].
  rewrite find_set_fresh by assumption.
  destruct (JsMap.find (slugIs slug) (stores s)); auto.
  unfold slugIs at 1. cbn [Store.slug]. unfold or_null_string.
  destruct (InsertStore.slug store) as [x|]; auto.
  destruct (String.eqb x "") eqn:Ex.
  - apply String.eqb_eq in Ex. subst x.
    destruct (String.eqb "" slug) eqn:E; auto.
    apply String.eqb_eq in E. subst slug. reflexivity.
  - destruct (String.eqb x slug) eqn:E; auto.
    apply String.eqb_eq in E. subst slug. now rewrite Ex.
Qed.

Lemma createStore_slug_first_wins_witness :
  reachable seeded /\
  option_map Store.id
    (getStoreBySlug "moments" (snd (createStore sameSlugStore 7 8 seeded)))
  = Some 1 /\
  getStoreBySlug "" (snd (createStore emptySlugStore 7 8 seeded)) = None.
Proof.
  split; [exact reachable_seeded|].
  rewrite (createStore_slug_first_wins sameSlugStore 7 8 seeded "moments"
             reachable_seeded).
  rewrite (createStore_slug_first_wins emptySlugStore 7 8 seeded ""
             reachable_seeded).
  split.
  - assert (E : option_map Store.id (getStoreBySlug "moments" seeded) = Some 1)
      by (vm_compute; reflexivity).
    destruct (getStoreBySlug "moments" seeded); [exact E | discriminate E].
  - assert (E : getStoreBySlug "" seeded = None) by (vm_compute; reflexivity).
    rewrite E. reflexivity.
Defined.

(** X3.  [createCart] does not look for a cart of the same customer at
    the same store: in a reachable store a second cart for the pair is
    stored under its own id, and [getCartByCustomer] keeps returning the
    older one. *)
Theorem createCart_first_wins cart now s customerId storeId :
  reachable s ->
  getCart (Cart.id (fst (createCart cart now s))) (snd (createCart cart now s))
  = Some (fst (createCart cart now s)) /\
  getCartByCustomer customerId storeId (snd (createCart cart now s))
  = match getCartByCustomer customerId storeId s with
    | Some older => Some older
    | None =>
        if (InsertCart.customerId cart =? customerId)
           && (InsertCart.storeId cart =? storeId)
        then Some (fst (createCart cart now s)) else None
    end.
Proof.
  intros Hr. apply reachable_Inv in Hr. destruct Hr as [_ _ _ _ _ Hc].
  apply below_fresh in Hc.
  unfold getCart, getCartByCustomer, createCart.
  cbn [fst snd carts set_carts set_cartId Cart.id].
  split; [apply JsMapFacts.get_set_same|].
  rewrite find_set_fresh by assumption. reflexivity.
Qed.

Lemma createCart_first_wins_witness :
  reachable withCart /\
  option_map Cart.id
    (getCartByCustomer 1 1
       (snd (createCart (InsertCart.mk 1 1) 200 withCart)))
  = Some 1 /\
  Cart.id (fst (createCart (InsertCart.mk 1 1) 200 withCart)) = 2.
Proof.
  assert (Hr : reachable withCart)
    by (exists clock0, cartHistory; unfold withCart, seeded; reflexivity).
  split; [exact Hr|].
  destruct (createCart_first_wins (InsertCart.mk 1 1) 200 withCart 1 1 Hr)
    as [_ H].
  split; [|vm_compute; reflexivity].
  rewrite H.
  assert (E : option_map Cart.id (getCartByCustomer 1 1 withCart) = Some 1)
    by (vm_compute; reflexivity).
  destruct (getCartByCustomer 1 1 withCart); [exact E | discriminate E].
Defined.

(** ** Deleting stores, categories and products *)

(** X4.  [deleteStore], [deleteCategory] and [deleteProduct] report
    whether the record was there, leave the id without a record and every
    other id as it was; a second delete of the same id reports [false] and
    changes nothing. *)
Theorem delete_reports_presence id s :
  (fst (deleteStore id s) = JsMap.has id (stores s) /\
   getStore id (snd (deleteStore id s)) = None /\
   (forall k, k <> id -> getStore k (snd (deleteStore id s)) = getStore k s) /\
   deleteStore id (snd (deleteStore id s)) = (false, snd (deleteStore id s)))
  /\
  (fst (deleteCategory id s) = JsMap.has id (categories s) /\
   getCategory id (snd (deleteCategory id s)) = None /\
   (forall k, k <> id ->
              getCategory k (snd (deleteCategory id s)) = getCategory k s) /\
   deleteCategory id (snd (deleteCategory id s))
   = (false, snd (deleteCategory id s)))
  /\
  (fst (deleteProduct id s) = JsMap.has id (products s) /\
   getProduct id (snd (deleteProduct id s)) = None /\
   (forall k, k <> id ->
              getProduct k (snd (deleteProduct id s)) = getProduct k s) /\
   deleteProduct id (snd (deleteProduct id s))
   = (false, snd (deleteProduct id s))).
Proof.
  unfold deleteStore, deleteCategory, deleteProduct,
    getStore, getCategory, getProduct, JsMap.delete.
  cbn [fst snd stores set_stores categories set_categories
       products set_products].
  repeat split;
    try apply JsMapFacts.get_remove_same;
    try (intros k Hk; apply JsMapFacts.get_remove_other; congruence);
    rewrite has_remove, remove_remove; reflexivity.
Qed.

(** X5.  No delete cascades.  [deleteStore] leaves the products, the
    categories and the shop owners of the store where they are: the
    listings by store id are unchanged, the owner's profile is still
    found, and [getStoreByOwner] of an owner of the deleted store finds
    nothing.  [deleteCategory] leaves every product, and [deleteProduct]
    every cart item. *)
Theorem delete_never_cascades id s :
  (forall x, getProducts x (snd (deleteStore id s)) = getProducts x s) /\
  (forall x, getCategories x (snd (deleteStore id s)) = getCategories x s) /\
  (forall userId,
      getShopOwnerByUserId userId (snd (deleteStore id s))
      = getShopOwnerByUserId userId s) /\
  (forall userId owner,
      getShopOwnerByUserId userId s = Some owner ->
      ShopOwner.storeId owner = Some id ->
      getStoreByOwner userId (snd (deleteStore id s)) = None) /\
  (forall x, getProducts x (snd (deleteCategory id s)) = getProducts x s) /\
  (forall x, getCartItems x (snd (deleteProduct id s)) = getCartItems x s).
Proof.
  repeat split; try reflexivity.
  intros userId owner Hfind Hstore.
  unfold getStoreByOwner, getShopOwnerByUserId, findShopOwnerByUserId,
    deleteStore, JsMap.delete in *.
  cbn [fst snd stores set_stores shopOwners].
  destruct (JsMap.find _ (shopOwners s)) as [found|]; [|discriminate].
  injection Hfind as ->. rewrite Hstore.
  destruct (id =? 0); auto. apply JsMapFacts.get_remove_same.
Qed.

Lemma delete_never_cascades_witness :
  getShopOwnerByUserId 2 seeded = Some seededOwner /\
  ShopOwner.storeId seededOwner = Some 1 /\
  getStoreByOwner 2 (snd (deleteStore 1 seeded)) = None /\
  List.length (getProducts (Some 1) (snd (deleteStore 1 seeded))) = 6%nat.
Proof.
  assert (E : getShopOwnerByUserId 2 seeded = Some seededOwner)
    by (vm_compute; reflexivity).
  split; [exact E|]. split; [reflexivity|].
  destruct (delete_never_cascades 1 seeded) as (Hp & _ & _ & Hdangling & _).
  split; [exact (Hdangling 2 seededOwner E eq_refl)|].
  rewrite (Hp (Some 1)). vm_compute. reflexivity.
Defined.

(** ** Listings after a create *)

Lemma touchCart_cartItems cartId now s :
  cartItems (touchCart cartId now s) = cartItems s.
Proof.
  destruct (touchCart_shape cartId now s) as (m & -> & _). reflexivity.
Qed.

(** X6.  In a reachable store a create puts the new record at the end of
    its collection, so a listing by foreign key grows by the new record at
    its end when the key matches and is unchanged otherwise: for
    [getCategories] by store, [getProducts] by a store other than 0,
    [getCartItems] by cart and [getOrderItems] by order.  Whether the
    store, the cart or the order exists is never looked at. *)
Theorem listings_grow_at_the_end s x :
  reachable s ->
  (forall category now,
      getCategories x (snd (createCategory category now s))
      = getCategories x s
        ++ (if InsertCategory.storeId category =? x
            then [fst (createCategory category now s)] else [])) /\
  (forall product now,
      x <> 0 ->
      getProducts (Some x) (snd (createProduct product now s))
      = getProducts (Some x) s
        ++ (if InsertProduct.storeId product =? x
            then [fst (createProduct product now s)] else [])) /\
  (forall cartItem now,
      getCartItems x (snd (createCartItem cartItem now s))
      = getCartItems x s
        ++ (if InsertCartItem.cartId cartItem =? x
            then [fst (createCartItem cartItem now s)] else [])) /\
  (forall orderItem,
      getOrderItems x (snd (createOrderItem orderItem s))
      = getOrderItems x s
        ++ (if InsertOrderItem.orderId orderItem =? x
            then [fst (createOrderItem orderItem s)] else [])).
Proof.
  intros Hr. apply reachable_Inv in Hr.
  destruct Hr as [_ _ Hc Hp _ _ Hci _ Hoi _ _ _ _].
  apply below_fresh in Hc, Hp, Hci, Hoi.
  split; [|split; [|split]].
  - intros category now. unfold getCategories, createCategory.
    cbn [fst snd categories set_categories set_categoryId].
    now rewrite filter_values_set_fresh.
  - intros product now Hx. rewrite !getProducts_filter by assumption.
    unfold createProduct. cbn [fst snd products set_products set_productId].
    now rewrite filter_values_set_fresh.
  - intros cartItem now. unfold getCartItems, createCartItem.
    cbn [fst snd]. rewrite touchCart_cartItems.
    cbn [cartItems set_cartItems set_cartItemId].
    now rewrite filter_values_set_fresh.
  - intros orderItem. unfold getOrderItems, createOrderItem.
    cbn [fst snd orderItems set_orderItems set_orderItemId].
    now rewrite filter_values_set_fresh.
Qed.

Lemma listings_grow_at_the_end_witness :
  reachable seeded /\
  map Category.id
    (getCategories 1
       (snd (createCategory (InsertCategory.mk "Maquiagem" 1) 7 seeded)))
  = [1; 2; 3; 4; 5] /\
  getOrderItems 9
    (snd (createOrderItem (InsertOrderItem.mk 9 "Batom" 19.5 2) seeded))
  = [OrderItem.mk 1 9 "Batom" 19.5 2].
Proof.
  split; [exact reachable_seeded|].
  destruct (listings_grow_at_the_end seeded 1 reachable_seeded) as (H1 & _).
  destruct (listings_grow_at_the_end seeded 9 reachable_seeded)
    as (_ & _ & _ & H4).
  split.
  - rewrite (H1 (InsertCategory.mk "Maquiagem" 1) 7). rewrite map_app.
    assert (E : map Category.id (getCategories 1 seeded) = [1; 2; 3; 4])
      by (vm_compute; reflexivity).
    rewrite E. vm_compute. reflexivity.
  - rewrite (H4 (InsertOrderItem.mk 9 "Batom" 19.5 2)).
    assert (E : getOrderItems 9 seeded = []) by (vm_compute; reflexivity).
    rewrite E. vm_compute. reflexivity.
Defined.

(** ** Orders by store and customer *)

(** X7.  [getOrders] applies each filter whose argument is a number other
    than 0, and both when both are: an order is listed exactly when it is
    stored and matches every such argument; an order without customer
    matches no customer id.  An argument that is omitted or 0 filters
    nothing, so [getOrders(0, 0)] lists every order. *)
Theorem getOrders_filters storeId customerId s order :
  (In order (getOrders storeId customerId s) <->
   In order (JsMap.values (orders s)) /\
   (forall x, storeId = Some x -> x <> 0 -> Order.storeId order = x) /\
   (forall y, customerId = Some y -> y <> 0 ->
              Order.customerId order = Some y)) /\
  getOrders (Some 0) (Some 0) s = JsMap.values (orders s).
Proof.
  split; [|reflexivity].
  unfold getOrders, truthy_number, customerIs.
  destruct storeId as [x|], customerId as [y|]; simpl;
    repeat match goal with
           | |- context [?a =? 0] =>
               let E := fresh "E" in destruct (a =? 0) eqn:E
           end;
    simpl; rewrite ?filter_In; (split; [intros H | intros (Hin & Hs & Hc)]).
  all: repeat match goal with
         | H : _ /\ _ |- _ => destruct H
         | H : (_ =? _) = true |- _ => apply Z.eqb_eq in H
         | H : (_ =? _) = false |- _ => apply Z.eqb_neq in H
         | H : match Order.customerId ?o with _ => _ end = true |- _ =>
             destruct (Order.customerId o); [|discriminate H]
         end.
  all: repeat split; auto; try discriminate.
  all: try (intros ? [= <-] ?; congruence).
  all: try (apply Z.eqb_eq; auto).
  all: try (rewrite (Hc _ eq_refl) by assumption; apply Z.eqb_refl).
Qed.

(** ** Cart items and the cart's timestamp *)

Lemma touchCart_found cartId now s cart :
  keyed Cart.id (carts s) ->
  JsMap.get cartId (carts s) = Some cart ->
  touchCart cartId now s
  = set_carts s
      (JsMap.set cartId (touch now cart)
         (JsMap.mutate cartId (touch now) (carts s))).
Proof.
  intros Hk Hget. unfold touchCart. rewrite Hget.
  rewrite touch_id, (keyed_get _ _ _ _ Hk Hget). reflexivity.
Qed.

Lemma touchCart_getCart cartId now s cart :
  keyed Cart.id (carts s) ->
  getCart cartId s = Some cart ->
  getCart cartId (touchCart cartId now s) = Some (touch now cart) /\
  (forall k, k <> cartId -> getCart k (touchCart cartId now s) = getCart k s).
Proof.
  unfold getCart. intros Hk Hget.
  rewrite (touchCart_found _ _ _ _ Hk Hget). cbn [carts set_carts]. split.
  - apply JsMapFacts.get_set_same.
  - intros k Hne. rewrite JsMapFacts.get_set_other by congruence.
    apply get_mutate_other. congruence.
Qed.

Lemma touchCart_absent cartId now s :
  getCart cartId s = None -> touchCart cartId now s = s.
Proof. unfold getCart, touchCart. now intros ->. Qed.

(** X8.  In a reachable store every write to a cart item stamps its cart:
    [createCartItem], [updateCartItem] and [deleteCartItem] write the
    item (stored under the next id, stored with the new quantity, removed)
    and leave the item's cart with its [id], [customerId], [storeId] and
    [createdAt] and with [updatedAt] at the time of the call; every other
    cart is as it was.  When the item's cart does not exist the item is
    written all the same and the carts are left as they were. *)
Theorem cart_item_writes_touch_cart s cartId now :
  reachable s ->
  let stamped :=
    option_map
      (fun cart =>
         Cart.mk (Cart.id cart) (Cart.customerId cart) (Cart.storeId cart)
           (Cart.createdAt cart) now)
      (getCart cartId s) in
  (forall cartItem,
      InsertCartItem.cartId cartItem = cartId ->
      let s' := snd (createCartItem cartItem now s) in
      fst (createCartItem cartItem now s)
      = CartItem.mk (cartItemId s) cartId
          (InsertCartItem.productId cartItem)
          (InsertCartItem.quantity cartItem) /\
      getCartItem (cartItemId s) s' = Some (fst (createCartItem cartItem now s))
      /\
      (forall k, getCart k s' = if k =? cartId then stamped else getCart k s) /\
      (getCart cartId s = None -> carts s' = carts s)) /\
  (forall id existing quantity,
      getCartItem id s = Some existing ->
      CartItem.cartId existing = cartId ->
      let s' := snd (updateCartItem id quantity now s) in
      getCartItem id s'
      = Some (CartItem.mk (CartItem.id existing) cartId
                (CartItem.productId existing) quantity) /\
      (forall k, getCart k s' = if k =? cartId then stamped else getCart k s) /\
      (getCart cartId s = None -> carts s' = carts s)) /\
  (forall id existing,
      getCartItem id s = Some existing ->
      CartItem.cartId existing = cartId ->
      let s' := snd (deleteCartItem id now s) in
      fst (deleteCartItem id now s) = true /\
      getCartItem id s' = None /\
      (forall k, getCart k s' = if k =? cartId then stamped else getCart k s) /\
      (getCart cartId s = None -> carts s' = carts s)).
Proof.
  intros Hr. cbv zeta. apply reachable_Inv in Hr.
  destruct Hr as [_ _ _ _ _ _ _ _ _ Kca _ _ _].
  change (fun cart : Cart.t =>
            Cart.mk (Cart.id cart) (Cart.customerId cart) (Cart.storeId cart)
              (Cart.createdAt cart) now) with (touch now).
  assert (Htouch : forall s0 k,
             carts s0 = carts s ->
             getCart k (touchCart cartId now s0)
             = if k =? cartId then option_map (touch now) (getCart cartId s)
               else getCart k s).
  { intros s0 k Hsame.
    assert (Hk0 : keyed Cart.id (carts s0)) by now rewrite Hsame.
    assert (Hg : forall j, getCart j s0 = getCart j s)
      by (intros j; unfold getCart; now rewrite Hsame).
    destruct (getCart cartId s) as [cart|] eqn:E.
    - rewrite <- Hg in E.
      destruct (touchCart_getCart cartId now s0 cart Hk0 E) as [H1 H2].
      destruct (k =? cartId) eqn:Ek.
      + apply Z.eqb_eq in Ek. subst k. exact H1.
      + apply Z.eqb_neq in Ek. rewrite H2 by assumption. apply Hg.
    - rewrite <- Hg in E. rewrite (touchCart_absent _ _ _ E).
      destruct (k =? cartId) eqn:Ek.
      + apply Z.eqb_eq in Ek. subst k. exact E.
      + apply Hg. }
  assert (Habsent : forall s0,
             carts s0 = carts s -> getCart cartId s = None ->
             carts (touchCart cartId now s0) = carts s).
  { intros s0 Hsame Hnone. rewrite touchCart_absent; auto.
    unfold getCart in *. now rewrite Hsame. }
  split; [|split].
  - intros cartItem <-. unfold createCartItem. cbn [fst snd].
    split; [reflexivity|]. split; [|split].
    + unfold getCartItem. rewrite touchCart_cartItems.
      cbn [cartItems set_cartItems set_cartItemId].
      apply JsMapFacts.get_set_same.
    + intros k. now apply Htouch.
    + now apply Habsent.
  - intros id existing quantity Hget <-.
    unfold getCartItem in Hget. unfold updateCartItem. rewrite Hget.
    cbn [fst snd]. split; [|split].
    + unfold getCartItem. rewrite touchCart_cartItems.
      cbn [cartItems set_cartItems]. apply JsMapFacts.get_set_same.
    + intros k. now apply Htouch.
    + now apply Habsent.
  - intros id existing Hget <-.
    unfold getCartItem in Hget. unfold deleteCartItem. rewrite Hget.
    unfold JsMap.delete. cbn [fst snd]. split; [|split; [|split]].
    + rewrite touchCart_cartItems. unfold JsMap.has. now rewrite Hget.
    + unfold getCartItem. cbn [cartItems set_cartItems].
      apply JsMapFacts.get_remove_same.
    + intros k. unfold getCart at 1. cbn [carts]. now apply Htouch.
    + cbn [carts]. now apply Habsent.
Qed.

Lemma cart_item_writes_touch_cart_witness :
  reachable withCart /\
  getCart 1 withCart = Some (Cart.mk 1 1 1 100 102) /\
  getCart 1 (snd (updateCartItem 1 5 300 withCart))
  = Some (Cart.mk 1 1 1 100 300) /\
  getCartItem 1 (snd (updateCartItem 1 5 300 withCart))
  = Some (CartItem.mk 1 1 1 5) /\
  getCart 9 withCart = None /\
  getCartItem 3 (snd (createCartItem (InsertCartItem.mk 9 1 1) 300 withCart))
  = Some (CartItem.mk 3 9 1 1) /\
  carts (snd (createCartItem (InsertCartItem.mk 9 1 1) 300 withCart))
  = carts withCart.
Proof.
  assert (Hr : reachable withCart)
    by (exists clock0, cartHistory; unfold withCart, seeded; reflexivity).
  assert (Ei : getCartItem 1 withCart = Some (CartItem.mk 1 1 1 2))
    by (vm_compute; reflexivity).
  assert (Ec : getCart 1 withCart = Some (Cart.mk 1 1 1 100 102))
    by (vm_compute; reflexivity).
  assert (E9 : getCart 9 withCart = None) by (vm_compute; reflexivity).
  assert (En : cartItemId withCart = 3) by (vm_compute; reflexivity).
  split; [exact Hr|]. split; [exact Ec|].
  destruct (cart_item_writes_touch_cart withCart 1 300 Hr) as (_ & H & _).
  destruct (H 1 (CartItem.mk 1 1 1 2) 5 Ei eq_refl) as (Hitem & Hcart & _).
  split; [rewrite (Hcart 1), Ec; reflexivity|]. split; [exact Hitem|].
  split; [exact E9|].
  destruct (cart_item_writes_touch_cart withCart 9 300 Hr) as (Hc & _).
  destruct (Hc (InsertCartItem.mk 9 1 1) eq_refl) as (Hfst & Hget & _ & Hsame).
  rewrite En in Hfst, Hget. rewrite Hfst in Hget.
  split; [exact Hget | exact (Hsame E9)].
Defined.

(** X9.  [updateCartItem] replaces the quantity and nothing else: the
    item keeps its [id], [cartId] and [productId], stays under its id, and
    no other item changes.  The quantity is stored as given, whatever its
    sign. *)
Theorem updateCartItem_sets_quantity id quantity now s existing :
  getCartItem id s = Some existing ->
  fst (updateCartItem id quantity now s)
  = Some (CartItem.mk (CartItem.id existing) (CartItem.cartId existing)
            (CartItem.productId existing) quantity) /\
  getCartItem id (snd (updateCartItem id quantity now s))
  = fst (updateCartItem id quantity now s) /\
  (forall k, k <> id ->
             getCartItem k (snd (updateCartItem id quantity now s))
             = getCartItem k s) /\
  JsMap.keys (cartItems (snd (updateCartItem id quantity now s)))
  = JsMap.keys (cartItems s).
Proof.
  unfold getCartItem. intros Hget. unfold updateCartItem. rewrite Hget.
  cbn [fst snd]. rewrite touchCart_cartItems. cbn [cartItems set_cartItems].
  split; [reflexivity|]. split; [apply JsMapFacts.get_set_same|]. split.
  - intros k Hne. apply JsMapFacts.get_set_other. congruence.
  - apply JsMapFacts.keys_set_present.
    apply JsMapFacts.get_Some_In in Hget.
    apply (in_map fst) in Hget. exact Hget.
Qed.

Lemma updateCartItem_sets_quantity_witness :
  getCartItem 1 withCart = Some (CartItem.mk 1 1 1 2) /\
  fst (updateCartItem 1 (-3) 300 withCart) = Some (CartItem.mk 1 1 1 (-3)).
Proof.
  assert (Ei : getCartItem 1 withCart = Some (CartItem.mk 1 1 1 2))
    by (vm_compute; reflexivity).
  split; [exact Ei|].
  exact (proj1 (updateCartItem_sets_quantity 1 (-3) 300 withCart _ Ei)).
Defined.

(** X10.  [deleteCartItem] of an absent id reports [false] and leaves the
    store as it was; of a present id it reports [true], leaves the id
    without an item and every other item as it was. *)
Theorem deleteCartItem_effect id now s :
  (getCartItem id s = None -> deleteCartItem id now s = (false, s)) /\
  (forall existing,
      getCartItem id s = Some existing ->
      fst (deleteCartItem id now s) = true /\
      getCartItem id (snd (deleteCartItem id now s)) = None /\
      (forall k, k <> id ->
                 getCartItem k (snd (deleteCartItem id now s))
                 = getCartItem k s)).
Proof.
  unfold getCartItem. split.
  - intros Hget. unfold deleteCartItem. now rewrite Hget.
  - intros existing Hget. unfold deleteCartItem. rewrite Hget.
    unfold JsMap.delete. cbn [fst snd]. rewrite touchCart_cartItems.
    cbn [cartItems set_cartItems].
    split; [unfold JsMap.has; now rewrite Hget|].
    split; [apply JsMapFacts.get_remove_same|].
    intros k Hne. apply JsMapFacts.get_remove_other. congruence.
Qed.

(** ** Rejections of the billing linkage *)

(** X12.  [updateStripeCustomerId] rejects exactly when no user has the
    id, with the message "Usuário não encontrado"; it then has changed
    nothing.  For a user without a shop owner it resolves to the user and
    leaves the store as it was; the user record itself is never written. *)
Theorem updateStripeCustomerId_rejection userId stripeCustomerId s :
  (getUser userId s = None <->
   exists message,
     updateStripeCustomerId userId stripeCustomerId s = Throw message) /\
  (getUser userId s = None ->
   updateStripeCustomerId userId stripeCustomerId s
   = Throw "Usuário não encontrado") /\
  (forall user,
      getUser userId s = Some user ->
      getShopOwnerByUserId userId s = None ->
      updateStripeCustomerId userId stripeCustomerId s = Return user s) /\
  users (settled s (updateStripeCustomerId userId stripeCustomerId s))
  = users s.
Proof.
  split; [|split; [|split]].
  - split.
    + intros H. eexists. now apply updateStripeCustomerId_no_user.
    + intros [message H]. unfold updateStripeCustomerId in H.
      destruct (getUser userId s); auto.
      destruct (findShopOwnerByUserId userId s); discriminate.
  - apply updateStripeCustomerId_no_user.
  - intros user. apply updateStripeCustomerId_no_owner.
  - unfold updateStripeCustomerId.
    destruct (getUser userId s); auto.
    destruct (findShopOwnerByUserId userId s); reflexivity.
Qed.

(** ** Records under their own id *)

(** X13.  In a reachable store a product, a cart or a cart item is stored
    under its own id: a lookup by id returns a record with that id, and
    the id is one the counter has already passed. *)
Theorem stored_under_own_id id s :
  reachable s ->
  (forall product, getProduct id s = Some product ->
                   Product.id product = id /\ id < productId s) /\
  (forall cart, getCart id s = Some cart ->
                Cart.id cart = id /\ id < cartId s) /\
  (forall cartItem, getCartItem id s = Some cartItem ->
                    CartItem.id cartItem = id /\ id < cartItemId s).
Proof.
  intros Hr. apply reachable_Inv in Hr. destruct Hr.
  unfold getProduct, getCart, getCartItem.
  repeat split; eauto using keyed_get, below_get.
Qed.

Lemma stored_under_own_id_witness :
  reachable withCart /\
  getCartItem 2 withCart = Some (CartItem.mk 2 1 3 1) /\
  CartItem.id (CartItem.mk 2 1 3 1) = 2 /\ 2 < cartItemId withCart.
Proof.
  assert (Hr : reachable withCart)
    by (exists clock0, cartHistory; unfold withCart, seeded; reflexivity).
  assert (Ei : getCartItem 2 withCart = Some (CartItem.mk 2 1 3 1))
    by (vm_compute; reflexivity).
  split; [exact Hr|]. split; [exact Ei|].
  exact (proj2 (proj2 (stored_under_own_id 2 withCart Hr)) _ Ei).
Defined.

(** * Authentication and access control

    ** Role checks *)

(** X14.  The role checks are nested: whoever passes [isAdmin] passes
    [isShopOwner], whoever passes [isShopOwner] passes [isCustomer], and
    whoever passes [isCustomer] is authenticated.  An administrator passes
    all of them.  A request without a session is answered 401 by
    [isAuthenticated] and 403 by the three role checks. *)
Theorem role_checks_are_nested (req : session) :
  (isAdmin req = Next -> isShopOwner req = Next) /\
  (isShopOwner req = Next -> isCustomer req = Next) /\
  (isCustomer req = Next -> isAuthenticated req = Next) /\
  (forall user, req = Some user -> User.role user = "admin" ->
                isAdmin req = Next) /\
  (req = None ->
   (exists e, isAuthenticated req = Status 401 e) /\
   (exists e, isAdmin req = Status 403 e) /\
   (exists e, isShopOwner req = Status 403 e) /\
   (exists e, isCustomer req = Status 403 e)).
Proof.
  destruct req as [user|].
  - unfold isAdmin, isShopOwner, isCustomer, isAuthenticated.
    destruct (String.eqb (User.role user) "admin") eqn:Ha,
      (String.eqb (User.role user) "shopowner") eqn:Hs,
      (String.eqb (User.role user) "customer") eqn:Hc; cbn;
      (split; [|split; [|split; [|split]]]); auto; try discriminate.
    all: intros u [= <-] Hrole; rewrite Hrole in Ha; discriminate.
  - (split; [|split; [|split; [|split]]]); try discriminate.
    intros _. repeat split; eexists; reflexivity.
Qed.

(** X15.  [hasActiveSubscription] does not look at the subscription: a
    shop owner whose profile exists passes whatever the status of the
    subscription, expired included, and an administrator passes without a
    profile.  The middleware answers 401 or 403 and never 402. *)
Theorem hasActiveSubscription_ignores_status (req : session) (s : MemStorage) :
  (forall user owner,
      req = Some user -> User.role user = "shopowner" ->
      getShopOwnerByUserId (User.id user) s = Some owner ->
      hasActiveSubscription req s = Next) /\
  (forall user, req = Some user -> User.role user = "admin" ->
                hasActiveSubscription req s = Next) /\
  (forall code error,
      hasActiveSubscription req s = Status code error ->
      code = 401 \/ code = 403).
Proof.
  unfold hasActiveSubscription. split; [|split].
  - intros user owner -> Hrole Hown. rewrite Hrole, Hown. reflexivity.
  - intros user -> Hrole. rewrite Hrole. reflexivity.
  - intros code error. destruct req as [user|]; [|intros [= <- _]; auto].
    destruct (String.eqb (User.role user) "admin"); [discriminate|].
    destruct (negb (String.eqb (User.role user) "shopowner"));
      [intros [= <- _]; auto|].
    destruct (getShopOwnerByUserId (User.id user) s);
      [discriminate | intros [= <- _]; auto].
Qed.

Lemma hasActiveSubscription_ignores_status_witness :
  option_map ShopOwner.subscriptionStatus
    (getShopOwnerByUserId (User.id lojista) lapsed)
  = Some SubscriptionStatus.expired /\
  hasActiveSubscription (Some lojista) lapsed = Next.
Proof.
  assert (E : option_map ShopOwner.subscriptionStatus
                (getShopOwnerByUserId (User.id lojista) lapsed)
              = Some SubscriptionStatus.expired)
    by (vm_compute; reflexivity).
  split; [exact E|].
  destruct (getShopOwnerByUserId (User.id lojista) lapsed) as [owner|] eqn:Eo;
    [|discriminate E].
  exact (proj1 (hasActiveSubscription_ignores_status (Some lojista) lapsed)
           lojista owner eq_refl eq_refl Eo).
Defined.

(** ** Passwords *)

(** X16.  For a stored password in bcrypt format ("$2b$...") the hash is
    never compared: [comparePasswords] accepts exactly the three demo
    passwords, whichever account the hash belongs to.  So [verify] logs
    any user with such a hash in under any of the three, and under nothing
    else; the scrypt comparison plays no part. *)
Theorem bcrypt_hashes_accept_demo_passwords scryptMatches supplied stored :
  String.prefix "$2b$" stored = true ->
  comparePasswords scryptMatches supplied stored = demoPassword supplied /\
  (forall username s user,
      getUserByUsername username s = Some user ->
      User.password user = stored ->
      verify scryptMatches username supplied s
      = if demoPassword supplied then Some user else None).
Proof.
  intros Hp. unfold comparePasswords. rewrite Hp. split; [reflexivity|].
  intros username s user Hu Hpw. unfold verify, comparePasswords.
  rewrite Hu, Hpw, Hp. fold (demoPassword supplied).
  destruct (demoPassword supplied); reflexivity.
Qed.

Lemma bcrypt_hashes_accept_demo_passwords_witness :
  String.prefix "$2b$"
    "$2b$10$Fh6MUHRGJDQgFRREWjGwH.zoD5mTJo/LP91zhcGWHYpO7sHBUj6T." = true /\
  option_map User.role (verify noScrypt "admin" "cliente123" seeded)
  = Some "admin" /\
  verify noScrypt "admin" "admin124" seeded = None.
Proof.
  assert (Hp : String.prefix "$2b$"
                 "$2b$10$Fh6MUHRGJDQgFRREWjGwH.zoD5mTJo/LP91zhcGWHYpO7sHBUj6T."
               = true) by reflexivity.
  assert (Eu : option_map User.password (getUserByUsername "admin" seeded)
               = Some "$2b$10$Fh6MUHRGJDQgFRREWjGwH.zoD5mTJo/LP91zhcGWHYpO7sHBUj6T.")
    by (vm_compute; reflexivity).
  assert (Er : option_map User.role (getUserByUsername "admin" seeded)
               = Some "admin") by (vm_compute; reflexivity).
  split; [exact Hp|].
  destruct (getUserByUsername "admin" seeded) as [user|] eqn:E;
    [|discriminate Eu].
  injection Eu as Hpw.
  split.
  - rewrite (proj2 (bcrypt_hashes_accept_demo_passwords noScrypt "cliente123"
                      _ Hp) "admin" seeded user E Hpw).
    exact Er.
  - rewrite (proj2 (bcrypt_hashes_accept_demo_passwords noScrypt "admin124"
                      _ Hp) "admin" seeded user E Hpw).
    reflexivity.
Defined.

(** ** Registration *)

Lemma NoDup_snoc {A : Type} (l : list A) (x : A) :
  NoDup l -> ~ In x l -> NoDup (l ++ [x]).
Proof.
  intros Hl Hx. apply NoDup_app; auto.
  - constructor; [intros []|constructor].
  - intros a Ha [<-|[]]. contradiction.
Qed.

Lemma NoDup_snoc_inv {A : Type} (l : list A) (x : A) :
  NoDup (l ++ [x]) -> NoDup l /\ ~ In x l.
Proof.
  intros H. split.
  - now apply NoDup_app_remove_r in H.
  - apply NoDup_remove_2 with (l' := []) in H. now rewrite app_nil_r in H.
Qed.

Lemma find_None_iff_not_In {A : Type} (f : A -> string) (x : string)
    (m : JsMap.t A) :
  JsMap.find (fun a => String.eqb (f a) x) m = None <->
  ~ In x (map f (JsMap.values m)).
Proof.
  rewrite find_None. split.
  - intros Hnone Hin. apply in_map_iff in Hin. destruct Hin as (a & <- & Ha).
    specialize (Hnone a Ha). now rewrite String.eqb_refl in Hnone.
  - intros Hnot a Ha. apply String.eqb_neq. intros <-.
    apply Hnot. now apply in_map.
Qed.

(** In a reachable store [createUser] puts the new user at the end. *)
Lemma createUser_values user now s :
  reachable s ->
  JsMap.values (users (snd (createUser user now s)))
  = JsMap.values (users s) ++ [fst (createUser user now s)].
Proof.
  intros Hr. apply reachable_Inv in Hr. destruct Hr as [Hu].
  apply below_fresh in Hu. unfold createUser.
  cbn [fst snd users set_users set_userId].
  now apply values_set_fresh.
Qed.

(** The writes of a registration begin with [createUser] and leave the
    users alone afterwards. *)
Lemma registerWrites_user body hashedPassword now now1 now2 today s :
  fst (registerWrites body hashedPassword now now1 now2 today s)
  = fst (createUser (userData body hashedPassword) now s) /\
  users (snd (registerWrites body hashedPassword now now1 now2 today s))
  = users (snd (createUser (userData body hashedPassword) now s)).
Proof.
  unfold registerWrites.
  destruct (String.eqb _ "customer");
    [|destruct (String.eqb _ "shopowner")]; split; reflexivity.
Qed.

Lemma registerChecks_None body s :
  registerChecks body s = None <->
  getUserByUsername (RegisterBody.username body) s = None /\
  getUserByEmail (RegisterBody.email body) s = None.
Proof.
  unfold registerChecks.
  destruct (getUserByUsername _ s); [split; [discriminate|intros [? _]; discriminate]|].
  destruct (getUserByEmail _ s); [split; [discriminate|intros [_ ?]; discriminate]|].
  tauto.
Qed.

Lemma register_Created body hashedPassword now now1 now2 today s user s' :
  register body hashedPassword now now1 now2 today s = Created user s' ->
  registerChecks body s = None /\
  user = fst (registerWrites body hashedPassword now now1 now2 today s) /\
  s' = snd (registerWrites body hashedPassword now now1 now2 today s).
Proof.
  unfold register. destruct (registerChecks body s) as [[code error]|];
    [discriminate|].
  destruct (registerWrites body hashedPassword now now1 now2 today s).
  intros [= <- <-]. auto.
Qed.

(** After the writes on a reachable store with the username (the email)
    free, the new user is the one found under it. *)
Lemma registerWrites_lookup body hashedPassword now now1 now2 today s :
  reachable s ->
  (getUserByUsername (RegisterBody.username body) s = None ->
   getUserByUsername (RegisterBody.username body)
     (snd (registerWrites body hashedPassword now now1 now2 today s))
   = Some (fst (registerWrites body hashedPassword now now1 now2 today s))) /\
  (getUserByEmail (RegisterBody.email body) s = None ->
   getUserByEmail (RegisterBody.email body)
     (snd (registerWrites body hashedPassword now now1 now2 today s))
   = Some (fst (registerWrites body hashedPassword now now1 now2 today s))).
Proof.
  intros Hr.
  destruct (registerWrites_user body hashedPassword now now1 now2 today s)
    as [Huser Husers].
  pose proof (createUser_values (userData body hashedPassword) now s Hr) as Hv.
  unfold getUserByUsername, getUserByEmail, JsMap.find.
  rewrite Huser, Husers, Hv, !find_app.
  split; intros ->; simpl; now rewrite String.eqb_refl.
Qed.

(** X17.  [POST /api/register] refuses, with status 400, exactly when the
    username or the email is held by a user when it looks.  Its writes run
    after the password has been hashed, on the store as it is by then: on
    a reachable store whose usernames and emails are pairwise distinct
    they leave them pairwise distinct exactly when neither the username
    nor the email is held at that time.  So they stay distinct when no
    other request was served during the hashing, and they do not when
    another registration of the same username or email got its writes in
    first. *)
Theorem register_keeps_users_unique body hashedPassword now now1 now2 today s :
  reachable s -> uniqueUsers s ->
  (forall s0 code error,
      registerChecks body s0 = Some (code, error) ->
      code = 400 /\
      (getUserByUsername (RegisterBody.username body) s0 <> None \/
       getUserByEmail (RegisterBody.email body) s0 <> None)) /\
  (forall s0,
      registerChecks body s0 = None <->
      getUserByUsername (RegisterBody.username body) s0 = None /\
      getUserByEmail (RegisterBody.email body) s0 = None) /\
  (uniqueUsers (snd (registerWrites body hashedPassword now now1 now2 today s))
   <->
   getUserByUsername (RegisterBody.username body) s = None /\
   getUserByEmail (RegisterBody.email body) s = None) /\
  (forall user s',
      register body hashedPassword now now1 now2 today s = Created user s' ->
      uniqueUsers s' /\
      getUserByUsername (RegisterBody.username body) s' = Some user /\
      getUserByEmail (RegisterBody.email body) s' = Some user).
Proof.
  intros Hr [Hnames Hmails].
  assert (Hiff :
    uniqueUsers (snd (registerWrites body hashedPassword now now1 now2 today s))
    <->
    getUserByUsername (RegisterBody.username body) s = None /\
    getUserByEmail (RegisterBody.email body) s = None).
  { destruct (registerWrites_user body hashedPassword now now1 now2 today s)
      as [_ Husers].
    pose proof (createUser_values (userData body hashedPassword) now s Hr)
      as Hv.
    unfold uniqueUsers, getUserByUsername, getUserByEmail.
    rewrite Husers, Hv, !map_app, !find_None_iff_not_In. cbn [map].
    unfold createUser, userData.
    cbn [fst User.username User.email InsertUser.username InsertUser.email].
    split.
    - intros [H1 H2]. apply NoDup_snoc_inv in H1, H2. tauto.
    - intros [H1 H2]. split; now apply NoDup_snoc. }
  split; [|split; [exact (registerChecks_None body)|split; [exact Hiff|]]].
  - intros s0 code error. unfold registerChecks.
    destruct (getUserByUsername _ s0);
      [intros [= <- _]; split; auto; left; discriminate|].
    destruct (getUserByEmail _ s0);
      [intros [= <- _]; split; auto; right; discriminate|discriminate].
  - intros user s' E. apply register_Created in E.
    destruct E as (Hc & -> & ->). apply registerChecks_None in Hc.
    destruct (registerWrites_lookup body hashedPassword now now1 now2 today s Hr)
      as [Hn He].
    split; [now apply Hiff|]. split; [apply Hn | apply He]; apply Hc.
Qed.

Lemma uniqueUsers_seeded : uniqueUsers seeded.
Proof.
  assert (En : map User.username (JsMap.values (users seeded))
               = ["admin"; "lojista"; "cliente"]) by (vm_compute; reflexivity).
  assert (Ee : map User.email (JsMap.values (users seeded))
               = ["admin@moments.com"; "lojista@moments.com";
                  "cliente@email.com"]) by (vm_compute; reflexivity).
  unfold uniqueUsers. rewrite En, Ee.
  split; repeat constructor; simpl; intuition discriminate.
Qed.

(** Two registrations of "bia" that overlap: both are checked on the
    seeded store; the writes of the second run on the store left by the
    writes of the first. *)
Lemma register_keeps_users_unique_witness :
  reachable seeded /\ uniqueUsers seeded /\
  registerChecks takenUsername seeded
  = Some (400, "Nome de usuário já existe") /\
  registerChecks asCustomer seeded = None /\
  uniqueUsers (snd (registerWrites asCustomer "h.s" 7 8 9 10 seeded)) /\
  map User.username
    (JsMap.values
       (users
          (snd (registerWrites asCustomer "h.t" 11 12 13 14
                  (snd (registerWrites asCustomer "h.s" 7 8 9 10 seeded))))))
  = ["admin"; "lojista"; "cliente"; "bia"; "bia"].
Proof.
  split; [exact reachable_seeded|]. split; [exact uniqueUsers_seeded|].
  split; [vm_compute; reflexivity|]. split; [vm_compute; reflexivity|].
  split; [|vm_compute; reflexivity].
  assert (Hu : getUserByUsername (RegisterBody.username asCustomer) seeded
               = None) by (vm_compute; reflexivity).
  assert (He : getUserByEmail (RegisterBody.email asCustomer) seeded = None)
    by (vm_compute; reflexivity).
  destruct (register_keeps_users_unique asCustomer "h.s" 7 8 9 10 seeded
              reachable_seeded uniqueUsers_seeded) as (_ & _ & Hiff & _).
  exact (proj2 Hiff (conj Hu He)).
Defined.

(** X18.  What the writes of a registration add to the user depends on
    the role alone.  A customer (the default role) gets a Customer profile
    with the address and phone of the request, an empty one stored as
    [null].  A shop owner gets a new active store without slug, named
    after the request or "Loja de <name>", and a ShopOwner profile on a
    trial that ends 15 days (1296000000 ms) after the request; provided
    the store written to is reachable and holds no ShopOwner profile with
    the new user's id, [getStoreByOwner] of the new user is that store.
    Any other role gets the user alone. *)
Theorem register_profile_by_role body hashedPassword now now1 now2 today s :
  let user := fst (registerWrites body hashedPassword now now1 now2 today s) in
  let s' := snd (registerWrites body hashedPassword now now1 now2 today s) in
  let role := spread "customer" (RegisterBody.role body) in
  User.id user = userId s /\
  User.role user = role /\
  User.password user = hashedPassword /\
  (role = "customer" ->
   getCustomer (customerId s) s'
   = Some (Customer.mk (customerId s) (User.id user)
             (or_null_string (RegisterBody.address body))
             (or_null_string (RegisterBody.phone body))) /\
   stores s' = stores s /\ shopOwners s' = shopOwners s) /\
  (role = "shopowner" ->
   customers s' = customers s /\
   (exists store,
       getStore (storeId s) s' = Some store /\
       Store.id store = storeId s /\
       Store.name store
       = or_string (RegisterBody.storeName body)
           ("Loja de " ++ RegisterBody.name body) /\
       Store.active store = true /\ Store.slug store = None /\
       (reachable s -> getShopOwnerByUserId (userId s) s = None ->
        getStoreByOwner (User.id user) s' = Some store)) /\
   getShopOwner (shopOwnerId s) s'
   = Some (ShopOwner.mk (shopOwnerId s) (User.id user) (Some (storeId s))
             SubscriptionStatus.trial (Some (today + 1296000000))
             None None None)) /\
  (role <> "customer" -> role <> "shopowner" ->
   customers s' = customers s /\ stores s' = stores s /\
   shopOwners s' = shopOwners s).
Proof.
  cbv zeta. unfold registerWrites.
  destruct (String.eqb (spread "customer" (RegisterBody.role body)) "customer")
    eqn:Ec;
    [|destruct (String.eqb (spread "customer" (RegisterBody.role body))
                  "shopowner") eqn:Es].
  - apply String.eqb_eq in Ec.
    split; [reflexivity|]. split; [reflexivity|]. split; [reflexivity|].
    split; [|split].
    + intros _. unfold getCustomer, createCustomer, createUser.
      cbn [fst snd customers set_customers set_customerId set_users
           set_userId customerId User.id InsertCustomer.userId
           InsertCustomer.address InsertCustomer.phone].
      rewrite JsMapFacts.get_set_same. repeat split; reflexivity.
    + rewrite Ec. discriminate.
    + intros Hc. contradiction.
  - apply String.eqb_neq in Ec. apply String.eqb_eq in Es.
    split; [reflexivity|]. split; [reflexivity|]. split; [reflexivity|].
    split; [|split].
    + intros Hc. contradiction.
    + intros _. split; [reflexivity|]. split.
      * eexists. split; [|split; [|split; [|split; [|split]]]].
        -- unfold getStore, createShopOwner, createStore, createUser.
           cbn [fst snd stores set_stores set_storeId set_users set_userId
                set_shopOwners set_shopOwnerId storeId].
           apply JsMapFacts.get_set_same.
        -- reflexivity.
        -- reflexivity.
        -- reflexivity.
        -- reflexivity.
        -- intros Hr Hnone.
           pose proof (reachable_counter KStore s Hr) as Hpos.
           cbn [counter] in Hpos.
           apply getShopOwnerByUserId_find in Hnone.
           unfold getStoreByOwner, findShopOwnerByUserId in *.
           unfold createShopOwner, createStore, createUser.
           cbn [fst snd stores set_stores set_storeId set_users set_userId
                set_shopOwners set_shopOwnerId shopOwners storeId
                shopOwnerId User.id Store.id InsertShopOwner.userId
                InsertShopOwner.storeId
                InsertShopOwner.subscriptionStatus
                InsertShopOwner.subscriptionExpiresAt].
           rewrite (find_set_None _ _ _ _ Hnone)
             by (cbn [ShopOwner.userId Obj.val]; apply Z.eqb_refl).
           cbn [ShopOwner.storeId Obj.val].
           destruct (storeId s =? 0) eqn:E0;
             [apply Z.eqb_eq in E0; lia|].
           apply JsMapFacts.get_set_same.
      * unfold getShopOwner, createShopOwner, createStore, createUser.
        cbn [fst snd stores set_stores set_storeId set_users set_userId
             set_shopOwners set_shopOwnerId shopOwners storeId
             shopOwnerId User.id Store.id InsertShopOwner.userId
             InsertShopOwner.storeId InsertShopOwner.subscriptionStatus
             InsertShopOwner.subscriptionExpiresAt].
        rewrite JsMapFacts.get_set_same. reflexivity.
    + intros _ Hs. contradiction.
  - apply String.eqb_neq in Ec. apply String.eqb_neq in Es.
    split; [reflexivity|]. split; [reflexivity|]. split; [reflexivity|].
    split; [|split].
    + intros Hc. contradiction.
    + intros Hs. contradiction.
    + intros _ _. repeat split; reflexivity.
Qed.

Lemma register_profile_by_role_witness :
  reachable seeded /\ getShopOwnerByUserId (userId seeded) seeded = None /\
  User.id (fst (registerWrites asShopOwner "h.s" 7 8 9 10 seeded)) = 4 /\
  option_map Store.name
    (getStoreByOwner 4 (snd (registerWrites asShopOwner "h.s" 7 8 9 10 seeded)))
  = Some "Loja de Ana" /\
  option_map ShopOwner.subscriptionExpiresAt
    (getShopOwner 2 (snd (registerWrites asShopOwner "h.s" 7 8 9 10 seeded)))
  = Some (Some 1296000010).
Proof.
  assert (Hnone : getShopOwnerByUserId (userId seeded) seeded = None)
    by (vm_compute; reflexivity).
  assert (Eu : userId seeded = 4) by (vm_compute; reflexivity).
  assert (Es : shopOwnerId seeded = 2) by (vm_compute; reflexivity).
  split; [exact reachable_seeded|]. split; [exact Hnone|].
  destruct (register_profile_by_role asShopOwner "h.s" 7 8 9 10 seeded)
    as (Hid & _ & _ & _ & Hshop & _).
  destruct (Hshop eq_refl) as (_ & (store & _ & _ & Hname & _ & _ & Hjoin)
                               & Howner).
  rewrite Hid in Hjoin, Howner. rewrite Eu in Hid, Hjoin, Howner.
  rewrite Es in Howner.
  split; [exact Hid|]. split.
  - rewrite (Hjoin reachable_seeded Hnone). cbn [option_map].
    rewrite Hname. reflexivity.
  - rewrite Howner. reflexivity.
Defined.

Lemma register_accepts body hashedPassword now now1 now2 today s :
  getUserByUsername (RegisterBody.username body) s = None ->
  getUserByEmail (RegisterBody.email body) s = None ->
  register body hashedPassword now now1 now2 today s
  = Created (fst (registerWrites body hashedPassword now now1 now2 today s))
      (snd (registerWrites body hashedPassword now now1 now2 today s)).
Proof.
  intros Hu He. unfold register.
  rewrite (proj2 (registerChecks_None body s) (conj Hu He)).
  now destruct (registerWrites body hashedPassword now now1 now2 today s).
Qed.

(** X19.  [register] takes the role from the request as it is: a request
    that asks for the role "admin" under a free username and email is
    accepted, and the user it creates passes [isAdmin] and, without any
    shop-owner profile, [hasActiveSubscription]. *)
Theorem register_grants_requested_role body hashedPassword now now1 now2 today
    s :
  RegisterBody.role body = Some "admin" ->
  getUserByUsername (RegisterBody.username body) s = None ->
  getUserByEmail (RegisterBody.email body) s = None ->
  exists user s',
    register body hashedPassword now now1 now2 today s = Created user s' /\
    User.role user = "admin" /\
    isAdmin (Some user) = Next /\
    isShopOwner (Some user) = Next /\
    hasActiveSubscription (Some user) s' = Next.
Proof.
  intros Hrole Hu He.
  eexists. eexists. split; [now apply register_accepts|].
  rewrite (proj1 (registerWrites_user body hashedPassword now now1 now2 today s)).
  unfold isAdmin, isShopOwner, hasActiveSubscription, createUser, userData.
  cbn [fst User.role InsertUser.role]. rewrite Hrole. cbn [spread].
  repeat split; reflexivity.
Qed.

Lemma register_grants_requested_role_witness :
  RegisterBody.role asAdmin = Some "admin" /\
  getUserByUsername "mallory" seeded = None /\
  getUserByEmail "mallory@email.com" seeded = None /\
  exists user s',
    register asAdmin "h.s" 7 8 9 10 seeded = Created user s' /\
    isAdmin (Some user) = Next.
Proof.
  assert (Hu : getUserByUsername "mallory" seeded = None)
    by (vm_compute; reflexivity).
  assert (He : getUserByEmail "mallory@email.com" seeded = None)
    by (vm_compute; reflexivity).
  split; [reflexivity|]. split; [exact Hu|]. split; [exact He|].
  destruct (register_grants_requested_role asAdmin "h.s" 7 8 9 10 seeded
              eq_refl Hu He) as (user & s' & E & _ & Ha & _).
  exists user, s'. split; [exact E | exact Ha].
Defined.

(** ** Logging in after a registration *)

(** X20.  After the writes of a registration on a reachable store the new
    user is the one that the session id leads back to
    ([deserializeUser (serializeUser user)]).  If the username is not held
    on the store the writes run on (as when no other request was served
    during the hashing) and the hash is not in bcrypt format, [verify]
    logs the username in exactly when the scrypt comparison accepts the
    password against the stored hash; if the username is held by then,
    [verify] goes by the older user's password instead. *)
Theorem register_then_login scryptMatches body hashedPassword now now1 now2
    today s password :
  reachable s ->
  String.prefix "$2b$" hashedPassword = false ->
  let user := fst (registerWrites body hashedPassword now now1 now2 today s) in
  let s' := snd (registerWrites body hashedPassword now now1 now2 today s) in
  deserializeUser (serializeUser user) s' = Some user /\
  (getUserByUsername (RegisterBody.username body) s = None ->
   verify scryptMatches (RegisterBody.username body) password s'
   = if scryptMatches password hashedPassword then Some user else None) /\
  (forall older,
      getUserByUsername (RegisterBody.username body) s = Some older ->
      verify scryptMatches (RegisterBody.username body) password s'
      = if comparePasswords scryptMatches password (User.password older)
        then Some older else None).
Proof.
  intros Hr Hp. cbv zeta.
  destruct (registerWrites_user body hashedPassword now now1 now2 today s)
    as [Huser Husers].
  pose proof (createUser_values (userData body hashedPassword) now s Hr) as Hv.
  split; [|split].
  - unfold deserializeUser, serializeUser, getUser.
    rewrite Huser, Husers. unfold createUser.
    cbn [fst snd users set_users set_userId User.id].
    apply JsMapFacts.get_set_same.
  - intros Hfree.
    destruct (registerWrites_lookup body hashedPassword now now1 now2 today s Hr)
      as [Hn _].
    unfold verify. rewrite (Hn Hfree), Huser.
    unfold comparePasswords, createUser, userData.
    cbn [fst User.password InsertUser.password]. rewrite Hp.
    destruct (scryptMatches password hashedPassword); reflexivity.
  - intros older Hold. unfold verify.
    unfold getUserByUsername, JsMap.find in *.
    rewrite Husers, Hv, find_app, Hold.
    destruct (comparePasswords scryptMatches password (User.password older));
      reflexivity.
Qed.

Lemma register_then_login_witness :
  reachable seeded /\ String.prefix "$2b$" "h.s" = false /\
  getUserByUsername (RegisterBody.username asCustomer) seeded = None /\
  deserializeUser 4 (snd (registerWrites asCustomer "h.s" 7 8 9 10 seeded))
  = Some (fst (registerWrites asCustomer "h.s" 7 8 9 10 seeded)) /\
  verify noScrypt "bia" "segredo"
    (snd (registerWrites asCustomer "h.s" 7 8 9 10 seeded)) = None.
Proof.
  assert (Hu : getUserByUsername (RegisterBody.username asCustomer) seeded
               = None) by (vm_compute; reflexivity).
  assert (Eid : serializeUser
                  (fst (registerWrites asCustomer "h.s" 7 8 9 10 seeded)) = 4)
    by (vm_compute; reflexivity).
  split; [exact reachable_seeded|]. split; [reflexivity|]. split; [exact Hu|].
  destruct (register_then_login noScrypt asCustomer "h.s" 7 8 9 10 seeded
              "segredo" reachable_seeded eq_refl) as (H1 & H2 & _).
  rewrite Eid in H1. split; [exact H1 | exact (H2 Hu)].
Defined.

(** * The storefront cart *)

Module StoreFrontFacts.
Import StoreFront.

Lemma find_productId_None pid (cart : list CartItem) :
  find (fun item => productId item =? pid) cart = None <->
  ~ In pid (map productId cart).
Proof.
  induction cart as [|a l IH]; simpl; [tauto|].
  destruct (productId a =? pid) eqn:E.
  - apply Z.eqb_eq in E. split; [discriminate|]. intros H. exfalso. auto.
  - apply Z.eqb_neq in E. rewrite IH. tauto.
Qed.

Lemma map_productId_requantify pid (f : CartItem -> Z) (cart : list CartItem) :
  map productId
    (map (fun item =>
            if productId item =? pid
            then mkCartItem (productId item) (product item) (f item)
            else item) cart)
  = map productId cart.
Proof.
  induction cart as [|a l IH]; simpl; auto.
  rewrite IH. destruct (productId a =? pid); reflexivity.
Qed.

Lemma NoDup_map_filter (p : CartItem -> bool) (cart : list CartItem) :
  NoDup (map productId cart) -> NoDup (map productId (filter p cart)).
Proof.
  induction cart as [|a l IH]; simpl; auto.
  intros H. inversion H as [|? ? Hnot Hl]; subst.
  destruct (p a); simpl; auto. constructor; auto.
  intros Hin. apply Hnot. apply in_map_iff in Hin.
  destruct Hin as (b & Hb & Hin). apply filter_In in Hin.
  apply in_map_iff. exists b. tauto.
Qed.

Lemma addToCart_wellFormed p cart :
  wellFormed cart -> wellFormed (addToCart p cart).
Proof.
  intros [Hnd Hq]. unfold addToCart.
  destruct (find _ cart) eqn:E.
  - split.
    + now rewrite (map_productId_requantify (id p) (fun i => quantity i + 1)).
    + rewrite Forall_forall in *. intros x Hx. apply in_map_iff in Hx.
      destruct Hx as (y & <- & Hy). specialize (Hq y Hy).
      destruct (productId y =? id p); simpl; lia.
  - split.
    + rewrite map_app. simpl. apply NoDup_snoc; auto.
      now apply find_productId_None.
    + apply Forall_app. split; auto. constructor; [simpl; lia|constructor].
Qed.

Lemma removeFromCart_wellFormed pid cart :
  wellFormed cart -> wellFormed (removeFromCart pid cart).
Proof.
  intros [Hnd Hq]. unfold removeFromCart. split.
  - now apply NoDup_map_filter.
  - rewrite Forall_forall in *. intros x Hx. apply filter_In in Hx.
    apply Hq, Hx.
Qed.

Lemma updateQuantity_wellFormed pid q cart :
  wellFormed cart -> wellFormed (updateQuantity pid q cart).
Proof.
  intros [Hnd Hq]. unfold updateQuantity.
  destruct (q <? 1) eqn:E; [split; auto|]. apply Z.ltb_ge in E. split.
  - now rewrite (map_productId_requantify pid (fun _ => q)).
  - rewrite Forall_forall in *. intros x Hx. apply in_map_iff in Hx.
    destruct Hx as (y & <- & Hy). specialize (Hq y Hy).
    destruct (productId y =? pid); simpl; lia.
Qed.

(** X21.  Whatever the customer does, starting from the empty cart, the
    cart holds every product on one line only and no line with a quantity
    below one: adding a product twice raises the quantity of its line, and
    [updateQuantity] refuses a quantity below one. *)
Theorem cart_stays_well_formed (actions : list action) :
  wellFormed (shop actions []).
Proof.
  assert (H : forall cart, wellFormed cart -> wellFormed (shop actions cart)).
  { unfold shop. induction actions as [|a rest IH]; simpl; auto.
    intros cart Hwf. apply IH.
    destruct a; simpl;
      auto using addToCart_wellFormed, removeFromCart_wellFormed,
        updateQuantity_wellFormed. }
  apply H. split; constructor.
Qed.

Lemma quantityOf_requantify pid (f : CartItem -> Z) p (cart : list CartItem) :
  quantityOf p
    (map (fun item =>
            if productId item =? pid
            then mkCartItem (productId item) (product item) (f item)
            else item) cart)
  = match find (fun item => productId item =? p) cart with
    | Some item => if p =? pid then f item else quantity item
    | None => 0
    end.
Proof.
  unfold quantityOf. induction cart as [|a l IH]; simpl; auto.
  destruct (productId a =? pid) eqn:Ea; simpl.
  - destruct (productId a =? p) eqn:Ep; auto.
    apply Z.eqb_eq in Ea, Ep. subst. now rewrite Z.eqb_refl.
  - destruct (productId a =? p) eqn:Ep; auto.
    apply Z.eqb_eq in Ep. subst p. now rewrite Ea.
Qed.

(** X22.  The quantity of a product in the cart, 0 when it has no line,
    moves as follows: [addToCart] raises the quantity of the product
    added by one; [removeFromCart] brings the quantity of the product
    removed to 0; [updateQuantity] with a quantity of at least one sets it
    for a product that has a line, and with a smaller one changes nothing.
    No handler changes the quantity of any other product. *)
Theorem cart_quantities (p : Z) (cart : list CartItem) :
  (forall added,
      quantityOf p (addToCart added cart)
      = if p =? id added then quantityOf p cart + 1 else quantityOf p cart) /\
  (forall removed,
      quantityOf p (removeFromCart removed cart)
      = if p =? removed then 0 else quantityOf p cart) /\
  (forall changed newQuantity,
      quantityOf p (updateQuantity changed newQuantity cart)
      = if (1 <=? newQuantity) && (p =? changed) && inCart p cart
        then newQuantity else quantityOf p cart).
Proof.
  split; [|split].
  - intros added. unfold addToCart.
    destruct (find (fun item => productId item =? id added) cart) eqn:E.
    + rewrite (quantityOf_requantify (id added) (fun i => quantity i + 1)).
      unfold quantityOf.
      destruct (p =? id added) eqn:Ep.
      * apply Z.eqb_eq in Ep. subst p. now rewrite E.
      * destruct (find (fun item => productId item =? p) cart); reflexivity.
    + unfold quantityOf. rewrite find_app. simpl.
      destruct (p =? id added) eqn:Ep.
      * apply Z.eqb_eq in Ep. subst p. rewrite E, Z.eqb_refl. reflexivity.
      * rewrite Z.eqb_sym, Ep.
        destruct (find (fun item => productId item =? p) cart); reflexivity.
  - intros removed. unfold removeFromCart, quantityOf.
    destruct (p =? removed) eqn:Epr.
    + apply Z.eqb_eq in Epr. subst removed.
      induction cart as [|a l IH]; simpl; auto.
      destruct (productId a =? p) eqn:Ea; simpl; auto. now rewrite Ea.
    + induction cart as [|a l IH]; simpl; auto.
      destruct (productId a =? removed) eqn:Ea; simpl.
      * apply Z.eqb_eq in Ea. subst removed.
        rewrite Z.eqb_sym, Epr. exact IH.
      * destruct (productId a =? p); auto.
  - intros changed newQuantity. unfold updateQuantity.
    rewrite Z.leb_antisym.
    destruct (newQuantity <? 1); [reflexivity|]. cbn [negb andb].
    rewrite (quantityOf_requantify changed (fun _ => newQuantity)).
    unfold quantityOf, inCart.
    induction cart as [|a l IH]; simpl.
    + now rewrite andb_false_r.
    + destruct (productId a =? p); simpl; auto.
      rewrite andb_true_r. reflexivity.
Qed.

(** X23.  Removing a product right after adding it gives back the cart
    as it was, when the product had no line; in any case the product then
    has no line.  Adding a product lengthens the cart by one line exactly
    when the product had none. *)
Theorem add_then_remove (added : Product) (cart : list CartItem) :
  (inCart (id added) cart = false ->
   removeFromCart (id added) (addToCart added cart) = cart) /\
  inCart (id added) (removeFromCart (id added) (addToCart added cart))
  = false /\
  List.length (addToCart added cart)
  = (List.length cart + (if inCart (id added) cart then 0 else 1))%nat.
Proof.
  assert (Hfind : forall l : list CartItem,
             inCart (id added) l = false <->
             find (fun item => productId item =? id added) l = None).
  { intros l. unfold inCart. induction l as [|a l IH]; simpl; [tauto|].
    destruct (productId a =? id added); simpl; [split; discriminate|auto]. }
  assert (Hkeep : forall l : list CartItem,
             inCart (id added) l = false ->
             removeFromCart (id added) l = l).
  { intros l. unfold inCart, removeFromCart.
    induction l as [|a l IH]; simpl; auto.
    destruct (productId a =? id added); simpl; [discriminate|].
    intros H. now rewrite IH. }
  split; [|split].
  - intros Hno. unfold addToCart. rewrite (proj1 (Hfind cart) Hno).
    unfold removeFromCart. rewrite filter_app. simpl.
    rewrite Z.eqb_refl. simpl. rewrite app_nil_r. now apply Hkeep.
  - unfold inCart, removeFromCart.
    generalize (addToCart added cart) as l.
    induction l as [|a l IH]; simpl; auto.
    destruct (productId a =? id added) eqn:E; simpl; auto.
    now rewrite E.
  - unfold addToCart. destruct (inCart (id added) cart) eqn:E.
    + destruct (find _ cart) eqn:F.
      * rewrite length_map. lia.
      * apply Hfind in F. congruence.
    + rewrite (proj1 (Hfind cart) E). rewrite length_app. reflexivity.
Qed.

Lemma add_then_remove_witness :
  inCart 7 (shop [Add creme; Add creme] []) = false /\
  removeFromCart 7 (addToCart batom (shop [Add creme; Add creme] []))
  = [mkCartItem 1 creme 2].
Proof.
  assert (E : inCart (id batom) (shop [Add creme; Add creme] []) = false)
    by (vm_compute; reflexivity).
  split; [exact E|].
  exact (proj1 (add_then_remove batom (shop [Add creme; Add creme] [])) E).
Defined.

(** ** The WhatsApp link *)

Lemma digitsOnly_app (a b : string) :
  digitsOnly (a ++ b) = (digitsOnly a ++ digitsOnly b)%string.
Proof.
  induction a as [|c a IH]; simpl; auto.
  destruct (isDigit c); simpl; now rewrite IH.
Qed.

Lemma isDigit_spec (c : Ascii.ascii) :
  isDigit c
  = existsb (Ascii.eqb c)
      (list_ascii_of_string "0123456789").
Proof. destruct c as [[] [] [] [] [] [] [] []]; reflexivity. Qed.

(** X24.  The storefront's WhatsApp link is "https://wa.me/" followed by
    the characters of the store's number that are one of 0 to 9, in their
    order, every other character being removed: what follows the prefix
    is the number filtered by membership in the ten digits.  So every
    character after the prefix is a digit, a number made of digits is
    kept as it is, a number with no digit leaves the bare prefix, and no
    character is added: the link is never longer than the prefix and the
    number together. *)
Theorem whatsappLink_digits (whatsappNumber : string) :
  let digit c :=
    existsb (Ascii.eqb c)
      (list_ascii_of_string "0123456789") in
  let characters := list_ascii_of_string whatsappNumber in
  whatsappLink whatsappNumber
  = ("https://wa.me/" ++ string_of_list_ascii (filter digit characters))%string
  /\
  (forall c, In c (list_ascii_of_string (digitsOnly whatsappNumber)) <->
             In c characters /\ digit c = true) /\
  (forallb digit characters = true ->
   whatsappLink whatsappNumber = ("https://wa.me/" ++ whatsappNumber)%string)
  /\
  (forallb (fun c => negb (digit c)) characters = true ->
   whatsappLink whatsappNumber = "https://wa.me/") /\
  (String.length (whatsappLink whatsappNumber)
   <= 14 + String.length whatsappNumber)%nat.
Proof.
  cbv zeta.
  set (digit := fun c =>
                  existsb (Ascii.eqb c) (list_ascii_of_string "0123456789")).
  assert (Hd : forall c, isDigit c = digit c) by exact isDigit_spec.
  clearbody digit.
  assert (Hfilter : digitsOnly whatsappNumber
                    = string_of_list_ascii
                        (filter digit (list_ascii_of_string whatsappNumber))).
  { induction whatsappNumber as [|c r IH]; [reflexivity|].
    cbn [digitsOnly list_ascii_of_string filter].
    rewrite <- Hd. destruct (isDigit c); cbn [string_of_list_ascii];
      now rewrite IH. }
  split; [unfold whatsappLink; now rewrite Hfilter|].
  split; [|split; [|split]].
  - intros c. rewrite Hfilter, list_ascii_of_string_of_list_ascii.
    apply filter_In.
  - intros Hall. unfold whatsappLink. f_equal. clear Hfilter.
    induction whatsappNumber as [|c r IH]; [reflexivity|].
    cbn [list_ascii_of_string forallb] in Hall.
    apply andb_true_iff in Hall. destruct Hall as [Hc Hr].
    cbn [digitsOnly]. rewrite Hd, Hc. f_equal. now apply IH.
  - intros Hnone. unfold whatsappLink.
    replace (digitsOnly whatsappNumber) with EmptyString; [reflexivity|].
    clear Hfilter.
    induction whatsappNumber as [|c r IH]; [reflexivity|].
    cbn [list_ascii_of_string forallb] in Hnone.
    apply andb_true_iff in Hnone. destruct Hnone as [Hc Hr].
    cbn [digitsOnly]. rewrite Hd.
    apply negb_true_iff in Hc. rewrite Hc. now apply IH.
  - unfold whatsappLink. cbn [String.append String.length].
    do 14 apply le_n_S. clear Hfilter.
    induction whatsappNumber as [|c r IH]; [apply le_n|].
    cbn [digitsOnly]. destruct (isDigit c); cbn [String.length]; lia.
Qed.

Example whatsappLink_formatted_number :
  whatsappLink "+55 (11) 98765-4321" = "https://wa.me/5511987654321".
Proof. reflexivity. Qed.

End StoreFrontFacts.
